(** * Semantic memory engine of the support agent: model and verification

    A shallow embedding of the TypeScript sources
    - [src/agent/prompts.ts]   (token estimate, [buildContext]),
    - [src/models/ollama.ts]   (embedding cache of [OllamaClient]),
    - [src/memory/vectorStore.ts] ([VectorStore], the adapter over the index),
    - [src/memory/memoryManager.ts] ([MemoryManager]),
    followed by the properties proved about them.

    Conventions of the model.
    - A JavaScript number is a rational [Q]; NaN and the infinities are not
      represented, so arithmetic is exact where the engine uses IEEE doubles.
    - A JavaScript string is a [string], read as a sequence of code units;
      [toLowerCase] and the case-insensitive patterns act on the ASCII letters.
    - String-typed tags ([type], [category]) stay strings, as in the code.
    - [Date.now()] and [uuidv4()] are inputs: the clock value is passed in or
      read from the world, identifiers are drawn from a supply.
    - Token counts and budgets are integers ([Z]); limits, caps and indices
      are natural numbers.
    - An [async] method is a state transformer that returns either a value or
      a thrown error together with the new state. *)

From Stdlib Require Import ZArith QArith Qround Qminmax Lia Lqa.
From Stdlib Require Import Ascii String DecimalString.
From stdpp Require Import base option list sorting strings gmap.

#[local] Open Scope Z_scope.

(** ** JavaScript primitives *)

Module Js.

(** [x || d] for a possibly missing number: [undefined] and [0] are falsy. *)
Definition num_or (x : option Q) (d : Q) : Q :=
  match x with
  | Some v => if Qeq_bool v 0 then d else v
  | None => d
  end.

(** [x || d] for a possibly missing natural number. *)
Definition nat_or (x : option nat) (d : nat) : nat :=
  match x with
  | Some (S n) => S n
  | _ => d
  end.

(** [s || d] for a possibly missing string: [undefined] and [''] are falsy. *)
Definition str_or (x : option string) (d : string) : string :=
  match x with
  | Some EmptyString | None => d
  | Some s => s
  end.

Definition is_upper (c : ascii) : bool :=
  ((65 <=? nat_of_ascii c) && (nat_of_ascii c <=? 90))%nat.

Definition is_lower (c : ascii) : bool :=
  ((97 <=? nat_of_ascii c) && (nat_of_ascii c <=? 122))%nat.

Definition is_digit (c : ascii) : bool :=
  ((48 <=? nat_of_ascii c) && (nat_of_ascii c <=? 57))%nat.

(** [[a-zA-Z]] *)
Definition is_letter (c : ascii) : bool := is_upper c || is_lower c.

(** [\w] *)
Definition is_word (c : ascii) : bool :=
  is_letter c || is_digit c || (nat_of_ascii c =? 95)%nat.

(** [\s], and the characters removed by [trim]. *)
Definition is_space (c : ascii) : bool :=
  let n := nat_of_ascii c in
  ((9 <=? n) && (n <=? 13) || (n =? 32) || (n =? 160))%nat.

(** Line terminators, which [.] does not match. *)
Definition is_newline (c : ascii) : bool :=
  ((nat_of_ascii c =? 10) || (nat_of_ascii c =? 13))%nat.

Definition lower_char (c : ascii) : ascii :=
  if is_upper c then ascii_of_nat (nat_of_ascii c + 32) else c.

Fixpoint toLowerCase (s : string) : string :=
  match s with
  | EmptyString => EmptyString
  | String c r => String (lower_char c) (toLowerCase r)
  end.

Definition startsWith (p s : string) : bool := String.prefix p s.

(** [s.includes(p)] *)
Fixpoint includes (p s : string) : bool :=
  match s with
  | EmptyString => String.prefix p EmptyString
  | String _ r => String.prefix p s || includes p r
  end.

Fixpoint trimStart (s : string) : string :=
  match s with
  | String c r => if is_space c then trimStart r else s
  | EmptyString => EmptyString
  end.

Definition trim (s : string) : string :=
  String.rev (trimStart (String.rev (trimStart s))).

(** [s.substring(0, n)] *)
Definition substring0 (n : nat) (s : string) : string := String.substring 0 n s.

(** [`${z}`] for an integer-valued number. *)
Definition string_of_Z (z : Z) : string := NilZero.string_of_int (Z.to_int z).

(** [parts.join(sep)] *)
Definition join (sep : string) (parts : list string) : string :=
  String.concat sep parts.

End Js.

(** ** Data model ([types/index.ts], as used by the sources) *)

(** A metadata value: the index stores strings and numbers. *)
Inductive value : Type :=
| VStr (s : string)
| VNum (q : Q).

Record Memory : Type := mkMemory {
  id : string;
  userId : string;
  content : string;
  type : string;          (* conversation | extracted_fact | preference | sentiment | event *)
  category : string;      (* bug_report | feature_request | question | feedback | technical | general *)
  timestamp : Q;
  sessionId : option string;
  importance : Q;
  relevance : option Q;
  metadata : gmap string value
}.

(** ** [Array.prototype.sort]

    The engine sorts with comparators of the form [(a, b) => key(b) - key(a)].
    ECMAScript requires the sort to be stable, so for such a comparator the
    result is the stable arrangement by descending key, which is what the
    insertion below computes: reading the array from the right, an element is
    put in front of the first element whose key does not exceed its own. *)

Section Sort.
Context {A : Type} (key : A -> Q).

Fixpoint insertDesc (x : A) (l : list A) : list A :=
  match l with
  | [] => [x]
  | y :: r => if Qle_bool (key y) (key x) then x :: l else y :: insertDesc x r
  end.

Definition sortDesc (l : list A) : list A := foldr insertDesc [] l.

(** [x] occurs at an earlier position than [y]. *)
Definition before (x y : A) (l : list A) : Prop :=
  exists l1 l2 l3, l = l1 ++ x :: l2 ++ y :: l3.

End Sort.

(** ** [prompts.ts]: context assembly *)

Module Prompts.

Definition nl : string := String (ascii_of_nat 10) EmptyString.

(** [Math.ceil(text.length / 4)] *)
Definition estimateTokens (text : string) : Z :=
  (Z.of_nat (String.length text) + 3) / 4.

Definition msPerDay : Q := (1000 * 60 * 60 * 24)%Q.

(** Score of the second ranking pass. *)
Definition contextScore (now : Q) (m : Memory) : Q :=
  let ageInDays := ((now - timestamp m) / msPerDay)%Q in
  let recencyScore := Qmax 0 (1 - ageInDays / 365)%Q in
  (importance m * 0.7 + recencyScore * 0.3)%Q.

(** The two variables the closure [addSection] updates. *)
Record Builder : Type := mkBuilder {
  sections : list string;
  currentTokens : Z
}.

Definition push (s : string) (b : Builder) : Builder :=
  {| sections := sections b ++ [s]; currentTokens := currentTokens b |}.

Definition charge (n : Z) (b : Builder) : Builder :=
  {| sections := sections b; currentTokens := currentTokens b + n |}.

Definition daysAgo (now : Q) (item : Memory) : Z :=
  Qfloor ((now - timestamp item) / 1000 / 60 / 60 / 24)%Q.

Definition timeStr (d : Z) : string :=
  if d =? 0 then "today"
  else if d =? 1 then "yesterday"
  else Js.string_of_Z d +:+ " days ago".

Definition clip (charLimit : nat) (text : string) : string :=
  if (charLimit <? String.length text)%nat
  then Js.substring0 charLimit text +:+ "..."
  else text.

Definition formatLine (now : Q) (charLimit i : nat) (item : Memory) : string :=
  Js.string_of_Z (Z.of_nat i + 1) +:+ ". [" +:+ timeStr (daysAgo now item)
    +:+ "] " +:+ clip charLimit (content item).

Definition truncationMarker (dropped : nat) : string :=
  "... (" +:+ Js.string_of_Z (Z.of_nat dropped)
    +:+ " more items truncated due to context limit)".

(** The [for] loop of [addSection], at index [i], over the items not yet
    visited; [total] is [items.length]. *)
Fixpoint addLines (maxTokens : Z) (now : Q) (charLimit total i : nat)
    (items : list Memory) (b : Builder) : Builder :=
  match items with
  | [] => b
  | item :: rest =>
      let line := formatLine now charLimit i item in
      let lineTokens := estimateTokens line in
      if maxTokens <? currentTokens b + lineTokens
      then push (truncationMarker (total - i)) b
      else addLines maxTokens now charLimit total (S i) rest
             (charge lineTokens (push line b))
  end.

Definition addSection (maxTokens : Z) (now : Q) (title : string)
    (items : list Memory) (maxItems charLimit : nat) (b : Builder) : Builder :=
  match items with
  | [] => b
  | _ =>
      let sectionStart := nl +:+ title in
      let b1 := charge (estimateTokens sectionStart) b in
      if maxTokens <=? currentTokens b1 then b1
      else addLines maxTokens now charLimit (length items) 0
             (take (Nat.min (length items) maxItems) items)
             (push sectionStart b1)
  end.

(** One call of [addSection]: title, items, item cap, character cap. *)
Definition SectionCall : Type := string * list Memory * nat * nat.

Definition runSection (maxTokens : Z) (now : Q) (b : Builder) (s : SectionCall) : Builder :=
  let '(title, items, maxItems, charLimit) := s in
  addSection maxTokens now title items maxItems charLimit b.

(** The five calls of [buildContext], in priority order. *)
Definition plan (now : Q) (memories : list Memory) : list SectionCall :=
  let sortedMemories := sortDesc (contextScore now) memories in
  let bugReports := filter (fun m => category m = "bug_report") sortedMemories in
  let featureRequests := filter (fun m => category m = "feature_request") sortedMemories in
  let preferences :=
    filter (fun m => type m = "preference" \/ type m = "extracted_fact") sortedMemories in
  let sentiment := filter (fun m => type m = "sentiment") sortedMemories in
  let recent := take 3 (filter (fun m => type m = "conversation") sortedMemories) in
  [ ("CUSTOMER PROFILE:", preferences, 10, 150);
    ("KNOWN ISSUES:", bugReports, 5, 120);
    ("FEATURE REQUESTS:", featureRequests, 5, 120);
    ("SENTIMENT HISTORY:", sentiment, 3, 100);
    ("RECENT INTERACTIONS:", recent, 3, 200) ]%nat.

Definition emptyBuilder : Builder := {| sections := []; currentTokens := 0 |}.

(** The array [sections] when [buildContext] reaches [join]. *)
Definition contextSections (now : Q) (memories : list Memory) (maxTokens : Z)
    : list string :=
  sections (foldl (runSection maxTokens now) emptyBuilder (plan now memories)).

Definition buildContext (now : Q) (memories : list Memory) (maxTokens : Z) : string :=
  match memories with
  | [] => "No previous context available for this customer."
  | _ => Js.join nl (contextSections now memories maxTokens)
  end.

Definition defaultMaxTokens : Z := 2000.

End Prompts.

(** ** Thrown errors *)

Inductive result (A : Type) : Type :=
| Ok (a : A)
| Throw (msg : string).
Arguments Ok {A} a.
Arguments Throw {A} msg.

(** ** [ollama.ts]: the client in front of the embedding and chat models *)

Definition Embedding : Type := list Q.

Record ChatMessage : Type := mkChatMessage { role : string; msgContent : string }.

Module Ollama.

Record Stats : Type := mkStats {
  cacheHits : nat;
  cacheMisses : nat;
  totalEmbeddings : nat;
  totalChats : nat
}.

(** [embeddingCache] is a JavaScript [Map]: its keys are unique and kept in
    insertion order. *)
Record Client : Type := mkClient {
  embeddingCache : list (string * Embedding);
  stats : Stats
}.

Definition MAX_CACHE_SIZE : nat := 1000.

Definition create : Client :=
  {| embeddingCache := []; stats := mkStats 0 0 0 0 |}.

(** [Map.prototype.get] *)
Fixpoint mapGet (k : string) (m : list (string * Embedding)) : option Embedding :=
  match m with
  | [] => None
  | (k', v) :: r => if decide (k = k') then Some v else mapGet k r
  end.

(** [Map.prototype.set]: an existing key keeps its position. *)
Fixpoint mapSet (k : string) (v : Embedding) (m : list (string * Embedding))
    : list (string * Embedding) :=
  match m with
  | [] => [(k, v)]
  | (k', v') :: r => if decide (k = k') then (k, v) :: r else (k', v') :: mapSet k v r
  end.

(** [Map.prototype.delete] *)
Definition mapDelete (k : string) (m : list (string * Embedding))
    : list (string * Embedding) :=
  filter (fun kv => kv.1 <> k) m.

(** The distinct texts of a run of requests, in the order in which they are
    first requested. *)
Fixpoint firsts (texts : list string) : list string :=
  match texts with
  | [] => []
  | t :: rest => t :: filter (fun u => u <> t) (firsts rest)
  end.

Definition keysOf (c : Client) : list string := fst <$> embeddingCache c.

Section Client.
(** [getCacheKey]: the SHA-256 digest of the text, in hexadecimal. *)
Variable getCacheKey : string -> string.
(** [this.client.embeddings({model, prompt})], the embedding provider. *)
Variable embeddings : string -> result Embedding.
(** [this.client.chat({model, messages, stream: false})], the chat model. *)
Variable chatCompletion : list ChatMessage -> result string.

Definition cacheEmbedding (text : string) (embedding : Embedding) (c : Client) : Client :=
  let key := getCacheKey text in
  let cache :=
    if (MAX_CACHE_SIZE <=? length (embeddingCache c))%nat
    then match embeddingCache c with
         | (firstKey, _) :: _ => mapDelete firstKey (embeddingCache c)
         | [] => []
         end
    else embeddingCache c in
  {| embeddingCache := mapSet key embedding cache; stats := stats c |}.

Definition countEmbedding (c : Client) : Client :=
  let s := stats c in
  {| embeddingCache := embeddingCache c;
     stats := mkStats (cacheHits s) (cacheMisses s) (S (totalEmbeddings s)) (totalChats s) |}.

Definition countHit (c : Client) : Client :=
  let s := stats c in
  {| embeddingCache := embeddingCache c;
     stats := mkStats (S (cacheHits s)) (cacheMisses s) (totalEmbeddings s) (totalChats s) |}.

Definition countMiss (c : Client) : Client :=
  let s := stats c in
  {| embeddingCache := embeddingCache c;
     stats := mkStats (cacheHits s) (S (cacheMisses s)) (totalEmbeddings s) (totalChats s) |}.

Definition countChat (c : Client) : Client :=
  let s := stats c in
  {| embeddingCache := embeddingCache c;
     stats := mkStats (cacheHits s) (cacheMisses s) (totalEmbeddings s) (S (totalChats s)) |}.

(** The provider call and what follows it in [generateEmbedding]. *)
Definition fetchEmbedding (text : string) (useCache : bool) (c : Client)
    : result Embedding * Client :=
  match embeddings text with
  | Ok embedding =>
      (Ok embedding, if useCache then cacheEmbedding text embedding c else c)
  | Throw msg => (Throw ("Embedding generation failed: " +:+ msg), c)
  end.

Definition generateEmbedding (text : string) (useCache : bool) (c : Client)
    : result Embedding * Client :=
  let c := countEmbedding c in
  if useCache then
    match mapGet (getCacheKey text) (embeddingCache c) with
    | Some cached => (Ok cached, countHit c)
    | None => fetchEmbedding text useCache (countMiss c)
    end
  else fetchEmbedding text useCache c.

Definition chat (messages : list ChatMessage) (c : Client) : result string * Client :=
  let c := countChat c in
  match chatCompletion (map (fun m => mkChatMessage (role m) (msgContent m)) messages) with
  | Ok reply => (Ok reply, c)
  | Throw msg => (Throw ("Chat failed: " +:+ msg), c)
  end.

Definition clearCache (c : Client) : Client :=
  let s := stats c in
  {| embeddingCache := [];
     stats := mkStats 0 0 (totalEmbeddings s) (totalChats s) |}.

(** [generateEmbeddings]: [Promise.all] over [texts.map(generateEmbedding)].
    Each call runs up to its request to the provider before any answer is
    handled; [beginEmbedding] is that part, with [None] for a call that waits
    for the provider. *)
Definition beginEmbedding (text : string) (c : Client) : option Embedding * Client :=
  let c := countEmbedding c in
  match mapGet (getCacheKey text) (embeddingCache c) with
  | Some cached => (Some cached, countHit c)
  | None => (None, countMiss c)
  end.

Definition startAll (texts : list string) (c : Client)
    : list (string * option Embedding) * Client :=
  foldl (fun '(started, c) text =>
           let '(hit, c) := beginEmbedding text c in (started ++ [(text, hit)], c))
    ([], c) texts.

(** The texts whose calls wait for the provider. *)
Definition pendingOf (started : list (string * option Embedding)) : list string :=
  fst <$> filter (fun call => call.2 = None) started.

(** The answers of the provider, handled in the order [arrival] in which
    they come in, up to the first failure. *)
Fixpoint settle (arrival : list string) (c : Client) : result unit * Client :=
  match arrival with
  | [] => (Ok tt, c)
  | text :: rest =>
      match fetchEmbedding text true c with
      | (Ok _, c) => settle rest c
      | (Throw msg, c) => (Throw msg, c)
      end
  end.

(** The vectors of the calls, in the order of the texts. *)
Definition vectorsOf (started : list (string * option Embedding)) : list Embedding :=
  omap (fun '(text, hit) =>
          match hit with
          | Some cached => Some cached
          | None => match embeddings text with
                    | Ok embedding => Some embedding
                    | Throw _ => None
                    end
          end) started.

(** [arrival] lists the waiting texts in the order in which the provider
    answers them. [Promise.all] rejects with the first failure to arrive and
    resolves, once every answer is in, with the vectors in the order of the
    texts. *)
Definition generateEmbeddings (arrival : list string) (texts : list string) (c : Client)
    : result (list Embedding) * Client :=
  let '(started, c) := startAll texts c in
  match settle arrival c with
  | (Ok _, c) => (Ok (vectorsOf started), c)
  | (Throw msg, c) => (Throw msg, c)
  end.

(** A run of [generateEmbedding] calls with the cache enabled. *)
Definition embedAll (texts : list string) (c : Client) : Client :=
  foldl (fun c text => (generateEmbedding text true c).2) c texts.

End Client.

End Ollama.

(** ** The world the engine runs in *)

(** One record of the vector index: id, vector, text and flat metadata. *)
Record Entry : Type := mkEntry {
  entryId : string;
  entryEmbedding : Embedding;
  entryDocument : string;
  entryMetadata : gmap string value
}.

(** One row of a nearest-neighbour answer. *)
Record Hit : Type := mkHit {
  hitId : string;
  hitDocument : string;
  hitMetadata : gmap string value;
  hitDistance : Q
}.

(** The operations of the ChromaDB collection that the adapter calls. The
    index is an external collaborator: every call may fail. A [where] clause is
    a conjunction of equalities on metadata fields. *)
Class VectorIndex (C : Type) : Type := {
  collectionAdd : Entry -> C -> result C;
  collectionQuery : Embedding -> nat -> option (gmap string value) -> C -> result (list Hit);
  collectionGet : gmap string value -> C -> result (list Entry);
  collectionDelete : list string -> C -> result C
}.

(** The further operations of the ChromaDB client and collection that the
    adapter calls outside the paths of storage and search:
    [client.getOrCreateCollection], [collection.count], [collection.add] of
    several records, [collection.get({ids})] and [collection.delete({where})]. *)
Class VectorIndexAdmin (C : Type) : Type := {
  getOrCreateCollection : C -> result C;
  collectionCount : C -> result nat;
  collectionAddMany : list Entry -> C -> result C;
  collectionGetIds : list string -> C -> result (list Entry);
  collectionDeleteWhere : gmap string value -> C -> result C
}.

(** A parsed JSON text. *)
#[warnings="-register-all"]
Inductive json : Type :=
| JNull
| JBool (b : bool)
| JNum (q : Q)
| JStr (s : string)
| JArr (items : list json)
| JObj (fields : list (string * json)).

(** What the engine takes from outside: the hash, the two models, the
    identifier supply and two ECMAScript built-ins that are not modelled. *)
Record Externals : Type := mkExternals {
  getCacheKey : string -> string;
  embeddings : string -> result Embedding;
  chatCompletion : list ChatMessage -> result string;
  (** the [n]-th identifier that [uuidv4()] returns *)
  uuidv4 : nat -> string;
  (** [JSON.parse]; [None] when it throws a [SyntaxError] *)
  JSON_parse : string -> option json;
  (** [parseFloat] of a string, array or object; [None] for [NaN] *)
  parseFloatText : json -> option Q
}.

(** The singletons [ollamaClient], [vectorStore] and [memoryManager], the
    clock and the number of identifiers drawn so far. *)
Record World (C : Type) : Type := mkWorld {
  ollamaClient : Ollama.Client;
  collection : C;
  storeInitialized : bool;
  managerInitialized : bool;
  clock : Q;
  drawn : nat
}.
Arguments mkWorld {C}.
Arguments ollamaClient {C}.
Arguments collection {C}.
Arguments storeInitialized {C}.
Arguments managerInitialized {C}.
Arguments clock {C}.
Arguments drawn {C}.

(** An [async] method: a state transformer that returns or throws. What it
    did to the world before throwing stays done. *)
Definition M (C A : Type) : Type := World C -> result A * World C.

#[global] Instance M_ret {C : Type} : MRet (M C) := fun A a w => (Ok a, w).

#[global] Instance M_bind {C : Type} : MBind (M C) := fun A B k m w =>
  match m w with
  | (Ok a, w') => k a w'
  | (Throw msg, w') => (Throw msg, w')
  end.

Definition throw {C A : Type} (msg : string) : M C A := fun w => (Throw msg, w).

(** [try { m } catch (error) { handler(error.message) }] *)
Definition tryCatch {C A : Type} (m : M C A) (handler : string -> M C A) : M C A :=
  fun w =>
    match m w with
    | (Ok a, w') => (Ok a, w')
    | (Throw msg, w') => handler msg w'
    end.

Definition dateNow {C : Type} : M C Q := fun w => (Ok (clock w), w).

Definition liftClient {C A : Type} (f : Ollama.Client -> result A * Ollama.Client) : M C A :=
  fun w =>
    let '(r, c) := f (ollamaClient w) in
    (r, mkWorld c (collection w) (storeInitialized w) (managerInitialized w)
          (clock w) (drawn w)).

(** The same world at a later reading of the clock. *)
Definition atTime {C : Type} (t : Q) (w : World C) : World C :=
  mkWorld (ollamaClient w) (collection w) (storeInitialized w) (managerInitialized w)
    t (drawn w).

(** A call that reads the collection. *)
Definition readCollection {C A : Type} (f : C -> result A) : M C A :=
  fun w => (f (collection w), w).

Definition withCollection {C : Type} (c : C) (w : World C) : World C :=
  mkWorld (ollamaClient w) c (storeInitialized w) (managerInitialized w)
    (clock w) (drawn w).

(** A call that changes the collection; a failed call leaves it as it was. *)
Definition writeCollection {C : Type} (f : C -> result C) : M C unit :=
  fun w =>
    match f (collection w) with
    | Ok c => (Ok tt, withCollection c w)
    | Throw msg => (Throw msg, w)
    end.

(** The methods of the singleton [ollamaClient], and [uuidv4()]. *)
Section Singletons.
Context {C : Type} (E : Externals).

Definition generateEmbedding (text : string) : M C Embedding :=
  liftClient (Ollama.generateEmbedding (getCacheKey E) (embeddings E) text true).

Definition chat (messages : list ChatMessage) : M C string :=
  liftClient (Ollama.chat (chatCompletion E) messages).

Definition newId : M C string :=
  fun w => (Ok (uuidv4 E (drawn w)),
            mkWorld (ollamaClient w) (collection w) (storeInitialized w)
              (managerInitialized w) (clock w) (S (drawn w))).

End Singletons.

(** ** [vectorStore.ts]: the adapter over the index *)

(** [Memory] together with its vector ([VectorMemory]). *)
Record VectorMemory : Type := mkVectorMemory {
  memoryOf : Memory;
  embedding : Embedding
}.

Record SearchResult : Type := mkSearchResult {
  memory : Memory;
  distance : Q;
  resultRelevance : Q
}.

Record Filters : Type := mkFilters {
  filterUserId : option string;
  filterCategory : option string;
  filterType : option string;
  timestampGte : option Q;
  timestampLte : option Q
}.

Module VectorStore.

Definition strField (k : string) (md : gmap string value) : option string :=
  match md !! k with
  | Some (VStr s) => Some s
  | _ => None
  end.

Definition numField (k : string) (md : gmap string value) : option Q :=
  match md !! k with
  | Some (VNum q) => Some q
  | _ => None
  end.

(** [s || undefined] *)
Definition nonEmpty (s : option string) : option string :=
  match s with
  | Some EmptyString | None => None
  | Some s => Some s
  end.

(** The metadata object that [addMemory] hands to the index; the spread of
    [memory.metadata] comes last and wins. *)
Definition flatMetadata (m : Memory) : gmap string value :=
  metadata m ∪
  <["userId" := VStr (userId m)]>
  (<["type" := VStr (type m)]>
  (<["category" := VStr (category m)]>
  (<["timestamp" := VNum (timestamp m)]>
  (<["sessionId" := VStr (Js.str_or (sessionId m) EmptyString)]>
  (<["importance" := VNum (importance m)]> ∅))))).

Definition entryOf (vm : VectorMemory) : Entry :=
  let m := memoryOf vm in
  mkEntry (id m) (embedding vm) (content m) (flatMetadata m).

(** The loop body of [formatSearchResults]. *)
Definition formatHit (now : Q) (h : Hit) : SearchResult :=
  let md := hitMetadata h in
  let rel := (1 - hitDistance h)%Q in
  mkSearchResult
    {| id := hitId h;
       userId := Js.str_or (strField "userId" md) EmptyString;
       content := hitDocument h;
       type := Js.str_or (strField "type" md) "conversation";
       category := Js.str_or (strField "category" md) "general";
       timestamp := Js.num_or (numField "timestamp" md) now;
       sessionId := nonEmpty (strField "sessionId" md);
       importance := Js.num_or (numField "importance" md) 0.5%Q;
       relevance := Some rel;
       metadata := md |}
    (hitDistance h) rel.

Definition formatSearchResults (now : Q) (hits : list Hit) : list SearchResult :=
  map (formatHit now) hits.

(** The loop body of [getUserMemories]. *)
Definition memoryOfEntry (now : Q) (e : Entry) : Memory :=
  let md := entryMetadata e in
  {| id := entryId e;
     userId := Js.str_or (strField "userId" md) EmptyString;
     content := entryDocument e;
     type := Js.str_or (strField "type" md) "conversation";
     category := Js.str_or (strField "category" md) "general";
     timestamp := Js.num_or (numField "timestamp" md) now;
     sessionId := strField "sessionId" md;
     importance := Js.num_or (numField "importance" md) 0.5%Q;
     relevance := None;
     metadata := md |}.

(** [if (filters.x) where.x = filters.x], for the three equality filters. *)
Definition whereOf (f : Filters) : gmap string value :=
  let put k (x : option string) (w : gmap string value) :=
    match nonEmpty x with
    | Some s => <[k := VStr s]> w
    | None => w
    end in
  put "type" (filterType f) (put "category" (filterCategory f)
    (put "userId" (filterUserId f) ∅)).

(** A number used as a condition: [undefined] and [0] are falsy. *)
Definition given (x : option Q) : option Q :=
  match x with
  | Some q => if Qeq_bool q 0 then None else Some q
  | None => None
  end.

(** The timestamp post-filter of [searchByEmbedding]; with neither bound
    given it keeps everything, as the guard around the filter does. *)
Definition inRange (f : Filters) (r : SearchResult) : bool :=
  let ts := timestamp (memory r) in
  let below :=
    match given (timestampGte f) with
    | Some g => negb (Qle_bool g ts)
    | None => false
    end in
  let above :=
    match given (timestampLte f) with
    | Some l => negb (Qle_bool ts l)
    | None => false
    end in
  negb below && negb above.

Section Store.
Context {C : Type} `{VectorIndex C} (E : Externals).

Definition ensureInitialized : M C unit :=
  fun w =>
    if storeInitialized w then (Ok tt, w)
    else (Throw "VectorStore not initialized. Call initialize() first.", w).

Definition addMemory (vm : VectorMemory) : M C unit :=
  ensureInitialized;;
  tryCatch (writeCollection (collectionAdd (entryOf vm)))
    (fun msg => throw ("Failed to add memory: " +:+ msg)).

Definition searchMemories (query userId : string) (limit : nat)
    : M C (list SearchResult) :=
  ensureInitialized;;
  tryCatch
    (queryEmbedding ← generateEmbedding E query;
     results ← readCollection
       (collectionQuery queryEmbedding limit (Some {[ "userId" := VStr userId ]}));
     now ← dateNow;
     mret (formatSearchResults now results))
    (fun msg => throw ("Search failed: " +:+ msg)).

Definition searchByEmbedding (emb : Embedding) (filters : Filters) (limit : nat)
    : M C (list SearchResult) :=
  ensureInitialized;;
  tryCatch
    (let where_ := whereOf filters in
     results ← readCollection
       (collectionQuery emb (limit * 2)
          (if decide (where_ = ∅) then None else Some where_));
     now ← dateNow;
     let searchResults := formatSearchResults now results in
     mret (take limit (List.filter (inRange filters) searchResults)))
    (fun msg => throw ("Search by embedding failed: " +:+ msg)).

Definition deleteMemory (memoryId : string) : M C unit :=
  ensureInitialized;;
  tryCatch (writeCollection (collectionDelete [memoryId]))
    (fun msg => throw ("Failed to delete memory: " +:+ msg)).

Definition getUserMemories (userId : string) : M C (list Memory) :=
  ensureInitialized;;
  tryCatch
    (results ← readCollection (collectionGet {[ "userId" := VStr userId ]});
     now ← dateNow;
     mret (map (memoryOfEntry now) results))
    (fun _ => mret []).

End Store.

Section Admin.
Context {C : Type} `{VectorIndex C} `{VectorIndexAdmin C}.

(** [initialized] is set before the collection is counted for the log line. *)
Definition initialize : M C unit :=
  fun w =>
    if storeInitialized w then (Ok tt, w)
    else
      match getOrCreateCollection (collection w) with
      | Throw msg => (Throw ("Failed to initialize vector store: " +:+ msg), w)
      | Ok c =>
          let w' := mkWorld (ollamaClient w) c true (managerInitialized w)
                      (clock w) (drawn w) in
          match collectionCount c with
          | Ok _ => (Ok tt, w')
          | Throw msg => (Throw ("Failed to initialize vector store: " +:+ msg), w')
          end
      end.

Definition addMemories (memories : list VectorMemory) : M C unit :=
  ensureInitialized;;
  match memories with
  | [] => mret tt
  | _ =>
      tryCatch (writeCollection (collectionAddMany (map entryOf memories)))
        (fun msg => throw ("Failed to add memories in batch: " +:+ msg))
  end.

Definition deleteUserMemories (userId : string) : M C unit :=
  ensureInitialized;;
  tryCatch (writeCollection (collectionDeleteWhere {[ "userId" := VStr userId ]}))
    (fun msg => throw ("Failed to delete user memories: " +:+ msg)).

Definition getMemoryById (memoryId : string) : M C (option VectorMemory) :=
  ensureInitialized;;
  tryCatch
    (results ← readCollection (collectionGetIds [memoryId]);
     now ← dateNow;
     mret (match results with
           | [] => None
           | e :: _ => Some (mkVectorMemory (memoryOfEntry now e) (entryEmbedding e))
           end))
    (fun _ => mret None).

(** [userId] is optional; an empty string is falsy and counts everything. *)
Definition getMemoryCount (userId : option string) : M C nat :=
  ensureInitialized;;
  tryCatch
    (match nonEmpty userId with
     | Some u =>
         results ← readCollection (collectionGet {[ "userId" := VStr u ]});
         mret (length results)
     | None => readCollection collectionCount
     end)
    (fun _ => mret 0%nat).

End Admin.

End VectorStore.

(** ** The patterns of [memoryManager.ts]

    Each regular expression of the manager is written out as the scan it
    performs; [prev] is the character in front of the current position. *)

Module Pattern.

Definition boundaryBefore (prev : option ascii) : bool :=
  match prev with
  | Some c => negb (Js.is_word c)
  | None => true
  end.

Definition boundaryAfter (s : string) : bool :=
  match s with
  | String c _ => negb (Js.is_word c)
  | EmptyString => true
  end.

Fixpoint dropChars (n : nat) (s : string) : string :=
  match n, s with
  | S n', String _ r => dropChars n' r
  | _, _ => s
  end.

(** [\bw\b] at the current position, for a word [w] of word characters. *)
Definition wordHere (w : string) (prev : option ascii) (s : string) : bool :=
  boundaryBefore prev && String.prefix w s
    && boundaryAfter (dropChars (String.length w) s).

(** [.*\bis\b]: the word, after any characters of the current line. *)
Fixpoint laterWord (w : string) (prev : option ascii) (s : string) : bool :=
  wordHere w prev s ||
  match s with
  | String c r => negb (Js.is_newline c) && laterWord w (Some c) r
  | EmptyString => false
  end.

(** [/\bname\b.*\bis\b/] *)
Fixpoint nameIs (prev : option ascii) (s : string) : bool :=
  (wordHere "name" prev s && laterWord "is" (Some "e"%char) (dropChars 4 s)) ||
  match s with
  | String c r => nameIs (Some c) r
  | EmptyString => false
  end.

(** [.*@]: an at-sign later on the current line. *)
Fixpoint laterAt (s : string) : bool :=
  match s with
  | String c r => Ascii.eqb c "@" || (negb (Js.is_newline c) && laterAt r)
  | EmptyString => false
  end.

(** [/email.*@/] *)
Fixpoint emailAt (s : string) : bool :=
  (String.prefix "email" s && laterAt (dropChars 5 s)) ||
  match s with
  | String _ r => emailAt r
  | EmptyString => false
  end.

Fixpoint digitsHere (n : nat) (s : string) : option string :=
  match n, s with
  | O, _ => Some s
  | S n', String c r => if Js.is_digit c then digitsHere n' r else None
  | S _, EmptyString => None
  end.

(** [[-.\s]?] *)
Definition isSeparator (c : ascii) : bool :=
  Ascii.eqb c "-" || Ascii.eqb c "." || Js.is_space c.

(** [\d{3}[-.\s]?\d{3,4}] at the current position. *)
Definition phoneHere (s : string) : bool :=
  match digitsHere 3 s with
  | Some r =>
      match digitsHere 3 r with
      | Some _ => true
      | None =>
          match r with
          | String c r' => isSeparator c && bool_decide (is_Some (digitsHere 3 r'))
          | EmptyString => false
          end
      end
  | None => false
  end.

(** [/\d{3}[-.\s]?\d{3,4}/] *)
Fixpoint phoneNumber (s : string) : bool :=
  phoneHere s ||
  match s with
  | String _ r => phoneNumber r
  | EmptyString => false
  end.

Fixpoint letters (s : string) : string :=
  match s with
  | String c r => if Js.is_letter c then String c (letters r) else EmptyString
  | EmptyString => EmptyString
  end.

(** [s.match(/<phrase> ([a-zA-Z]+)/i)[1]] for a lower-case [phrase] that ends
    with the blank: the letters that follow its first occurrence which has
    letters after it. *)
Fixpoint capture (phrase : string) (s : string) : option string :=
  let here :=
    if String.prefix phrase (Js.toLowerCase s)
    then match letters (dropChars (String.length phrase) s) with
         | EmptyString => None
         | w => Some w
         end
    else None in
  match here, s with
  | Some w, _ => Some w
  | None, String _ r => capture phrase r
  | None, EmptyString => None
  end.

(** Removes every occurrence of [fence], together with one line feed that
    follows it: [s.replace(/<fence>\n?/g, '')]. [skip] counts the characters
    of the current occurrence still to drop. *)
Fixpoint removeFences (fence : string) (skip : nat) (s : string) : string :=
  match s with
  | EmptyString => EmptyString
  | String c r =>
      match skip with
      | S k => removeFences fence k r
      | O =>
          if String.prefix fence s then
            let after := dropChars (String.length fence) s in
            let extra := if String.prefix Prompts.nl after then 1%nat else 0%nat in
            removeFences fence (String.length fence - 1 + extra) r
          else String c (removeFences fence 0 r)
      end
  end.

(** [s.replace(/```\n?$/g, '')]: a fence that ends the text. *)
Definition removeClosingFence (s : string) : string :=
  let r := String.rev s in
  if String.prefix (Prompts.nl +:+ "```") r then String.rev (dropChars 4 r)
  else if String.prefix "```" r then String.rev (dropChars 3 r)
  else s.

End Pattern.

(** ** [memoryManager.ts] *)

Record MemoryInput : Type := mkMemoryInput {
  inUserId : string;
  inContent : string;
  inType : string;
  inCategory : string;
  inSessionId : option string;
  inImportance : option Q;
  inMetadata : gmap string value
}.

Record SearchOptions : Type := mkSearchOptions {
  limit : option nat;
  threshold : option Q;
  optCategory : option string;
  includeRelated : bool
}.

Record ReRankOptions : Type := mkReRankOptions {
  similarityWeight : option Q;
  importanceWeight : option Q;
  recencyWeight : option Q
}.

Record ScoredResult : Type := mkScoredResult {
  scored : SearchResult;
  compositeScore : Q
}.

Record Interaction : Type := mkInteraction {
  interactionUserId : string;
  userMessage : string;
  assistantMessage : string;
  interactionSessionId : string;
  interactionTimestamp : Q;
  interactionMetadata : gmap string value
}.

Record ExtractedFact : Type := mkExtractedFact {
  factContent : string;
  factImportance : Q;
  factType : string;
  factCategory : string;
  confidence : option Q
}.

Module MemoryManager.

(** The prompt texts below write a backquote where the source has a double
    quote; [quotes] puts the double quotes back. *)
Fixpoint quotes (s : string) : string :=
  match s with
  | EmptyString => EmptyString
  | String c r =>
      String (if Ascii.eqb c (ascii_of_nat 96) then ascii_of_nat 34 else c) (quotes r)
  end.

Definition promptHead : string := quotes
"Extract factual information explicitly stated by the user.

USER'S MESSAGE: `".

Definition promptTail : string := quotes
"`

WHAT TO EXTRACT:
- Names: `my name is X`, `I am X`, `call me X` → Extract as `User's name is X`
- Company/Job: `I work at X`, `I'm a Y at Z` → Extract as `User works at X as Y`
- Contact: `my email is X`, `call me at Y`, `my phone is Z` → Extract as `User's email/phone is X`
- Location: `I'm from X`, `I live in Y` → Extract as `User is from/lives in X`
- Problems: `X is broken`, `error with X`, `not working` → Extract as `User reported issue: X`
- Requests: `I need X`, `can you add X`, `want Y` → Extract as `User requested: X`
- Preferences: `I prefer X`, `I like X`, `I want Y` → Extract as `User prefers X`
- Sentiment: `I love X`, `I hate Y`, `frustrated with Z` → Extract as `User expressed [emotion] about X`

RULES:
- Extract ONLY from the user's message above (not from these instructions)
- Use simple, factual language
- Extract ALL facts, even if multiple in one message
- If no facts are stated, return []
- Include confidence score (0.0-1.0) based on clarity

Return ONLY valid JSON array (no markdown):
[
  {
    `content`: `User's name is Alice`,
    `importance`: 0.95,
    `confidence`: 0.98,
    `type`: `preference`,
    `category`: `general`
  }
]

Importance scores:
- Personal identifiers (name, email, phone, location): 0.9-1.0
- Critical bugs/errors: 0.8-0.9
- Feature requests: 0.7-0.8
- General preferences: 0.6-0.7
- Sentiment/feedback: 0.5-0.7
- Chitchat/questions: 0.1-0.3

Valid types ONLY: `preference`, `event`, `sentiment`, `extracted_fact`
Valid categories ONLY: `general`, `bug_report`, `feature_request`, `question`, `feedback`, `technical`".

Definition extractionPrompt (interaction : Interaction) : string :=
  promptHead +:+ userMessage interaction +:+ promptTail.

Definition extractionSystemPrompt : string :=
  "You are a fact extraction specialist. Extract ALL explicit facts from user messages including names, contact info, preferences, issues, requests, and sentiment. Return ONLY valid JSON array with proper types and confidence scores.".

Definition ensureInitialized {C : Type} : M C unit :=
  fun w =>
    if managerInitialized w then (Ok tt, w)
    else (Throw "MemoryManager not initialized. Call initialize() first.", w).

(** *** Validation of the facts the chat model returns *)

Definition validTypes : list string :=
  ["conversation"; "extracted_fact"; "preference"; "sentiment"; "event"].

Definition validCategories : list string :=
  ["bug_report"; "feature_request"; "question"; "feedback"; "technical"; "general"].

(** [fact.key] of an object. *)
Fixpoint property (key : string) (fields : list (string * json)) : option json :=
  match fields with
  | [] => None
  | (k, v) :: r => if decide (k = key) then Some v else property key r
  end.

(** [fact.key?.toLowerCase()]: [None] stands for [undefined]; a value that is
    neither missing, [null] nor a string has no such method, and the call
    throws a [TypeError]. *)
Definition lowerCased (key : string) (v : option json) : result (option string) :=
  match v with
  | None | Some JNull => Ok None
  | Some (JStr s) => Ok (Some (Js.toLowerCase s))
  | Some _ => Throw ("fact." +:+ key +:+ "?.toLowerCase is not a function")
  end.

(** [list.includes(x) ? x : fallback], for [x] possibly [undefined]. *)
Definition oneOf (list : list string) (x : option string) (fallback : string) : string :=
  match x with
  | Some s => if bool_decide (s ∈ list) then s else fallback
  | None => fallback
  end.

Section Validation.
Variable parseFloatText : json -> option Q.

(** [parseFloat(v)]; [None] stands for [NaN]. *)
Definition parseFloat (v : option json) : option Q :=
  match v with
  | Some (JNum q) => Some q
  | Some (JStr s) => parseFloatText (JStr s)
  | Some (JArr l) => parseFloatText (JArr l)
  | Some (JObj f) => parseFloatText (JObj f)
  | Some JNull | Some (JBool _) | None => None
  end.

(** [Math.min(Math.max(parseFloat(v) || fallback, 0), 1)] *)
Definition clamped (v : option json) (fallback : Q) : Q :=
  Qmin (Qmax (Js.num_or (parseFloat v) fallback) 0) 1.

Definition validateExtractedFact (fact : json) : result (option ExtractedFact) :=
  match fact with
  | JObj fields =>
      match property "content" fields with
      | Some (JStr text) =>
          if bool_decide (String.length (Js.trim text) = 0%nat) then Ok None
          else if (500 <? String.length text)%nat then Ok None
          else
            match lowerCased "type" (property "type" fields) with
            | Throw msg => Throw msg
            | Ok type_ =>
                let type_ := oneOf validTypes type_ "extracted_fact" in
                match lowerCased "category" (property "category" fields) with
                | Throw msg => Throw msg
                | Ok category_ =>
                    let category_ := oneOf validCategories category_ "general" in
                    let importance_ := clamped (property "importance" fields) 0.5%Q in
                    let confidence_ := clamped (property "confidence" fields) 0.7%Q in
                    if Qlt_le_dec confidence_ 0.5%Q then Ok None
                    else Ok (Some
                      {| factContent := Js.trim text;
                         factImportance := importance_;
                         factType := type_;
                         factCategory := category_;
                         confidence := Some confidence_ |})
                end
            end
      | _ => Ok None
      end
  | _ => Ok None
  end.

(** [rawFacts.map(validateExtractedFact).filter(fact => fact !== null)]: the
    first call that throws ends the [map]. *)
Fixpoint validateAll (rawFacts : list json) : result (list ExtractedFact) :=
  match rawFacts with
  | [] => Ok []
  | fact :: rest =>
      match validateExtractedFact fact with
      | Throw msg => Throw msg
      | Ok v =>
          match validateAll rest with
          | Throw msg => Throw msg
          | Ok vs => Ok (match v with Some f => f :: vs | None => vs end)
          end
      end
  end.

End Validation.

(** *** The keyword extractor *)

Definition anyOf (phrases : list string) (s : string) : bool :=
  existsb (fun p => Js.includes p s) phrases.

Definition rememberWhat (interaction : Interaction) : string :=
  let original := userMessage interaction in
  let lowered := Js.toLowerCase original in
  if Js.includes "my name is" lowered then
    match Pattern.capture "my name is " original with
    | Some name => "Customer's name is " +:+ name
    | None => original
    end
  else if Js.includes "call me" lowered then
    match Pattern.capture "call me " original with
    | Some name => "Customer prefers to be called " +:+ name
    | None => original
    end
  else if Js.includes "i am " lowered then
    match Pattern.capture "i am " original with
    | Some word =>
        if bool_decide (Js.toLowerCase word ∈ ["a"; "the"; "an"; "having"; "getting"])
        then original
        else "Customer is " +:+ word
    | None => original
    end
  else original.

Definition extractKeyFactsKeywordBased (interaction : Interaction) : list ExtractedFact :=
  let lowered := Js.toLowerCase (userMessage interaction) in
  let fact content_ type_ category_ importance_ :=
    mkExtractedFact content_ importance_ type_ category_ None in
  (if anyOf ["remember"; "my name is"; "call me"; "i am "] lowered
   then [fact (rememberWhat interaction) "preference" "general" 0.95%Q] else [])
  ++
  (if anyOf ["broken"; "not working"; "error"; "bug"] lowered
   then [fact ("Customer reported: " +:+ userMessage interaction)
           "event" "bug_report" 0.8%Q] else [])
  ++
  (if anyOf ["want"; "need"; "would like"; "feature"] lowered
   then [fact ("Customer requested: " +:+ userMessage interaction)
           "event" "feature_request" 0.7%Q] else [])
  ++
  (if anyOf ["prefer"; "like to"; "developer"; "technical"] lowered
   then [fact ("Customer preference: " +:+ userMessage interaction)
           "preference" "general" 0.6%Q] else [])
  ++
  (if anyOf ["company"; "organization"; "work for"; "work at"] lowered
   then [fact ("Customer info: " +:+ userMessage interaction)
           "preference" "general" 0.7%Q] else []).

(** *** Conflict tags, categories, importance *)

Definition detectFactType (text : string) : option string :=
  let lower := Js.toLowerCase text in
  if Js.includes "user's name is" lower || Js.includes "user is called" lower
     || Js.includes "prefers to be called" lower || Pattern.nameIs None lower
  then Some "name"
  else if Js.includes "user's email" lower || Js.includes "email is" lower
     || Pattern.emailAt lower
  then Some "email"
  else if Js.includes "user's phone" lower || Js.includes "phone is" lower
     || (Js.includes "call" lower && Pattern.phoneNumber lower)
  then Some "phone"
  else if Js.includes "works at" lower || Js.includes "employed by" lower
     || Js.includes "company is" lower
  then Some "company"
  else if Js.includes "lives in" lower || Js.includes "from" lower
     || Js.includes "located in" lower
  then Some "location"
  else None.

Definition categorizeMessage (message : string) : string :=
  let lowerMessage := Js.toLowerCase message in
  if anyOf ["bug"; "broken"; "error"; "not working"] lowerMessage then "bug_report"
  else if anyOf ["feature"; "add"; "want"; "need"] lowerMessage then "feature_request"
  else if anyOf ["how"; "what"; "why"; "?"] lowerMessage then "question"
  else if anyOf ["great"; "love"; "hate"; "terrible"] lowerMessage then "feedback"
  else if anyOf ["api"; "code"; "technical"; "developer"] lowerMessage then "technical"
  else "general".

Definition calculateImportance (type_ category_ : string) : Q :=
  let score := 0.5%Q in
  let score := if decide (category_ = "bug_report") then (score + 0.3)%Q else score in
  let score := if decide (category_ = "feature_request") then (score + 0.2)%Q else score in
  let score := if decide (type_ = "preference") then (score + 0.2)%Q else score in
  let score := if decide (type_ = "event") then (score + 0.1)%Q else score in
  Qmin score 1.

(** *** Re-ranking *)

Definition oneYear : Q := (365 * 24 * 60 * 60 * 1000)%Q.

Definition recencyScore (now : Q) (m : Memory) : Q :=
  let ageInMs := (now - timestamp m)%Q in
  Qmax 0 (1 - ageInMs / oneYear)%Q.

Definition score (now : Q) (options : ReRankOptions) (r : SearchResult) : ScoredResult :=
  let similarityWeight_ := Js.num_or (similarityWeight options) 0.5%Q in
  let importanceWeight_ := Js.num_or (importanceWeight options) 0.3%Q in
  let recencyWeight_ := Js.num_or (recencyWeight options) 0.2%Q in
  {| scored := r;
     compositeScore :=
       (resultRelevance r * similarityWeight_
        + importance (memory r) * importanceWeight_
        + recencyScore now (memory r) * recencyWeight_)%Q |}.

Definition reRankResults (now : Q) (results : list SearchResult) (options : ReRankOptions)
    : list ScoredResult :=
  sortDesc compositeScore (map (score now options) results).

Definition searchWeights : ReRankOptions :=
  mkReRankOptions (Some 0.5%Q) (Some 0.3%Q) (Some 0.2%Q).

Definition conflictableTypes : list string := ["preference"; "extracted_fact"].

(** The test in the loop of [findConflictingMemory]: not a conversation, the
    same tag, and a content that differs once both are in lower case. *)
Definition conflicts (newFact : ExtractedFact) (tag : string) (m : Memory) : bool :=
  negb (bool_decide (type m = "conversation"))
  && bool_decide (detectFactType (content m) = Some tag)
  && negb (bool_decide (Js.toLowerCase (content m)
                        = Js.toLowerCase (factContent newFact))).

(** *** The reply of the chat model *)

Definition extractionMessages (interaction : Interaction) : list ChatMessage :=
  [ mkChatMessage "system" extractionSystemPrompt;
    mkChatMessage "user" (extractionPrompt interaction) ].

(** The reply, trimmed and without its Markdown fence. *)
Definition jsonTextOf (response : string) : string :=
  let jsonText := Js.trim response in
  if Js.startsWith "```json" jsonText
  then Pattern.removeClosingFence (Pattern.removeFences "```json" 0 jsonText)
  else if Js.startsWith "```" jsonText
  then Pattern.removeClosingFence (Pattern.removeFences "```" 0 jsonText)
  else jsonText.

(** *** The methods that reach the models and the index *)

Section Manager.
Context {C : Type} `{VectorIndex C} (E : Externals).

Definition findSimilarMemories (vm : VectorMemory) : M C (list SearchResult) :=
  tryCatch
    (VectorStore.searchByEmbedding (embedding vm)
       (mkFilters (Some (userId (memoryOf vm))) None None None None) 5)
    (fun _ => mret []).

Definition addMemory (input : MemoryInput) : M C string :=
  ensureInitialized;;
  tryCatch
    (id_ ← newId E;
     embedding_ ← generateEmbedding E (inContent input);
     let importance_ :=
       match inImportance input with
       | Some i => i
       | None => calculateImportance (inType input) (inCategory input)
       end in
     now ← dateNow;
     let vectorMemory :=
       mkVectorMemory
         {| id := id_;
            userId := inUserId input;
            content := inContent input;
            type := inType input;
            category := inCategory input;
            timestamp := now;
            sessionId := inSessionId input;
            importance := importance_;
            relevance := None;
            metadata := inMetadata input |}
         embedding_ in
     duplicates ← findSimilarMemories vectorMemory;
     match duplicates with
     | top :: _ =>
         if Qlt_le_dec 0.95%Q (resultRelevance top)
         then mret (id (memory top))
         else VectorStore.addMemory vectorMemory;; mret id_
     | [] => VectorStore.addMemory vectorMemory;; mret id_
     end)
    (fun msg => throw msg).

Definition searchRelevantMemories (userId_ query : string) (options : SearchOptions)
    : M C (list Memory) :=
  ensureInitialized;;
  let limit_ := Js.nat_or (limit options) 5 in
  let threshold_ := Js.num_or (threshold options) 0.7%Q in
  tryCatch
    (results ← VectorStore.searchMemories E query userId_ (limit_ * 2);
     let results :=
       match VectorStore.nonEmpty (optCategory options) with
       | Some c => List.filter (fun r => bool_decide (category (memory r) = c)) results
       | None => results
       end in
     let results :=
       List.filter (fun r => Qle_bool threshold_ (resultRelevance r)) results in
     now ← dateNow;
     let reRankedResults := reRankResults now results searchWeights in
     let finalResults := take limit_ reRankedResults in
     mret (map (fun r => memory (scored r)) finalResults))
    (fun _ => mret []).

Definition getMemoriesByCategory (userId_ category_ : string) : M C (list Memory) :=
  ensureInitialized;;
  searchRelevantMemories userId_ EmptyString
    (mkSearchOptions (Some 20%nat) (Some 0%Q) (Some category_) false).

Definition extractKeyFacts (interaction : Interaction) : M C (list ExtractedFact) :=
  tryCatch
    (response ← chat E (extractionMessages interaction);
     match JSON_parse E (jsonTextOf response) with
     | Some (JArr rawFacts) =>
         match validateAll (parseFloatText E) rawFacts with
         | Ok validatedFacts => mret validatedFacts
         | Throw msg => throw msg
         end
     | Some _ => throw "LLM response is not an array"
     | None => throw "Unexpected token in JSON"
     end)
    (fun _ => mret (extractKeyFactsKeywordBased interaction)).

Definition findConflictingMemory (userId_ : string) (newFact : ExtractedFact)
    : M C (option Memory) :=
  if bool_decide (factType newFact ∈ conflictableTypes) then
    match detectFactType (factContent newFact) with
    | None => mret None
    | Some tag =>
        existingMemories ← VectorStore.getUserMemories userId_;
        mret (List.find (conflicts newFact tag) existingMemories)
    end
  else mret None.

Definition factMetadata (interaction : Interaction) (fact : ExtractedFact)
    : gmap string value :=
  let base : gmap string value :=
    <["extractedFrom" := VStr "llm"]>
    (<["originalMessage" := VStr (Js.substring0 100 (userMessage interaction))]> ∅) in
  match confidence fact with
  | Some c => <["confidence" := VNum c]> base
  | None => base
  end.

Definition factInput (interaction : Interaction) (fact : ExtractedFact)
    (md : gmap string value) : MemoryInput :=
  {| inUserId := interactionUserId interaction;
     inContent := factContent fact;
     inType := factType fact;
     inCategory := factCategory fact;
     inSessionId := Some (interactionSessionId interaction);
     inImportance := Some (factImportance fact);
     inMetadata := md |}.

(** The body of the [for] loop of [extractAndStoreKeyFacts]. *)
Definition storeFact (interaction : Interaction) (fact : ExtractedFact) : M C unit :=
  conflictingMemory ← findConflictingMemory (interactionUserId interaction) fact;
  match conflictingMemory with
  | Some old =>
      VectorStore.deleteMemory (id old);;
      now ← dateNow;
      addMemory (factInput interaction fact
        (<["replacedMemoryId" := VStr (id old)]>
         (<["replacedAt" := VNum now]> (factMetadata interaction fact))));;
      mret tt
  | None =>
      addMemory (factInput interaction fact (factMetadata interaction fact));;
      mret tt
  end.

Fixpoint storeFacts (interaction : Interaction) (facts : list ExtractedFact) : M C unit :=
  match facts with
  | [] => mret tt
  | fact :: rest => storeFact interaction fact;; storeFacts interaction rest
  end.

Definition extractAndStoreKeyFacts (interaction : Interaction) : M C unit :=
  facts ← extractKeyFacts interaction;
  storeFacts interaction facts.

Definition addInteraction (interaction : Interaction) : M C unit :=
  ensureInitialized;;
  tryCatch
    (let conversationMemory :=
       {| inUserId := interactionUserId interaction;
          inContent := "User: " +:+ userMessage interaction +:+ Prompts.nl
                         +:+ "Assistant: " +:+ assistantMessage interaction;
          inType := "conversation";
          inCategory := categorizeMessage (userMessage interaction);
          inSessionId := Some (interactionSessionId interaction);
          inImportance := Some 0.5%Q;
          inMetadata :=
            interactionMetadata interaction ∪
            <["userMessage" := VStr (userMessage interaction)]>
            (<["assistantMessage" := VStr (assistantMessage interaction)]> ∅) |} in
     addMemory conversationMemory;;
     extractAndStoreKeyFacts interaction)
    (fun msg => throw msg).

End Manager.

(** [MemoryStats]. The two tallies are objects indexed by a string; [None]
    stands for [NaN]. *)
Record MemoryStats : Type := mkMemoryStats {
  totalMemories : nat;
  memoryByType : gmap string (option nat);
  memoryByCategory : gmap string (option nat);
  avgImportance : Q;
  oldestMemory : Q;
  newestMemory : Q
}.

(** [counts[key]++]: a key the object does not have reads as [undefined], and
    the sum is [NaN]; writing a number to [__proto__] changes nothing. *)
Definition increment (key : string) (counts : gmap string (option nat))
    : gmap string (option nat) :=
  if decide (key = "__proto__") then counts
  else match counts !! key with
       | Some (Some n) => <[key := Some (S n)]> counts
       | _ => <[key := None]> counts
       end.

Definition noTypes : gmap string (option nat) :=
  list_to_map (map (fun t => (t, Some 0%nat)) validTypes).

Definition noCategories : gmap string (option nat) :=
  list_to_map (map (fun c => (c, Some 0%nat)) validCategories).

(** The record that [getMemoryStats] builds from the memories it has read. *)
Definition statsOf (now : Q) (memories : list Memory) : MemoryStats :=
  let totalImportance := foldl (fun sum m => (sum + importance m)%Q) 0%Q memories in
  {| totalMemories := length memories;
     memoryByType := foldl (fun counts m => increment (type m) counts) noTypes memories;
     memoryByCategory :=
       foldl (fun counts m => increment (category m) counts) noCategories memories;
     avgImportance :=
       match memories with
       | [] => 0%Q
       | _ => (totalImportance / inject_Z (Z.of_nat (length memories)))%Q
       end;
     oldestMemory := foldl (fun oldest m => Qmin oldest (timestamp m)) now memories;
     newestMemory := foldl (fun newest m => Qmax newest (timestamp m)) 0%Q memories |}.

Section Administration.
Context {C : Type} `{VectorIndex C} `{VectorIndexAdmin C}.

Definition initialize : M C unit :=
  fun w =>
    if managerInitialized w then (Ok tt, w)
    else
      match VectorStore.initialize w with
      | (Ok _, w') =>
          (Ok tt, mkWorld (ollamaClient w') (collection w') (storeInitialized w') true
                    (clock w') (drawn w'))
      | (Throw msg, w') => (Throw msg, w')
      end.

(** [limit] defaults to 10 when the argument is absent. *)
Definition getRecentMemories (userId_ : string) (limit_ : option nat)
    : M C (list Memory) :=
  ensureInitialized;;
  let limit_ := default 10%nat limit_ in
  tryCatch
    (memories ← VectorStore.getUserMemories userId_;
     mret (take limit_ (sortDesc timestamp memories)))
    (fun _ => mret []).

Definition deleteUserData (userId_ : string) : M C unit :=
  ensureInitialized;;
  VectorStore.deleteUserMemories userId_.

Definition getMemoryStats (userId_ : string) : M C MemoryStats :=
  ensureInitialized;;
  tryCatch
    (memories ← getRecentMemories userId_ (Some 1000%nat);
     now ← dateNow;
     mret (statsOf now memories))
    (fun msg => throw msg).

End Administration.

End MemoryManager.

(** ** [agent.ts]: sessions and the chat flow *)

Record SessionState : Type := mkSessionState {
  sessionUserId : string;
  messageCount : nat;
  lastInteractionTime : Q;
  recentMemories : list Memory
}.

Record ChatResponse : Type := mkChatResponse {
  response : string;
  context : list Memory;
  memoriesUsed : nat;
  responseTimestamp : Q;
  (** [metadata.responseTime] and [metadata.relevanceScore] *)
  responseTime : Q;
  relevanceScore : Q
}.

Module SupportAgent.

(** The performance counters of the agent. *)
Record Stats : Type := mkStats {
  totalInteractions : nat;
  totalResponseTime : Q;
  totalMemoriesUsed : nat
}.

(** The agent, the module-level [Map] of sessions (keys unique, in insertion
    order) and the singletons underneath. *)
Record State (C : Type) : Type := mkState {
  world : World C;
  sessions : list (string * SessionState);
  initialized : bool;
  stats : Stats
}.
Arguments mkState {C}.
Arguments world {C}.
Arguments sessions {C}.
Arguments initialized {C}.
Arguments stats {C}.

(** The values that the successive calls of [Date.now()] return during one
    run of the chat flow, in the order of the calls; [searchedAt] and
    [storedAt] are the clock of the memory manager while it searches and
    while it stores. *)
Record Readings : Type := mkReadings {
  startTime : Q;
  createdAt : Q;
  searchedAt : Q;
  contextAt : Q;
  sessionContextAt : Q;
  interactionAt : Q;
  storedAt : Q;
  updatedAt : Q;
  finishedAt : Q;
  stampedAt : Q
}.

(** [sessions.get(sessionId)] *)
Fixpoint getSession (sessionId_ : string) (m : list (string * SessionState))
    : option SessionState :=
  match m with
  | [] => None
  | (k, v) :: r => if decide (sessionId_ = k) then Some v else getSession sessionId_ r
  end.

(** [sessions.set(sessionId, session)]: an existing key keeps its position. *)
Fixpoint setSession (sessionId_ : string) (session : SessionState)
    (m : list (string * SessionState)) : list (string * SessionState) :=
  match m with
  | [] => [(sessionId_, session)]
  | (k, v) :: r =>
      if decide (sessionId_ = k) then (k, session) :: r
      else (k, v) :: setSession sessionId_ session r
  end.

(** [sessions.delete(sessionId)] *)
Definition clearSession (sessionId_ : string) (m : list (string * SessionState))
    : list (string * SessionState) :=
  filter (fun kv => kv.1 <> sessionId_) m.

(** [SYSTEM_PROMPT] of [prompts.ts], with a backquote where the source has a
    double quote. *)
Definition SYSTEM_PROMPT : string := MemoryManager.quotes
"You are a helpful AI assistant with memory of previous conversations.

HOW TO USE CONTEXT:
- The CONTEXT FROM MEMORY section shows previous conversations
- Example: If context shows `User: My name is Alice`, then the user's name is Alice
- Extract facts from what the user actually said in those conversations
- NEVER make up information not present in the context

RULES:
- Answer based on information found in the context
- If context doesn't contain the answer, say `I don't have that information`
- Be natural and conversational
- Don't roleplay or create fictional scenarios".

(** [buildPrompt] of [prompts.ts] *)
Definition buildPrompt (context_ userMessage_ : string) : string :=
  SYSTEM_PROMPT +:+ "

CONTEXT FROM MEMORY:
" +:+ context_ +:+ "

CURRENT CONVERSATION:
User: " +:+ userMessage_ +:+ "
Assistant:".

Definition buildSessionContext (now : Q) (session : SessionState) : string :=
  if (messageCount session =? 0)%nat
  then "SESSION INFO: First interaction in this session"
  else
    let timeSinceLastMessage := (now - lastInteractionTime session)%Q in
    let minutesAgo := Qfloor (timeSinceLastMessage / 60000)%Q in
    "SESSION INFO:
- This is message #" +:+ Js.string_of_Z (Z.of_nat (messageCount session) + 1)
      +:+ " in this session
- Last interaction: "
      +:+ (if 0 <? minutesAgo then Js.string_of_Z minutesAgo +:+ " minutes ago"
           else "just now")
      +:+ "
- Recent context from this session available".

(** [memories.reduce((sum, m) => sum + (m.relevance || 0), 0) / memories.length],
    and 0 for no memories. *)
Definition avgRelevance (memories : list Memory) : Q :=
  match memories with
  | [] => 0%Q
  | _ =>
      (foldl (fun sum m => sum + Js.num_or (relevance m) 0)%Q 0%Q memories
       / inject_Z (Z.of_nat (length memories)))%Q
  end.

(** The options of the search of the chat flow. *)
Definition chatSearch : SearchOptions :=
  mkSearchOptions (Some 5%nat) (Some 0.5%Q) None false.

Section Agent.
Context {C : Type} `{VectorIndex C} `{VectorIndexAdmin C} (E : Externals).

(** A method of the agent: a state transformer that returns or throws. *)
Definition A (T : Type) : Type := State C -> result T * State C.

(** A call into the memory manager or the client, at a reading of the clock. *)
Definition call {T : Type} (now : Q) (m : M C T) : A T :=
  fun a =>
    let '(r, w) := m (atTime now (world a)) in
    (r, mkState w (sessions a) (initialized a) (stats a)).

Definition ensureInitialized : A unit :=
  fun a =>
    if initialized a then (Ok tt, a)
    else (Throw "SupportAgent not initialized. Call initialize() first.", a).

Definition initialize : A unit :=
  fun a =>
    if initialized a then (Ok tt, a)
    else
      match MemoryManager.initialize (world a) with
      | (Ok _, w) => (Ok tt, mkState w (sessions a) true (stats a))
      | (Throw msg, w) => (Throw msg, mkState w (sessions a) (initialized a) (stats a))
      end.

(** The session of the flow: the one on record, or a new one that is put
    on record. *)
Definition sessionOf (t : Readings) (userId_ sessionId_ : string) (a : State C)
    : SessionState * State C :=
  match getSession sessionId_ (sessions a) with
  | Some session => (session, a)
  | None =>
      let session := mkSessionState userId_ 0 (createdAt t) [] in
      (session,
       mkState (world a) (setSession sessionId_ session (sessions a))
         (initialized a) (stats a))
  end.

(** [executeChatFlow]. The session object is shared with the [Map]: the
    updates of step 5 are updates of the entry. *)
Definition executeChatFlow (t : Readings) (userId_ message sessionId_ : string)
    : A ChatResponse :=
  fun a =>
    let '(session, a) := sessionOf t userId_ sessionId_ a in
    match call (searchedAt t)
            (MemoryManager.searchRelevantMemories E userId_ message chatSearch) a with
    | (Throw msg, a) => (Throw msg, a)
    | (Ok memories, a) =>
        let context_ :=
          Prompts.buildContext (contextAt t) memories Prompts.defaultMaxTokens in
        let sessionContext := buildSessionContext (sessionContextAt t) session in
        let fullContext := context_ +:+ Prompts.nl +:+ Prompts.nl +:+ sessionContext in
        let prompt := buildPrompt fullContext message in
        match call (clock (world a)) (chat E [mkChatMessage "user" prompt]) a with
        | (Throw msg, a) => (Throw msg, a)
        | (Ok response_, a) =>
            match call (storedAt t)
                    (MemoryManager.addInteraction E
                       (mkInteraction userId_ message response_ sessionId_
                          (interactionAt t) ∅)) a with
            | (Throw msg, a) => (Throw msg, a)
            | (Ok _, a) =>
                let session :=
                  mkSessionState (sessionUserId session) (S (messageCount session))
                    (updatedAt t) (take 3 memories) in
                (Ok {| response := response_;
                       context := memories;
                       memoriesUsed := length memories;
                       responseTimestamp := stampedAt t;
                       responseTime := (finishedAt t - startTime t)%Q;
                       relevanceScore := avgRelevance memories |},
                 mkState (world a) (setSession sessionId_ session (sessions a))
                   (initialized a) (stats a))
            end
        end
    end.

(** [SupportAgent.chat] *)
Definition chat (t : Readings) (userId_ message sessionId_ : string) : A ChatResponse :=
  fun a =>
    match ensureInitialized a with
    | (Throw msg, a) => (Throw msg, a)
    | (Ok _, a) =>
        match executeChatFlow t userId_ message sessionId_ a with
        | (Throw msg, a) => (Throw msg, a)
        | (Ok result, a) =>
            let s := stats a in
            (Ok result,
             mkState (world a) (sessions a) (initialized a)
               {| totalInteractions := S (totalInteractions s);
                  totalResponseTime := (totalResponseTime s + responseTime result)%Q;
                  totalMemoriesUsed := (totalMemoriesUsed s + memoriesUsed result)%nat |})
        end
    end.

End Agent.

End SupportAgent.

(** ** A reference index *)

#[global] Instance Q_eq_dec : EqDecision Q.
Proof. solve_decision. Defined.

#[global] Instance value_eq_dec : EqDecision value.
Proof. solve_decision. Defined.

(** Modelled from the spec: the vector index is ChromaDB, an external
    collaborator whose code is not part of the repository. Sections 1 and 6 of
    the specification describe it as a store of (id, vector, text, metadata)
    records with insertion, k-nearest-neighbour query under a metadata filter,
    deletion by id and retrieval by filter. The reference index keeps the
    records in insertion order, answers queries exactly, nearest first, and
    never fails; adding an id that is already present changes nothing. *)
Module ListIndex.

Definition satisfies (where_ : gmap string value) (e : Entry) : Prop :=
  map_Forall (fun k v => entryMetadata e !! k = Some v) where_.

#[global] Instance satisfies_dec where_ e : Decision (satisfies where_ e).
Proof. unfold satisfies. apply _. Defined.

Definition scope (where_ : option (gmap string value)) (entries : list Entry)
    : list Entry :=
  match where_ with
  | Some w => filter (satisfies w) entries
  | None => entries
  end.

Section Index.
(** The distance of the collection (cosine distance in the deployment). *)
Variable distanceOf : Embedding -> Embedding -> Q.

Definition hitOf (q : Embedding) (e : Entry) : Hit :=
  mkHit (entryId e) (entryDocument e) (entryMetadata e)
    (distanceOf q (entryEmbedding e)).

Definition nearest (q : Embedding) (entries : list Entry) : list Entry :=
  sortDesc (fun e => - distanceOf q (entryEmbedding e))%Q entries.

Definition add (e : Entry) (entries : list Entry) : result (list Entry) :=
  if bool_decide (entryId e ∈ map entryId entries) then Ok entries
  else Ok (entries ++ [e]).

Definition query (q : Embedding) (nResults : nat)
    (where_ : option (gmap string value)) (entries : list Entry)
    : result (list Hit) :=
  Ok (map (hitOf q) (take nResults (nearest q (scope where_ entries)))).

Definition get (where_ : gmap string value) (entries : list Entry)
    : result (list Entry) :=
  Ok (filter (satisfies where_) entries).

Definition delete (ids : list string) (entries : list Entry) : result (list Entry) :=
  Ok (filter (fun e => entryId e ∉ ids) entries).

#[export] Instance index : VectorIndex (list Entry) :=
  {| collectionAdd := add;
     collectionQuery := query;
     collectionGet := get;
     collectionDelete := delete |}.

End Index.

(** The administrative operations of the reference index. *)
Definition deleteWhere (where_ : gmap string value) (entries : list Entry)
    : result (list Entry) :=
  Ok (filter (fun e => ~ satisfies where_ e) entries).

Definition getIds (ids : list string) (entries : list Entry) : result (list Entry) :=
  Ok (filter (fun e => entryId e ∈ ids) entries).

Definition addMany (new : list Entry) (entries : list Entry) : result (list Entry) :=
  Ok (foldl (fun l e => if bool_decide (entryId e ∈ map entryId l) then l else l ++ [e])
        entries new).

#[export] Instance admin : VectorIndexAdmin (list Entry) :=
  {| getOrCreateCollection := Ok;
     collectionCount := fun entries => Ok (length entries);
     collectionAddMany := addMany;
     collectionGetIds := getIds;
     collectionDeleteWhere := deleteWhere |}.

End ListIndex.

(** An index that is down: every call fails. *)
Module DownIndex.

Definition index : VectorIndex unit :=
  {| collectionAdd := fun _ _ => Throw "connection refused";
     collectionQuery := fun _ _ _ _ => Throw "connection refused";
     collectionGet := fun _ _ => Throw "connection refused";
     collectionDelete := fun _ _ => Throw "connection refused" |}.

Definition admin : VectorIndexAdmin unit :=
  {| getOrCreateCollection := fun _ => Throw "connection refused";
     collectionCount := fun _ => Throw "connection refused";
     collectionAddMany := fun _ _ => Throw "connection refused";
     collectionGetIds := fun _ _ => Throw "connection refused";
     collectionDeleteWhere := fun _ _ => Throw "connection refused" |}.

End DownIndex.

(** ** Sample data *)

Module Sample.

(** Embeddings by text: a toy provider that separates the texts it knows. *)
Definition embed (text : string) : result Embedding :=
  Ok [inject_Z (Z.of_nat (String.length text))].

(** Zero on equal vectors, one otherwise. *)
Definition discrete (a b : Embedding) : Q :=
  if bool_decide (a = b) then 0%Q else 1%Q.

Definition externals : Externals :=
  {| getCacheKey := fun text => text;
     embeddings := embed;
     chatCompletion := fun _ => Throw "model not loaded";
     uuidv4 := fun n => "id-" +:+ Js.string_of_Z (Z.of_nat n);
     JSON_parse := fun _ => None;
     parseFloatText := fun _ => None |}.

Definition now : Q := 1700000000000%Q.

Definition ready {C : Type} (c : C) : World C :=
  mkWorld Ollama.create c true true now 0.

(** Both singletons initialised, nothing stored yet. *)
Definition empty : World (list Entry) := ready [].

(** Both singletons initialised, the index down. *)
Definition down : World unit := ready tt.

Definition darkMode : Memory :=
  mkMemory "m1" "u1" "User loves dark mode" "preference" "general"
    now None 0.6%Q None ∅.

Definition largeFonts : Memory :=
  mkMemory "m3" "u1" "User loves dark mode and large fonts" "preference" "general"
    now None 0.6%Q None ∅.

Definition loginBug : Memory :=
  mkMemory "m2" "u1" "Bug: login fails" "event" "bug_report"
    now None 0.8%Q None ∅.

Definition noOptions : SearchOptions := mkSearchOptions None None None false.


(** A reply of the chat model with two facts; the first has a number where
    the type should be. *)
Definition reply : string :=
  MemoryManager.quotes
    "[{`content`: `User's name is Alice`, `type`: 5, `confidence`: 0.9}, {`content`: `User likes tea`, `type`: `preference`, `category`: `general`, `importance`: 0.6, `confidence`: 0.9}]".

Definition numberAsType : json :=
  JObj [("content", JStr "User's name is Alice"); ("type", JNum 5);
        ("confidence", JNum 0.9%Q)].

Definition likesTea : json :=
  JObj [("content", JStr "User likes tea"); ("type", JStr "preference");
        ("category", JStr "general"); ("importance", JNum 0.6%Q);
        ("confidence", JNum 0.9%Q)].

Definition zeroConfidence : json :=
  JObj [("content", JStr "User may own a boat"); ("type", JStr "extracted_fact");
        ("category", JStr "general"); ("importance", JNum 0);
        ("confidence", JNum 0)].

(** The chat model answers with [reply], which parses to the two facts. *)
Definition answering : Externals :=
  {| getCacheKey := fun text => text;
     embeddings := embed;
     chatCompletion := fun _ => Ok reply;
     uuidv4 := fun n => "id-" +:+ Js.string_of_Z (Z.of_nat n);
     JSON_parse := fun text =>
       if decide (text = reply) then Some (JArr [numberAsType; likesTea]) else None;
     parseFloatText := fun _ => None |}.

(** The embedding provider is unreachable. *)
Definition offline : Externals :=
  {| getCacheKey := fun text => text;
     embeddings := fun _ => Throw "connection refused";
     chatCompletion := fun _ => Throw "connection refused";
     uuidv4 := fun n => "id-" +:+ Js.string_of_Z (Z.of_nat n);
     JSON_parse := fun _ => None;
     parseFloatText := fun _ => None |}.

Definition aliceFact : ExtractedFact :=
  mkExtractedFact "Customer's name is Alice" 0.95%Q "preference" "general" None.

Definition bobFact : ExtractedFact :=
  mkExtractedFact "Customer's name is Bob" 0.95%Q "preference" "general" (Some 0.9%Q).

Definition tellsAlice : Interaction :=
  mkInteraction "u1" "my name is Alice" "Nice to meet you, Alice." "s1" now ∅.

Definition tellsBob : Interaction :=
  mkInteraction "u1" "sorry, my name is Bob" "Thanks, Bob." "s1" (now + 60000)%Q ∅.

(** The same sentence, once as a conversation turn and once as a fact. *)
Definition asConversation : MemoryInput :=
  mkMemoryInput "u1" "My name is Alice" "conversation" "general" (Some "s1")
    (Some 0.5%Q) ∅.

Definition asPreference : MemoryInput :=
  mkMemoryInput "u1" "My name is Alice" "preference" "general" (Some "s1")
    (Some 0.95%Q) ∅.

(** The store after the turn "My name is Alice" was saved as a conversation. *)
Definition history : World (list Entry) :=
  (MemoryManager.addMemory (H := ListIndex.index discrete) externals
     asConversation empty).2.

(** A thousand texts, each followed by another read of the first one. *)
Definition texts : list string :=
  map (fun n => "text " +:+ Js.string_of_Z (Z.of_nat n)) (seq 0 Ollama.MAX_CACHE_SIZE).

Definition calls : list string := flat_map (fun t => [t; "text 0"]) texts.




(** The reference index under the discrete distance. *)
Definition index : VectorIndex (list Entry) := ListIndex.index discrete.

(** An index whose collection opens but cannot be counted. *)
Definition uncountable : VectorIndexAdmin (list Entry) :=
  {| getOrCreateCollection := Ok;
     collectionCount := fun _ => Throw "connection reset";
     collectionAddMany := ListIndex.addMany;
     collectionGetIds := ListIndex.getIds;
     collectionDeleteWhere := ListIndex.deleteWhere |}.

(** Neither singleton initialised. *)
Definition fresh : World (list Entry) := mkWorld Ollama.create [] false false now 0.

Definition outage : Memory :=
  mkMemory "m4" "u1" "Service outage on Monday" "event" "general"
    now None 0.7%Q None ∅.

Definition darkModeVector : VectorMemory := mkVectorMemory darkMode [20%Q].

(** A memory of importance zero. *)
Definition unrated : VectorMemory :=
  mkVectorMemory
    (mkMemory "m5" "u1" "User said hello" "conversation" "general"
       now None 0%Q None ∅)
    [15%Q].

(** A memory of user u1 whose metadata names user u2. *)
Definition misfiled : VectorMemory :=
  mkVectorMemory
    (mkMemory "m6" "u1" "User asked for an invoice" "conversation" "general"
       now None 0.5%Q None {[ "userId" := VStr "u2" ]})
    [25%Q].

(** The store after the fact about Alice was saved on top of [history]. *)
Definition introduced : World (list Entry) :=
  (MemoryManager.storeFact (H := index) externals tellsAlice aliceFact history).2.

(** The chat model answers in plain words; the provider embeds. *)
Definition talking : Externals :=
  {| getCacheKey := fun text => text;
     embeddings := embed;
     chatCompletion := fun _ => Ok "Your name is Alice.";
     uuidv4 := fun n => "id-" +:+ Js.string_of_Z (Z.of_nat n);
     JSON_parse := fun _ => None;
     parseFloatText := fun _ => None |}.

(** The chat model answers, the embedding provider is unreachable. *)
Definition mute : Externals :=
  {| getCacheKey := fun text => text;
     embeddings := fun _ => Throw "connection refused";
     chatCompletion := fun _ => Ok "Hello!";
     uuidv4 := fun n => "id-" +:+ Js.string_of_Z (Z.of_nat n);
     JSON_parse := fun _ => None;
     parseFloatText := fun _ => None |}.

(** An initialised agent without sessions, over a store. *)
Definition agentOver (w : World (list Entry)) : SupportAgent.State (list Entry) :=
  SupportAgent.mkState w [] true (SupportAgent.mkStats 0 0 0).

(** The clock advances by ten milliseconds between two readings. *)
Definition readings : SupportAgent.Readings :=
  SupportAgent.mkReadings now (now + 10) (now + 20) (now + 30) (now + 40) (now + 50)
    (now + 60) (now + 70) (now + 80) (now + 90).

End Sample.

(** * The vocabulary of the statements *)

(** ** Sorting *)

Section SortVocabulary.
Context {A : Type} (key : A -> Q).

Definition descends (x y : A) : Prop := (key y <= key x)%Q.

End SortVocabulary.

(** ** Context assembly *)

Section ContextVocabulary.
Import Prompts.

(** The candidate lines of a section, numbered from [i]. *)
Fixpoint linesFrom (now : Q) (charLimit i : nat) (items : list Memory) : list string :=
  match items with
  | [] => []
  | item :: rest => formatLine now charLimit i item :: linesFrom now charLimit (S i) rest
  end.

(** The running estimate charged for a list of headers and lines. *)
Definition tokensOf (pieces : list string) : Z :=
  foldr (fun s n => estimateTokens s + n) 0 pieces.

Definition isMarker (s : string) : bool := String.prefix "... (" s.

(** The headers and lines of an array of sections, the markers left out. *)
Definition counted (pieces : list string) : list string :=
  List.filter (fun s => negb (isMarker s)) pieces.

(** The part of a section that [addSection] visits. *)
Definition visited (items : list Memory) (maxItems : nat) : list Memory :=
  take (Nat.min (length items) maxItems) items.

(** The running estimate covers the headers and lines emitted so far, and
    these stay within the budget. *)
Definition withinBudget (maxTokens : Z) (b : Builder) : Prop :=
  tokensOf (counted (sections b)) <= currentTokens b
  /\ tokensOf (counted (sections b)) <= maxTokens.

(** A section in full: its header and the lines of its items, up to the cap. *)
Definition fullSection (now : Q) (call : SectionCall) : list string :=
  let '(title, items, maxItems, charLimit) := call in
  match items with
  | [] => []
  | _ => (nl +:+ title) :: linesFrom now charLimit 0 (visited items maxItems)
  end.

End ContextVocabulary.

(** ** The embedding cache *)

Section CacheVocabulary.
Import Ollama.

(** The texts in the cache after one more request: a cached text changes
    nothing, a new one goes to the end, after the oldest entry has left a
    full cache. *)
Definition request (cached : list string) (t : string) : list string :=
  if decide (t ∈ cached) then cached
  else (if (MAX_CACHE_SIZE <=? length cached)%nat then tail cached else cached) ++ [t].

(** One call on the client, with the answer the provider gives to it. *)
Inductive ClientCall : Type :=
| Embed (text : string) (useCache : bool) (answer : result Embedding)
| Chat (messages : list ChatMessage) (answer : result string)
| ClearCache.

Definition perform (getCacheKey : string -> string) (c : Client) (call : ClientCall)
    : Client :=
  match call with
  | Embed text useCache answer =>
      (generateEmbedding getCacheKey (fun _ => answer) text useCache c).2
  | Chat messages answer => (chat (fun _ => answer) messages c).2
  | ClearCache => clearCache c
  end.

(** The counters of the client add up, and the cache is a map within its
    capacity. *)
Definition sound (c : Client) : Prop :=
  (cacheHits (stats c) + cacheMisses (stats c) <= totalEmbeddings (stats c))%nat
  /\ (length (embeddingCache c) <= MAX_CACHE_SIZE)%nat
  /\ NoDup (keysOf c).

End CacheVocabulary.

(** ** Fact extraction *)

Section ExtractionVocabulary.
Import MemoryManager.



End ExtractionVocabulary.

(** ** Retrieval and statistics *)

Section ManagerVocabulary.
Import MemoryManager.

(** How many of the memories carry a tag. *)
Definition tally (tag : Memory -> string) (t : string) (memories : list Memory) : nat :=
  length (filter (fun m => tag m = t) memories).

(** The composite score of a retrieved memory under the weights of the
    search: similarity 0.5, importance 0.3, recency 0.2. *)
Definition rankOf (now : Q) (m : Memory) : Q :=
  (default 0 (relevance m) * 0.5 + importance m * 0.3 + recencyScore now m * 0.2)%Q.

End ManagerVocabulary.

(** ** Deduplication and conflict resolution over the reference index *)

Section StoreVocabulary.
Import MemoryManager.
Variable distanceOf : Embedding -> Embedding -> Q.

(** Both singletons are initialised. *)
Definition ready (w : World (list Entry)) : Prop :=
  managerInitialized w = true /\ storeInitialized w = true.

(** The filter of the duplicate lookup: the user, and nothing else. An empty
    user id is falsy and leaves the lookup without a filter. *)
Definition dedupScope (user : string) : option (gmap string value) :=
  match user with
  | EmptyString => None
  | _ => Some {[ "userId" := VStr user ]}
  end.

(** The stored memory that makes [addMemory] skip the insertion, if any:
    the nearest record in scope, when its relevance exceeds 0.95. *)
Definition duplicateOf (user : string) (e : Embedding) (entries : list Entry)
    : option Entry :=
  match ListIndex.nearest distanceOf e (ListIndex.scope (dedupScope user) entries) with
  | top :: _ =>
      if Qlt_le_dec 0.95 (1 - distanceOf e (entryEmbedding top)) then Some top else None
  | [] => None
  end.

Definition vectorMemoryOf (input : MemoryInput) (id_ : string) (now : Q)
    (e : Embedding) : VectorMemory :=
  mkVectorMemory
    {| id := id_;
       userId := inUserId input;
       content := inContent input;
       type := inType input;
       category := inCategory input;
       timestamp := now;
       sessionId := inSessionId input;
       importance :=
         match inImportance input with
         | Some i => i
         | None => calculateImportance (inType input) (inCategory input)
         end;
       relevance := None;
       metadata := inMetadata input |}
    e.

(** The memories of a user, as [getUserMemories] reads them. *)
Definition userMemories (now : Q) (user : string) (entries : list Entry) : list Memory :=
  map (VectorStore.memoryOfEntry now)
    (filter (ListIndex.satisfies {[ "userId" := VStr user ]}) entries).

(** The memory that a new fact supersedes, if any. *)
Definition conflictOf (now : Q) (user : string) (fact : ExtractedFact)
    (entries : list Entry) : option Memory :=
  if bool_decide (factType fact ∈ conflictableTypes) then
    match detectFactType (factContent fact) with
    | Some tag => List.find (conflicts fact tag) (userMemories now user entries)
    | None => None
    end
  else None.

(** The collection once the superseded memory, if any, is deleted. *)
Definition afterDelete (conflict : option Memory) (entries : list Entry) : list Entry :=
  match conflict with
  | Some old => filter (fun x => entryId x ∉ [id old]) entries
  | None => entries
  end.

(** The metadata of the memory stored for a fact. *)
Definition storedMetadata (interaction : Interaction) (fact : ExtractedFact)
    (conflict : option Memory) (now : Q) : gmap string value :=
  match conflict with
  | Some old =>
      <["replacedMemoryId" := VStr (id old)]>
        (<["replacedAt" := VNum now]> (factMetadata interaction fact))
  | None => factMetadata interaction fact
  end.

(** A stored fact that carries a given tag: not a conversation turn, and a
    content that [detectFactType] classifies under the tag. *)
Definition tagged (tag : string) (m : Memory) : bool :=
  negb (bool_decide (type m = "conversation"))
  && bool_decide (detectFactType (content m) = Some tag).

(** The metadata keys that [addMemory] writes from the fields of a memory. *)
Definition reservedKeys : list string :=
  ["userId"; "type"; "category"; "timestamp"; "sessionId"; "importance"].

(** A memory as [getUserMemories] returns it after it was stored unchanged. *)
Definition readBack (m : Memory) : Memory :=
  {| id := id m;
     userId := userId m;
     content := content m;
     type := type m;
     category := category m;
     timestamp := timestamp m;
     sessionId := Some (Js.str_or (sessionId m) EmptyString);
     importance := importance m;
     relevance := None;
     metadata := VectorStore.flatMetadata m |}.

(** The type under which the adapter reports a record of the index. *)
Definition storedType (x : Entry) : string :=
  Js.str_or (VectorStore.strField "type" (entryMetadata x)) "conversation".

End StoreVocabulary.

(** * Properties *)

(** ** The stable sort *)

Section SortFacts.
Context {A : Type} (key : A -> Q).

Lemma insertDesc_perm x l : insertDesc key x l ≡ₚ x :: l.
Proof.
  induction l as [|y r IH]; simpl; [done|].
  destruct (Qle_bool (key y) (key x)); [done|].
  rewrite IH. apply Permutation_swap.
Qed.

Lemma sortDesc_perm l : sortDesc key l ≡ₚ l.
Proof.
  induction l as [|x r IH]; simpl; [done|].
  rewrite insertDesc_perm. by rewrite IH.
Qed.

Lemma insertDesc_sorted x l :
  StronglySorted (descends key) l -> StronglySorted (descends key) (insertDesc key x l).
Proof.
  induction 1 as [|y r Hr IH Hy]; simpl.
  - repeat constructor.
  - destruct (Qle_bool (key y) (key x)) eqn:Hle.
    + apply Qle_bool_iff in Hle.
      constructor; [by constructor|].
      constructor; [done|].
      eapply Forall_impl; [exact Hy|].
      intros z Hz. unfold descends in *. lra.
    + constructor; [done|].
      rewrite insertDesc_perm. constructor; [|done].
      unfold descends.
      destruct (Qlt_le_dec (key y) (key x)) as [Hlt|Hge]; [|done].
      exfalso. assert (Qle_bool (key y) (key x) = true); [|congruence].
      apply Qle_bool_iff. lra.
Qed.

Lemma sortDesc_sorted l : StronglySorted (descends key) (sortDesc key l).
Proof.
  induction l; simpl; [constructor|by apply insertDesc_sorted].
Qed.









(** The first element of the sorted array has the largest key. *)
Lemma sortDesc_head h t l :
  sortDesc key l = h :: t -> forall x, x ∈ l -> (key x <= key h)%Q.
Proof.
  intros Heq x Hx.
  pose proof (sortDesc_sorted l) as Hs. rewrite Heq in Hs.
  apply StronglySorted_inv in Hs as [_ Hall].
  rewrite <- sortDesc_perm, Heq in Hx.
  apply elem_of_cons in Hx as [->|Hx]; [lra|].
  rewrite Forall_forall in Hall. exact (Hall _ Hx).
Qed.

(** An element whose key exceeds all others comes first, wherever it was. *)
Lemma sortDesc_app_top l y :
  (forall x, x ∈ l -> (key x < key y)%Q) ->
  sortDesc key (l ++ [y]) = y :: sortDesc key l.
Proof.
  induction l as [|a l IH]; intros Hlt; [done|].
  cbn [app sortDesc foldr]. fold (sortDesc key (l ++ [y])). fold (sortDesc key l).
  rewrite IH by (intros x Hx; apply Hlt; by right).
  cbn [insertDesc].
  destruct (Qle_bool (key y) (key a)) eqn:Hle; [|done].
  apply Qle_bool_iff in Hle. specialize (Hlt a). 
  assert (key a < key y)%Q by (apply Hlt; by left). lra.
Qed.

End SortFacts.

(** ** Re-ranking of search results *)

Section ReRank.
Import MemoryManager.


Lemma recencyScore_nonneg now m : (0 <= recencyScore now m)%Q.
Proof. apply Q.le_max_l. Qed.



End ReRank.

(** ** Context assembly *)

Section ContextFacts.
Import Prompts.

Lemma estimateTokens_nonneg s : 0 <= estimateTokens s.
Proof. unfold estimateTokens. apply Z.div_pos; lia. Qed.

Lemma tokensOf_nonneg l : 0 <= tokensOf l.
Proof.
  induction l as [|s l IH]; simpl; [lia|].
  pose proof (estimateTokens_nonneg s). lia.
Qed.

Lemma tokensOf_app l1 l2 : tokensOf (l1 ++ l2) = tokensOf l1 + tokensOf l2.
Proof. induction l1; simpl; lia. Qed.

Lemma isMarker_marker k : isMarker (truncationMarker k) = true.
Proof.
  unfold isMarker, truncationMarker. simpl.
  by destruct (_ +:+ _).
Qed.

Lemma isMarker_header title : isMarker (nl +:+ title) = false.
Proof. reflexivity. Qed.

Lemma isMarker_line now charLimit i item : isMarker (formatLine now charLimit i item) = false.
Proof.
  unfold formatLine, Js.string_of_Z.
  replace (Z.of_nat i + 1) with (Z.pos (Pos.of_succ_nat i)) by lia.
  cbn [Z.to_int]. unfold NilZero.string_of_int, NilZero.string_of_uint.
  by destruct (Pos.to_uint (Pos.of_succ_nat i)).
Qed.

Lemma counted_app l1 l2 : counted (l1 ++ l2) = counted l1 ++ counted l2.
Proof. apply List.filter_app. Qed.

Lemma counted_lines now charLimit i items :
  counted (linesFrom now charLimit i items) = linesFrom now charLimit i items.
Proof.
  revert i. induction items as [|item rest IH]; intros i; [done|].
  cbn [linesFrom counted List.filter]. rewrite isMarker_line. cbn [negb].
  f_equal. apply IH.
Qed.

Lemma counted_take_lines now charLimit i items j :
  counted (take j (linesFrom now charLimit i items))
  = take j (linesFrom now charLimit i items).
Proof.
  revert i j. induction items as [|item rest IH]; intros i [|j]; try done.
  cbn [linesFrom take counted List.filter]. rewrite isMarker_line. cbn [negb].
  f_equal. apply IH.
Qed.

(** What the loop of [addSection] does: it appends the first [j] lines, those
    that fit one after the other; if a line is left over, line [j] does not
    fit and one marker for the [total - (i + j)] remaining items follows. *)
Lemma addLines_spec maxTokens now charLimit total items : forall i b,
  let lines := linesFrom now charLimit i items in
  let b' := addLines maxTokens now charLimit total i items b in
  exists j,
    (j <= length items)%nat
    /\ sections b' = sections b ++ take j lines
         ++ (if decide (j < length items)%nat
             then [truncationMarker (total - (i + j))] else [])
    /\ currentTokens b' = currentTokens b + tokensOf (take j lines)
    /\ (currentTokens b <= maxTokens -> currentTokens b' <= maxTokens)
    /\ (forall line, lines !! j = Some line ->
          maxTokens < currentTokens b' + estimateTokens line).
Proof.
  induction items as [|item rest IH]; intros i b; cbn zeta.
  - exists 0%nat. cbn. rewrite app_nil_r. repeat split; try lia; done.
  - cbn [addLines linesFrom].
    destruct (maxTokens <? currentTokens b + estimateTokens (formatLine now charLimit i item))
      eqn:Hfit.
    + apply Z.ltb_lt in Hfit. exists 0%nat.
      rewrite Nat.add_0_r. cbn. repeat split; try lia.
      intros line [= <-]. lia.
    + apply Z.ltb_ge in Hfit.
      destruct (IH (S i) (charge (estimateTokens (formatLine now charLimit i item))
                            (push (formatLine now charLimit i item) b)))
        as (j & Hj & Hsec & Htok & Hmax & Hover).
      exists (S j). cbn [length take tokensOf foldr lookup list_lookup].
      split; [lia|]. split; [|split; [|split]].
      * rewrite Hsec. cbn [sections charge push]. rewrite <- app_assoc. cbn [app].
        replace (S i + j)%nat with (i + S j)%nat by lia.
        do 2 f_equal. destruct (decide (j < length rest)%nat), (decide (S j < S (length rest))%nat);
          try lia; done.
      * rewrite Htok. cbn [currentTokens charge push]. fold (tokensOf (take j (linesFrom now charLimit (S i) rest))). lia.
      * intros _. apply Hmax. cbn [currentTokens charge push]. lia.
      * intros line Hline. by apply Hover.
Qed.

Lemma length_linesFrom now charLimit i items :
  length (linesFrom now charLimit i items) = length items.
Proof.
  revert i. induction items as [|item rest IH]; intros i; [done|].
  cbn [linesFrom length]. by rewrite IH.
Qed.

Lemma addSection_started maxTokens now title items maxItems charLimit b :
  items <> [] ->
  currentTokens b + estimateTokens (nl +:+ title) < maxTokens ->
  addSection maxTokens now title items maxItems charLimit b
  = addLines maxTokens now charLimit (length items) 0 (visited items maxItems)
      (push (nl +:+ title) (charge (estimateTokens (nl +:+ title)) b)).
Proof.
  intros Hne Hfit. unfold addSection. destruct items; [done|].
  cbn [currentTokens charge].
  destruct (Z.leb_spec maxTokens (currentTokens b + estimateTokens (nl +:+ title)));
    [lia|done].
Qed.

Lemma addSection_skipped maxTokens now title items maxItems charLimit b :
  items = [] \/ maxTokens <= currentTokens b + estimateTokens (nl +:+ title) ->
  sections (addSection maxTokens now title items maxItems charLimit b) = sections b
  /\ currentTokens b
      <= currentTokens (addSection maxTokens now title items maxItems charLimit b).
Proof.
  intros Hskip. unfold addSection. destruct items as [|item items].
  - split; [done|lia].
  - destruct Hskip as [|Hfull]; [done|].
    cbn [currentTokens charge].
    destruct (Z.leb_spec maxTokens (currentTokens b + estimateTokens (nl +:+ title)));
      [|lia].
    cbn. pose proof (estimateTokens_nonneg (nl +:+ title)). split; [done|lia].
Qed.

(** A started section: the header, the lines that fit, and a closing marker
    when a line is left over. *)
Lemma addSection_shape maxTokens now title items maxItems charLimit b :
  items <> [] ->
  currentTokens b + estimateTokens (nl +:+ title) < maxTokens ->
  let lines := linesFrom now charLimit 0 (visited items maxItems) in
  let b' := addSection maxTokens now title items maxItems charLimit b in
  exists j,
    (j <= length lines)%nat
    /\ sections b' = sections b ++ (nl +:+ title) :: take j lines
         ++ (if decide (j < length lines)%nat
             then [truncationMarker (length items - j)] else [])
    /\ currentTokens b'
        = currentTokens b + estimateTokens (nl +:+ title) + tokensOf (take j lines)
    /\ currentTokens b' <= maxTokens
    /\ (forall line, lines !! j = Some line ->
          maxTokens < currentTokens b' + estimateTokens line).
Proof.
  intros Hne Hfit lines b'. subst b'.
  rewrite addSection_started by done.
  destruct (addLines_spec maxTokens now charLimit (length items)
              (visited items maxItems) 0
              (push (nl +:+ title) (charge (estimateTokens (nl +:+ title)) b)))
    as (j & Hj & Hsec & Htok & Hmax & Hover).
  assert (Hlen : length lines = length (visited items maxItems))
    by apply length_linesFrom.
  exists j. rewrite Hlen. split; [done|]. split; [|split; [|split]].
  - rewrite Hsec. cbn [sections push charge]. by rewrite <- app_assoc.
  - rewrite Htok. cbn [currentTokens push charge]. done.
  - apply Hmax. cbn [currentTokens push charge]. lia.
  - exact Hover.
Qed.

Lemma addSection_withinBudget maxTokens now title items maxItems charLimit b :
  withinBudget maxTokens b ->
  withinBudget maxTokens (addSection maxTokens now title items maxItems charLimit b).
Proof.
  intros [Hcur Hmax].
  destruct (decide (items = [])) as [->|Hne]; [done|].
  destruct (Z.lt_ge_cases (currentTokens b + estimateTokens (nl +:+ title)) maxTokens)
    as [Hfit|Hfull].
  - destruct (addSection_shape maxTokens now title items maxItems
                charLimit b Hne Hfit) as (j & _ & Hsec & Htok & Hle & _).
    cbn zeta in *. unfold withinBudget. rewrite Hsec, Htok.
    rewrite counted_app, tokensOf_app.
    change ((nl +:+ title) :: ?l) with ([nl +:+ title] ++ l).
    rewrite !counted_app, !tokensOf_app, counted_take_lines.
    assert (Hm : tokensOf (counted (if decide (j < length
                   (linesFrom now charLimit 0 (visited items maxItems)))%nat
                 then [truncationMarker (length items - j)] else [])) = 0).
    { destruct (decide _); [|done]. cbn. by rewrite isMarker_marker. }
    rewrite Hm. cbn [counted List.filter]. rewrite isMarker_header.
    cbn [negb tokensOf foldr]. rewrite Htok in Hle. lia.
  - destruct (addSection_skipped maxTokens now title items maxItems charLimit b)
      as [Hsec Hgrow]; [by right|].
    unfold withinBudget. rewrite Hsec. lia.
Qed.

Lemma addSection_extends maxTokens now title items maxItems charLimit b :
  exists added,
    sections (addSection maxTokens now title items maxItems charLimit b)
    = sections b ++ added.
Proof.
  destruct (decide (items = [])) as [->|Hne]; [exists []; by rewrite app_nil_r|].
  destruct (Z.lt_ge_cases (currentTokens b + estimateTokens (nl +:+ title)) maxTokens)
    as [Hfit|Hfull].
  - destruct (addSection_shape maxTokens now title items maxItems
                charLimit b Hne Hfit) as (j & _ & Hsec & _).
    eexists. exact Hsec.
  - destruct (addSection_skipped maxTokens now title items maxItems charLimit b)
      as [Hsec _]; [by right|].
    exists []. by rewrite app_nil_r.
Qed.

(** C5, as the code has it. A call of [addSection] either leaves the array
    of sections as it is (the section is empty, or its header alone brings
    the running estimate to [maxTokens]), or it appends the header and then
    the lines that fit, in order; the moment a line would push the running
    estimate over [maxTokens] it appends a single marker that names the
    [items.length - j] items of this section not shown, and the section ends
    there: the marker is the last string the call appends and no line of
    this section follows it. The call returns from this section only; the
    sections after it are attempted as usual. *)
Theorem addSection_marker_ends_section maxTokens now title items maxItems charLimit b :
  let lines := linesFrom now charLimit 0 (visited items maxItems) in
  let b' := addSection maxTokens now title items maxItems charLimit b in
  ((items = [] \/ maxTokens <= currentTokens b + estimateTokens (nl +:+ title))
   /\ sections b' = sections b)
  \/ (items <> []
      /\ currentTokens b + estimateTokens (nl +:+ title) < maxTokens
      /\ exists j,
           (j <= length lines)%nat
           /\ sections b' = sections b ++ (nl +:+ title) :: take j lines
                ++ (if decide (j < length lines)%nat
                    then [truncationMarker (length items - j)] else [])
           /\ currentTokens b'
               = currentTokens b + estimateTokens (nl +:+ title)
                 + tokensOf (take j lines)
           /\ currentTokens b' <= maxTokens
           /\ (forall line, lines !! j = Some line ->
                 maxTokens < currentTokens b' + estimateTokens line)).
Proof.
  cbn zeta.
  destruct (decide (items = [])) as [->|Hne]; [left; split; [by left|done]|].
  destruct (Z.lt_ge_cases (currentTokens b + estimateTokens (nl +:+ title)) maxTokens)
    as [Hfit|Hfull].
  - right. split; [done|]. split; [done|].
    exact (addSection_shape maxTokens now title items maxItems charLimit b Hne Hfit).
  - left. split; [by right|].
    apply addSection_skipped. by right.
Qed.

Lemma runSections_withinBudget maxTokens now calls b :
  withinBudget maxTokens b ->
  withinBudget maxTokens (foldl (runSection maxTokens now) b calls).
Proof.
  revert b. induction calls as [|[[[title items] maxItems] charLimit] calls IH];
    intros b Hb; [done|].
  cbn [foldl]. apply IH. by apply addSection_withinBudget.
Qed.

Lemma runSections_extends maxTokens now calls b :
  exists added,
    sections (foldl (runSection maxTokens now) b calls) = sections b ++ added.
Proof.
  revert b. induction calls as [|[[[title items] maxItems] charLimit] calls IH];
    intros b; [exists []; by rewrite app_nil_r|].
  cbn [foldl]. destruct (IH (runSection maxTokens now b (title, items, maxItems, charLimit)))
    as [added2 ->].
  destruct (addSection_extends maxTokens now title items maxItems charLimit b)
    as [added1 Hadd]. cbn [runSection]. rewrite Hadd.
  exists (added1 ++ added2). by rewrite app_assoc.
Qed.

(** [join] keeps every part: a string of the array occurs in the block. *)
Lemma prefix_empty s : String.prefix EmptyString s = true.
Proof. by destruct s. Qed.

Lemma prefix_append p r : String.prefix p (p +:+ r) = true.
Proof.
  induction p as [|a p IH]; [apply prefix_empty|].
  change (String a p +:+ r) with (String a (p +:+ r)). cbn [String.prefix].
  by destruct (ascii_dec a a).
Qed.

Lemma prefix_append_l p s t :
  String.prefix p s = true -> String.prefix p (s +:+ t) = true.
Proof.
  revert s. induction p as [|a p IH]; intros s; [intros _; apply prefix_empty|].
  destruct s as [|c s]; [done|].
  change (String c s +:+ t) with (String c (s +:+ t)). cbn [String.prefix].
  destruct (ascii_dec a c); [apply IH|done].
Qed.

Lemma prefix_includes p s : String.prefix p s = true -> Js.includes p s = true.
Proof. destruct s; cbn; [done|]. by intros ->. Qed.

Lemma includes_append_l p s t :
  Js.includes p s = true -> Js.includes p (s +:+ t) = true.
Proof.
  induction s as [|c s IH]; cbn [Js.includes].
  - destruct p; [|done]. intros _. apply prefix_includes, prefix_empty.
  - intros [Hp|Hs]%orb_true_iff.
    + apply prefix_includes. by apply (prefix_append_l p (String c s) t).
    + change (String c s +:+ t) with (String c (s +:+ t)). cbn [Js.includes].
      rewrite (IH Hs). apply orb_true_r.
Qed.

Lemma includes_append_r p s t :
  Js.includes p s = true -> Js.includes p (t +:+ s) = true.
Proof.
  intros Hs. induction t as [|c t IH]; [done|].
  change (String c t +:+ s) with (String c (t +:+ s)). cbn [Js.includes].
  rewrite IH. apply orb_true_r.
Qed.

Lemma includes_self p : Js.includes p p = true.
Proof.
  apply prefix_includes. induction p as [|a p IH]; [done|].
  cbn. by destruct (ascii_dec a a).
Qed.

Lemma includes_join sep p parts :
  p ∈ parts -> Js.includes p (Js.join sep parts) = true.
Proof.
  unfold Js.join. induction parts as [|x parts IH]; [by intros ?%elem_of_nil|].
  intros [->|Hp]%elem_of_cons.
  - destruct parts as [|y parts]; [apply includes_self|].
    apply prefix_includes, prefix_append.
  - destruct parts as [|y parts]; [by apply elem_of_nil in Hp|].
    change (String.concat sep (x :: y :: parts))
      with (x +:+ sep +:+ String.concat sep (y :: parts)).
    by apply includes_append_r, includes_append_r, IH.
Qed.

(** Without memories every section is empty. *)
Lemma plan_nil now : Forall (fun call : SectionCall => call.1.1.2 = []) (plan now []).
Proof. repeat constructor. Qed.

(** C1, as the code has it. For a budget [maxTokens >= 0], the section
    headers and item lines of the block have estimates, [ceil(length / 4)]
    each, that add up to at most [maxTokens]; the truncation markers and the
    line feeds of [join] come on top and are not charged. Whenever a section
    is started with the running estimate under the budget and its lines do
    not all fit, the block contains a truncation marker for at least one
    item. A section whose header alone reaches the budget is left out
    without a marker. *)
Theorem buildContext_budget now memories maxTokens :
  0 <= maxTokens ->
  tokensOf (counted (contextSections now memories maxTokens)) <= maxTokens
  /\ (forall before title items maxItems charLimit after,
        plan now memories = before ++ (title, items, maxItems, charLimit) :: after ->
        let b := foldl (runSection maxTokens now) emptyBuilder before in
        items <> [] ->
        currentTokens b + estimateTokens (nl +:+ title) < maxTokens ->
        maxTokens < currentTokens b + estimateTokens (nl +:+ title)
                    + tokensOf (linesFrom now charLimit 0 (visited items maxItems)) ->
        exists dropped,
          (0 < dropped)%nat
          /\ truncationMarker dropped ∈ contextSections now memories maxTokens
          /\ Js.includes (truncationMarker dropped)
               (buildContext now memories maxTokens) = true)
  /\ (forall title items maxItems charLimit b,
        maxTokens <= currentTokens b + estimateTokens (nl +:+ title) ->
        sections (addSection maxTokens now title items maxItems charLimit b)
        = sections b).
Proof.
  intros Hmax. split; [|split].
  - unfold contextSections.
    apply (runSections_withinBudget maxTokens now (plan now memories) emptyBuilder).
    by split; cbn.
  - intros pre title items maxItems charLimit post Hplan b Hne Hfit Hover.
    assert (Hin : exists dropped,
               (0 < dropped)%nat
               /\ truncationMarker dropped ∈ contextSections now memories maxTokens).
    { unfold contextSections. rewrite Hplan, foldl_app. cbn [foldl]. fold b.
      destruct (runSections_extends maxTokens now post
                  (runSection maxTokens now b (title, items, maxItems, charLimit)))
        as [added ->].
      cbn [runSection].
      destruct (addSection_shape maxTokens now title items maxItems
                  charLimit b Hne Hfit) as (j & Hj & Hsec & Htok & Hle & _).
      cbn zeta in *. rewrite Hsec.
      set (lines := linesFrom now charLimit 0 (visited items maxItems)) in *.
      destruct (decide (j < length lines)%nat) as [Hlt|Hge].
      + exists (length items - j)%nat. split.
        * assert (length lines <= length items)%nat; [|lia].
          subst lines. rewrite length_linesFrom. unfold visited.
          rewrite length_take. lia.
        * rewrite !elem_of_app. left. right. right. rewrite elem_of_app. right.
          by left.
      + exfalso. rewrite take_ge in Htok by lia. lia. }
    destruct Hin as (dropped & Hpos & Hin). exists dropped.
    split; [exact Hpos|]. split; [exact Hin|].
    unfold buildContext. destruct memories as [|m ms]; [|by apply includes_join].
    exfalso. apply Hne.
    pose proof (plan_nil now) as Hnil. rewrite Hplan in Hnil.
    apply Forall_app in Hnil as [_ Hnil]. by apply Forall_cons in Hnil as [Hnil _].
  - intros title items maxItems charLimit b Hfull.
    apply addSection_skipped. by right.
Qed.

Lemma tokensOf_take_le j l : tokensOf (take j l) <= tokensOf l.
Proof.
  rewrite <- (take_drop j l) at 2. rewrite tokensOf_app.
  pose proof (tokensOf_nonneg (drop j l)). lia.
Qed.

Lemma addSection_ample maxTokens now title items maxItems charLimit b :
  currentTokens b + tokensOf (fullSection now (title, items, maxItems, charLimit))
    < maxTokens ->
  let b' := addSection maxTokens now title items maxItems charLimit b in
  sections b' = sections b ++ fullSection now (title, items, maxItems, charLimit)
  /\ currentTokens b'
     = currentTokens b + tokensOf (fullSection now (title, items, maxItems, charLimit)).
Proof.
  cbn zeta. destruct (decide (items = [])) as [->|Hne].
  { cbn. rewrite app_nil_r. intros _. split; [done|lia]. }
  assert (Hfull : fullSection now (title, items, maxItems, charLimit)
                  = (nl +:+ title) :: linesFrom now charLimit 0 (visited items maxItems))
    by (by destruct items).
  rewrite Hfull. cbn [tokensOf foldr].
  fold (tokensOf (linesFrom now charLimit 0 (visited items maxItems))).
  set (lines := linesFrom now charLimit 0 (visited items maxItems)).
  intros Hfit. pose proof (tokensOf_nonneg lines) as Hpos.
  destruct (addSection_shape maxTokens now title items maxItems charLimit b Hne)
    as (j & Hj & Hsec & Htok & _ & Hover); [lia|].
  cbn zeta in *. fold lines in Hj, Hsec, Htok, Hover.
  destruct (decide (j < length lines)%nat) as [Hlt|Hge].
  - exfalso. destruct (lookup_lt_is_Some_2 lines j Hlt) as [line Hline].
    specialize (Hover line Hline).
    pose proof (tokensOf_take_le (S j) lines) as Hle.
    rewrite (take_S_r _ _ _ Hline), tokensOf_app in Hle. cbn in Hle. lia.
  - rewrite take_ge in Hsec, Htok by lia. rewrite app_nil_r in Hsec.
    split; [done|lia].
Qed.

Lemma runSections_ample maxTokens now calls : forall b,
  currentTokens b + tokensOf (flat_map (fullSection now) calls) < maxTokens ->
  let b' := foldl (runSection maxTokens now) b calls in
  sections b' = sections b ++ flat_map (fullSection now) calls
  /\ currentTokens b' = currentTokens b + tokensOf (flat_map (fullSection now) calls).
Proof.
  induction calls as [|[[[title items] maxItems] charLimit] calls IH]; intros b; cbn zeta.
  - cbn. rewrite app_nil_r. intros _. split; [done|lia].
  - cbn [flat_map foldl runSection]. rewrite tokensOf_app. intros Hfit.
    pose proof (tokensOf_nonneg (flat_map (fullSection now) calls)) as Hpos.
    destruct (addSection_ample maxTokens now title items maxItems charLimit b)
      as [Hsec Htok]; [lia|]. cbn zeta in *.
    destruct (IH (addSection maxTokens now title items maxItems charLimit b))
      as [Hsec' Htok']; [lia|]. cbn zeta in *.
    rewrite Hsec', Htok', Hsec, Htok, app_assoc. split; [done|lia].
Qed.

Lemma isMarker_fullSection now call s :
  s ∈ fullSection now call -> isMarker s = false.
Proof.
  destruct call as [[[title items] maxItems] charLimit]. cbn.
  destruct items as [|item items]; [by intros ?%elem_of_nil|].
  intros [->|Hs]%elem_of_cons; [apply isMarker_header|].
  revert Hs. generalize (visited (item :: items) maxItems) 0%nat.
  intros l. induction l as [|x l IH]; intros i; [by intros ?%elem_of_nil|].
  cbn [linesFrom]. intros [->|Hs]%elem_of_cons; [apply isMarker_line|by eapply IH].
Qed.

(** X: ample budget *)
Theorem buildContext_ample_budget now memories maxTokens :
  memories <> [] ->
  tokensOf (flat_map (fullSection now) (plan now memories)) < maxTokens ->
  buildContext now memories maxTokens
    = Js.join nl (flat_map (fullSection now) (plan now memories))
  /\ (forall s, s ∈ contextSections now memories maxTokens -> isMarker s = false).
Proof.
  intros Hne Hfit.
  destruct (runSections_ample maxTokens now (plan now memories) emptyBuilder)
    as [Hsec _]; [by cbn|]. cbn zeta in Hsec. cbn [sections emptyBuilder app] in Hsec.
  split.
  - unfold buildContext. destruct memories; [done|]. unfold contextSections.
    by rewrite Hsec.
  - unfold contextSections. rewrite Hsec. intros s (call & _ & Hs)%list_elem_of_In%in_flat_map.
    apply (isMarker_fullSection now call). by apply list_elem_of_In.
Qed.

Lemma filter_none {A : Type} (P : A -> Prop) `{forall x, Decision (P x)} (l : list A) :
  (forall x, x ∈ l -> ~ P x) -> filter P l = [].
Proof.
  intros Hnone. induction l as [|x l IH]; [done|].
  rewrite filter_cons_False by (apply Hnone; by left).
  apply IH. intros y Hy. apply Hnone. by right.
Qed.

Theorem buildContext_unsectioned now memories maxTokens :
  memories <> [] ->
  (forall m, m ∈ memories ->
     category m <> "bug_report" /\ category m <> "feature_request"
     /\ type m <> "preference" /\ type m <> "extracted_fact"
     /\ type m <> "sentiment" /\ type m <> "conversation") ->
  buildContext now memories maxTokens = EmptyString.
Proof.
  intros Hne Hnone. unfold buildContext. destruct memories as [|m0 ms]; [done|].
  unfold contextSections, plan.
  assert (Hsorted : forall m, m ∈ sortDesc (contextScore now) (m0 :: ms) ->
            category m <> "bug_report" /\ category m <> "feature_request"
            /\ type m <> "preference" /\ type m <> "extracted_fact"
            /\ type m <> "sentiment" /\ type m <> "conversation").
  { intros m Hm. apply Hnone. by rewrite sortDesc_perm in Hm. }
  set (sorted := sortDesc (contextScore now) (m0 :: ms)) in *. cbn zeta.
  rewrite !filter_none; [done|..]; intros m Hm; specialize (Hsorted m Hm); tauto.
Qed.

Lemma sorted_take {A : Type} (R : relation A) n l :
  StronglySorted R l -> StronglySorted R (take n l).
Proof.
  intros Hs. rewrite <- (take_drop n l) in Hs. by apply StronglySorted_app_1_l in Hs.
Qed.

Lemma sorted_filter {A : Type} (R : relation A) (P : A -> Prop)
    `{forall x, Decision (P x)} l :
  StronglySorted R l -> StronglySorted R (filter P l).
Proof.
  induction l as [|x l IH]; [done|].
  intros [Hx Hl]%StronglySorted_cons.
  destruct (decide (P x)).
  - rewrite filter_cons_True by done. apply StronglySorted_cons. split; [|by apply IH].
    apply Forall_forall. intros y [_ Hy]%list_elem_of_filter.
    by apply (proj1 (Forall_forall _ _) Hx).
  - rewrite filter_cons_False by done. by apply IH.
Qed.

Theorem plan_sections_ranked now memories title items maxItems charLimit :
  (title, items, maxItems, charLimit) ∈ plan now memories ->
  StronglySorted (descends (contextScore now)) items
  /\ (forall m, m ∈ items -> m ∈ memories)
  /\ (title = "RECENT INTERACTIONS:" -> (length items <= 3)%nat).
Proof.
  unfold plan. cbn zeta.
  set (sorted := sortDesc (contextScore now) memories).
  assert (Hs : StronglySorted (descends (contextScore now)) sorted)
    by apply sortDesc_sorted.
  assert (Hin : forall m, m ∈ sorted -> m ∈ memories).
  { intros m Hm. subst sorted. by rewrite sortDesc_perm in Hm. }
  intros Hcall. repeat (apply elem_of_cons in Hcall as [Hcall|Hcall]);
    [..|by apply elem_of_nil in Hcall]; injection Hcall as -> -> -> ->.
  1-4: (split; [by apply sorted_filter|]; split;
        [intros m [_ Hm]%list_elem_of_filter; by apply Hin|done]).
  split; [|split].
  - apply sorted_take. by apply sorted_filter.
  - intros m Hm%elem_of_take. destruct Hm as (i & Hm & _).
    apply list_elem_of_lookup_2, list_elem_of_filter in Hm as [_ Hm]. by apply Hin.
  - intros _. rewrite length_take. lia.
Qed.

End ContextFacts.

(** ** The embedding cache *)

Section CacheFacts.
Import Ollama.
Variable getCacheKey : string -> string.
Variable embeddings : string -> result Embedding.

Lemma mapGet_None k (m : list (string * Embedding)) :
  mapGet k m = None <-> k ∉ m.*1.
Proof.
  induction m as [|[k' v] m IH]; cbn [mapGet].
  - split; [intros _; apply not_elem_of_nil|done].
  - rewrite fmap_cons, not_elem_of_cons. cbn [fst].
    destruct (decide (k = k')); [|tauto].
    split; [done|]. intros [? _]. done.
Qed.

Lemma mapSet_fresh k v (m : list (string * Embedding)) :
  k ∉ m.*1 -> mapSet k v m = m ++ [(k, v)].
Proof.
  induction m as [|[k' v'] m IH]; cbn [mapSet app]; [done|].
  rewrite fmap_cons, not_elem_of_cons. cbn [fst]. intros [Hne Hm].
  destruct (decide (k = k')); [done|]. by rewrite IH.
Qed.

Lemma mapDelete_first k v (m : list (string * Embedding)) :
  k ∉ m.*1 -> mapDelete k ((k, v) :: m) = m.
Proof.
  intros Hk. unfold mapDelete.
  rewrite (filter_cons_False _ (k, v)) by (cbn; intros Hn; by apply Hn).
  induction m as [|[k' v'] m IH]; [done|].
  rewrite fmap_cons in Hk. apply not_elem_of_cons in Hk as [Hne Hk]. cbn [fst] in Hne.
  rewrite (filter_cons_True _ (k', v')) by (cbn; congruence). by rewrite IH.
Qed.

Lemma generateEmbedding_hit t c e :
  mapGet (getCacheKey t) (embeddingCache c) = Some e ->
  generateEmbedding getCacheKey embeddings t true c
  = (Ok e, countHit (countEmbedding c)).
Proof.
  intros Hget. unfold generateEmbedding. cbn [countEmbedding embeddingCache].
  by rewrite Hget.
Qed.

Lemma generateEmbedding_request cached t c e :
  keysOf c = getCacheKey <$> cached ->
  NoDup (getCacheKey <$> cached) ->
  (t ∉ cached -> getCacheKey t ∉ getCacheKey <$> cached) ->
  embeddings t = Ok e ->
  keysOf (generateEmbedding getCacheKey embeddings t true c).2
  = getCacheKey <$> request cached t.
Proof.
  intros Hkeys Hnd Hfresh Hok. unfold generateEmbedding, request.
  cbn [countEmbedding embeddingCache].
  destruct (decide (t ∈ cached)) as [Hin|Hnew].
  - destruct (mapGet (getCacheKey t) (embeddingCache c)) eqn:Hget; [done|].
    apply mapGet_None in Hget. exfalso. apply Hget.
    fold (keysOf c). rewrite Hkeys. by apply list_elem_of_fmap_2.
  - specialize (Hfresh Hnew).
    assert (Hget : mapGet (getCacheKey t) (embeddingCache c) = None).
    { apply mapGet_None. fold (keysOf c). by rewrite Hkeys. }
    rewrite Hget. unfold fetchEmbedding. rewrite Hok.
    cbn [snd cacheEmbedding countMiss embeddingCache]. unfold keysOf in *.
    cbn [embeddingCache].
    assert (Hlen : length (embeddingCache c) = length cached).
    { rewrite <- (length_fmap fst (embeddingCache c)), Hkeys. apply length_fmap. }
    unfold cacheEmbedding. cbn [countMiss countEmbedding embeddingCache].
    rewrite Hlen.
    destruct (MAX_CACHE_SIZE <=? length cached)%nat.
    + destruct (embeddingCache c) as [|[k v] m] eqn:Hc.
      * by destruct cached.
      * destruct cached as [|u cached]; [done|].
        rewrite !fmap_cons in *. cbn [fst tail] in *.
        injection Hkeys as Hk Hkeys. subst k.
        apply NoDup_cons in Hnd as [Hu Hnd].
        rewrite mapDelete_first by (by rewrite Hkeys).
        rewrite mapSet_fresh.
        -- by rewrite !fmap_app, Hkeys.
        -- rewrite Hkeys. intros Hk. apply Hfresh. by right.
    + rewrite mapSet_fresh by (by rewrite Hkeys).
      by rewrite !fmap_app, Hkeys.
Qed.

Lemma elem_of_request cached t x :
  x ∈ request cached t -> x ∈ cached \/ x = t.
Proof.
  unfold request. destruct (decide (t ∈ cached)); [by left|].
  rewrite elem_of_app, list_elem_of_singleton. intros [Hx|]; [left|by right].
  destruct (MAX_CACHE_SIZE <=? length cached)%nat; [|done].
  destruct cached; [done|]. by right.
Qed.

Lemma NoDup_request cached t : NoDup cached -> NoDup (request cached t).
Proof.
  intros Hnd. unfold request. destruct (decide (t ∈ cached)) as [|Hnew]; [done|].
  apply NoDup_app. split; [|split].
  - destruct (MAX_CACHE_SIZE <=? length cached)%nat; [|done].
    destruct cached; [done|]. by apply NoDup_cons in Hnd as [_ ?].
  - intros x Hx ->%list_elem_of_singleton. apply Hnew.
    destruct (MAX_CACHE_SIZE <=? length cached)%nat; [|done].
    destruct cached; [done|]. by right.
  - apply NoDup_singleton.
Qed.

(** A run of requests moves the cache as [request] says, as long as the
    provider answers and no two of the texts share a key. *)
Lemma embedAll_requests calls : forall cached c,
  keysOf c = getCacheKey <$> cached ->
  NoDup cached ->
  (forall t u, t ∈ cached ++ calls -> u ∈ cached ++ calls ->
     getCacheKey t = getCacheKey u -> t = u) ->
  (forall t, t ∈ calls -> exists e, embeddings t = Ok e) ->
  keysOf (embedAll getCacheKey embeddings calls c)
  = getCacheKey <$> foldl request cached calls.
Proof.
  induction calls as [|t calls IH]; intros cached c Hkeys Hnd Hinj Hok; [done|].
  cbn [embedAll foldl]. destruct (Hok t) as [e He]; [by left|].
  apply IH.
  - apply (generateEmbedding_request cached t c e); [done| |  |done].
    + apply NoDup_fmap_2_strong; [|done].
      intros x y Hx Hy. apply Hinj; apply elem_of_app; by left.
    + intros Hnew (u & Hk & Hu)%list_elem_of_fmap. apply Hnew.
      rewrite (Hinj t u); [done| | |done]; apply elem_of_app.
      * right. by left.
      * by left.
  - by apply NoDup_request.
  - intros x y Hx Hy. apply Hinj.
    + apply elem_of_app in Hx as [[Hx| ->]%elem_of_request|Hx]; apply elem_of_app.
      * by left. 
      * right. by left.
      * right. by right.
    + apply elem_of_app in Hy as [[Hy| ->]%elem_of_request|Hy]; apply elem_of_app.
      * by left. 
      * right. by left.
      * right. by right.
  - intros u Hu. apply Hok. by right.
Qed.

Lemma elem_of_firsts t calls : t ∈ firsts calls <-> t ∈ calls.
Proof.
  induction calls as [|u calls IH]; [done|].
  cbn [firsts]. rewrite !elem_of_cons, list_elem_of_filter, IH.
  destruct (decide (t = u)); tauto.
Qed.

Lemma NoDup_firsts calls : NoDup (firsts calls).
Proof.
  induction calls as [|u calls IH]; [constructor|].
  cbn [firsts]. apply NoDup_cons. split.
  - rewrite list_elem_of_filter. tauto.
  - by apply NoDup_filter.
Qed.

Lemma filter_not_elem_of_snoc (cached l : list string) t :
  filter (fun u => u ∉ cached ++ [t]) l
  = filter (fun u => u ∉ cached) (filter (fun u => u <> t) l).
Proof.
  induction l as [|x l IH]; [done|].
  destruct (decide (x = t)) as [->|Hne].
  - rewrite (filter_cons_False (fun u => u <> t)) by tauto.
    rewrite filter_cons_False; [done|].
    rewrite elem_of_app, list_elem_of_singleton. tauto.
  - rewrite (filter_cons_True (fun u => u <> t)) by done.
    destruct (decide (x ∈ cached)) as [Hin|Hout].
    + rewrite !filter_cons_False; [done|tauto|].
      rewrite elem_of_app. tauto.
    + rewrite !filter_cons_True; [by rewrite IH|done|].
      rewrite elem_of_app, list_elem_of_singleton. tauto.
Qed.

Lemma filter_not_elem_of_absorb (cached l : list string) t :
  t ∈ cached ->
  filter (fun u => u ∉ cached) (filter (fun u => u <> t) l)
  = filter (fun u => u ∉ cached) l.
Proof.
  intros Hin. induction l as [|x l IH]; [done|].
  destruct (decide (x = t)) as [->|Hne].
  - rewrite (filter_cons_False (fun u => u <> t)) by tauto.
    by rewrite (filter_cons_False (fun u => u ∉ cached)) by tauto.
  - rewrite (filter_cons_True (fun u => u <> t)) by done.
    destruct (decide (x ∈ cached)).
    + rewrite !(filter_cons_False (fun u => u ∉ cached)) by tauto. done.
    + rewrite !(filter_cons_True (fun u => u ∉ cached)) by done. by rewrite IH.
Qed.

Lemma filter_not_elem_of_nil (l : list string) :
  filter (fun u => u ∉ @nil string) l = l.
Proof.
  induction l as [|x l IH]; [done|].
  rewrite filter_cons_True by apply not_elem_of_nil. by rewrite IH.
Qed.

(** While the capacity is not exceeded, the cache holds the texts in the
    order of their first request: later reads do not move them. *)
Lemma requests_firsts calls : forall cached,
  (length (cached ++ filter (fun u => u ∉ cached) (firsts calls)) <= MAX_CACHE_SIZE)%nat ->
  foldl request cached calls
  = cached ++ filter (fun u => u ∉ cached) (firsts calls).
Proof.
  induction calls as [|t calls IH]; intros cached Hlen.
  - cbn. by rewrite app_nil_r.
  - cbn [foldl firsts] in *. unfold request at 2.
    destruct (decide (t ∈ cached)) as [Hin|Hnew].
    + rewrite filter_cons_False in * by tauto.
      rewrite filter_not_elem_of_absorb in * by done. by apply IH.
    + rewrite filter_cons_True in * by done.
      rewrite length_app in Hlen. cbn [length] in Hlen.
      destruct (Nat.leb_spec MAX_CACHE_SIZE (length cached)); [lia|].
      rewrite IH.
      * rewrite filter_not_elem_of_snoc, <- app_assoc. done.
      * rewrite filter_not_elem_of_snoc, <- app_assoc, length_app. cbn [app length]. lia.
Qed.

(** C9. Start from an empty cache and let the requests [calls] mention
    exactly [MAX_CACHE_SIZE] (1000) distinct texts, each requested any number
    of times and in any order after its first request; then request one more
    new text. The cache then holds every text except the one requested
    first, in the order of first request with the new text last: exactly the
    first-inserted entry is evicted, however often it was read. *)
Theorem cache_evicts_first_inserted calls new :
  (forall t, t ∈ calls ++ [new] -> exists e, embeddings t = Ok e) ->
  (forall t u, t ∈ calls ++ [new] -> u ∈ calls ++ [new] ->
     getCacheKey t = getCacheKey u -> t = u) ->
  length (firsts calls) = MAX_CACHE_SIZE ->
  new ∉ calls ->
  let final := embedAll getCacheKey embeddings (calls ++ [new]) create in
  exists first others,
    firsts calls = first :: others
    /\ keysOf final = (getCacheKey <$> others ++ [new])
    /\ (getCacheKey first ∉ keysOf final)
    /\ length (keysOf final) = MAX_CACHE_SIZE.
Proof.
  intros Hok Hinj Hlen Hnew final.
  assert (Hkeys : keysOf final = getCacheKey <$> foldl request [] (calls ++ [new])).
  { apply embedAll_requests; [done|constructor|done|done]. }
  rewrite foldl_app in Hkeys. cbn [foldl] in Hkeys.
  rewrite requests_firsts in Hkeys.
  2:{ cbn [app]. rewrite filter_not_elem_of_nil. lia. }
  cbn [app] in Hkeys. rewrite filter_not_elem_of_nil in Hkeys.
  unfold request in Hkeys.
  destruct (decide (new ∈ firsts calls)) as [Hin|_];
    [exfalso; apply Hnew; by apply (proj1 (elem_of_firsts _ _))|].
  rewrite Hlen, Nat.leb_refl in Hkeys.
  destruct (firsts calls) as [|first others] eqn:Hfirsts; [done|].
  exists first, others. cbn [tail] in Hkeys.
  split; [done|]. split; [done|]. split.
  - rewrite Hkeys. intros (u & Hk & Hu)%list_elem_of_fmap.
    pose proof (NoDup_firsts calls) as Hnd. rewrite Hfirsts in Hnd.
    apply NoDup_cons in Hnd as [Hfirst _].
    assert (Hfc : first ∈ calls) by (apply elem_of_firsts; rewrite Hfirsts; by left).
    assert (first = u); [|subst u].
    { apply Hinj; [apply elem_of_app; by left| |done].
      apply elem_of_app in Hu as [Hu|Hu]; apply elem_of_app; [left|by right].
      apply elem_of_firsts. rewrite Hfirsts. by right. }
    apply elem_of_app in Hu as [Hu|Hu%list_elem_of_singleton]; [done|].
    by subst.
  - rewrite Hkeys, length_fmap, length_app. cbn [length] in *. lia.
Qed.

Lemma keys_mapSet k v (m : list (string * Embedding)) :
  (mapSet k v m).*1 = if decide (k ∈ m.*1) then m.*1 else m.*1 ++ [k].
Proof.
  induction m as [|[k' v'] m IH]; cbn [mapSet].
  - rewrite decide_False by apply not_elem_of_nil. done.
  - rewrite !fmap_cons. cbn [fst]. destruct (decide (k = k')) as [->|Hne].
    + rewrite decide_True by (by left). done.
    + rewrite fmap_cons, IH. cbn [fst]. destruct (decide (k ∈ m.*1)).
      * rewrite decide_True by (by right). done.
      * rewrite decide_False; [done|]. by intros [?|?]%elem_of_cons.
Qed.

Lemma cacheEmbedding_sound text e c :
  sound c -> sound (cacheEmbedding getCacheKey text e c).
Proof.
  intros (Hstats & Hlen & Hnd). unfold sound, cacheEmbedding, keysOf in *.
  cbn [stats embeddingCache]. split; [done|].
  set (cache := if (MAX_CACHE_SIZE <=? length (embeddingCache c))%nat then _ else _).
  assert (Hcache : (length cache < MAX_CACHE_SIZE)%nat /\ NoDup cache.*1).
  { subst cache. destruct (Nat.leb_spec MAX_CACHE_SIZE (length (embeddingCache c))).
    - destruct (embeddingCache c) as [|[k v] m];
        [split; [unfold MAX_CACHE_SIZE; cbn [length]; lia|constructor]|].
      rewrite fmap_cons in Hnd. apply NoDup_cons in Hnd as [Hk Hnd].
      rewrite mapDelete_first by done. cbn [length] in *. split; [lia|done].
    - done. }
  destruct Hcache as [Hsmall Hnd'].
  assert (Hkeys := keys_mapSet (getCacheKey text) e cache).
  split.
  - rewrite <- (length_fmap fst), Hkeys. destruct (decide _).
    + rewrite length_fmap. lia.
    + rewrite length_app, length_fmap. cbn. lia.
  - rewrite Hkeys. destruct (decide _); [done|].
    apply NoDup_app. split; [done|]. split; [|apply NoDup_singleton].
    intros x Hx ->%list_elem_of_singleton. done.
Qed.

Lemma perform_sound c call : sound c -> sound (perform getCacheKey c call).
Proof.
  intros Hc. destruct call as [text useCache answer|messages answer|]; cbn [perform].
  - unfold generateEmbedding.
    assert (H0 : sound (countEmbedding c)).
    { destruct Hc as (? & ? & ?). unfold sound, keysOf in *. cbn. split; [lia|done]. }
    destruct useCache.
    + destruct (mapGet _ _).
      * destruct Hc as (? & ? & ?). unfold sound, keysOf in *. cbn. split; [lia|done].
      * assert (H1 : sound (countMiss (countEmbedding c))).
        { destruct Hc as (? & ? & ?). unfold sound, keysOf in *. cbn. split; [lia|done]. }
        unfold fetchEmbedding. destruct answer; cbn [snd]; [|done].
        by apply cacheEmbedding_sound.
    + unfold fetchEmbedding. destruct answer; done.
  - unfold chat. destruct answer; cbn;
      destruct Hc as (? & ? & ?); unfold sound, keysOf in *; cbn; (split; [lia|done]).
  - destruct Hc as (? & ? & ?). unfold sound, keysOf, clearCache. cbn.
    split; [lia|]. split; [lia|constructor].
Qed.

(** X: client invariants *)
Theorem client_stays_sound (calls : list ClientCall) :
  sound (foldl (perform getCacheKey) create calls).
Proof.
  assert (H0 : sound create).
  { unfold sound, keysOf. cbn. split; [lia|]. split; [lia|constructor]. }
  revert H0. generalize create. induction calls as [|call calls IH]; intros c Hc; [done|].
  cbn [foldl]. apply IH. by apply perform_sound.
Qed.

Lemma mapGet_mapSet_same k v (m : list (string * Embedding)) :
  mapGet k (mapSet k v m) = Some v.
Proof.
  induction m as [|[k' v'] m IH]; cbn.
  - by destruct (decide (k = k)).
  - destruct (decide (k = k')) as [->|Hne]; cbn.
    + by destruct (decide (k' = k')).
    + by destruct (decide (k = k')).
Qed.

(** X: served from the cache *)
Theorem embedding_served_from_cache (embeddings' : string -> result Embedding)
    text text' c e :
  (generateEmbedding getCacheKey embeddings text true c).1 = Ok e ->
  getCacheKey text' = getCacheKey text ->
  let c' := (generateEmbedding getCacheKey embeddings text true c).2 in
  generateEmbedding getCacheKey embeddings' text' true c'
  = (Ok e, countHit (countEmbedding c')).
Proof.
  intros Hok Hkey c'.
  assert (Hget : mapGet (getCacheKey text) (embeddingCache c') = Some e).
  { subst c'. revert Hok. unfold generateEmbedding.
    cbn [countEmbedding embeddingCache].
    destruct (mapGet (getCacheKey text) (embeddingCache c)) as [cached|] eqn:Hget.
    - cbn. by intros [= ->].
    - unfold fetchEmbedding. destruct (embeddings text) as [e'|msg]; [|done].
      cbn. intros [= ->]. apply mapGet_mapSet_same. }
  unfold generateEmbedding. cbn [countEmbedding embeddingCache].
  by rewrite Hkey, Hget.
Qed.

Lemma beginEmbedding_spec text c :
  let r := beginEmbedding getCacheKey text c in
  r.1 = mapGet (getCacheKey text) (embeddingCache c)
  /\ embeddingCache r.2 = embeddingCache c
  /\ totalEmbeddings (stats r.2) = S (totalEmbeddings (stats c))
  /\ cacheHits (stats r.2)
     = (cacheHits (stats c) + match r.1 with Some _ => 1 | None => 0 end)%nat
  /\ cacheMisses (stats r.2)
     = (cacheMisses (stats c) + match r.1 with Some _ => 0 | None => 1 end)%nat
  /\ totalChats (stats r.2) = totalChats (stats c).
Proof.
  cbn zeta. unfold beginEmbedding. cbn [countEmbedding embeddingCache].
  destruct (mapGet _ _); cbn; repeat split; lia.
Qed.

Lemma startAll_spec texts : forall started c,
  let r := foldl (fun '(started, c) text =>
                    let '(hit, c) := beginEmbedding getCacheKey text c in
                    (started ++ [(text, hit)], c)) (started, c) texts in
  r.1 = started
        ++ map (fun text => (text, mapGet (getCacheKey text) (embeddingCache c))) texts
  /\ embeddingCache r.2 = embeddingCache c
  /\ stats r.2
     = mkStats
         (cacheHits (stats c)
          + length (filter (fun t => is_Some (mapGet (getCacheKey t) (embeddingCache c)))
                      texts))
         (cacheMisses (stats c)
          + length (filter (fun t => mapGet (getCacheKey t) (embeddingCache c) = None)
                      texts))
         (totalEmbeddings (stats c) + length texts)
         (totalChats (stats c)).
Proof.
  induction texts as [|text texts IH]; intros started c; cbn zeta.
  - cbn. rewrite app_nil_r, !Nat.add_0_r. by destruct (stats c).
  - cbn [foldl].
    destruct (beginEmbedding_spec text c) as (Hhit & Hcache & Htotal & Hhits & Hmiss & Hchat).
    cbn zeta in *. destruct (beginEmbedding getCacheKey text c) as [hit c1].
    cbn [fst snd] in *. subst hit.
    destruct (IH (started ++ [(text, mapGet (getCacheKey text) (embeddingCache c))]) c1)
      as (H1 & H2 & H3). cbn zeta in *.
    rewrite H1, H2, H3, Hcache, Htotal, Hhits, Hmiss, Hchat. clear H1 H2 H3.
    split; [by rewrite <- app_assoc|]. split; [done|].
    destruct (mapGet (getCacheKey text) (embeddingCache c)) as [cached|] eqn:Hget.
    + rewrite filter_cons_True by (by rewrite Hget).
      rewrite (filter_cons_False (fun t => _ = None)) by (by rewrite Hget).
      cbn [length]. f_equal; lia.
    + rewrite filter_cons_False by (rewrite Hget; by intros [? ?]).
      rewrite (filter_cons_True (fun t => _ = None)) by (by rewrite Hget).
      cbn [length]. f_equal; lia.
Qed.

Lemma settle_stats arrival : forall c,
  stats (settle getCacheKey embeddings arrival c).2 = stats c.
Proof.
  induction arrival as [|text arrival IH]; intros c; [done|].
  cbn [settle]. unfold fetchEmbedding. destruct (embeddings text); [|done].
  by rewrite IH.
Qed.

Lemma settle_ok arrival : forall c,
  (forall t, t ∈ arrival -> exists e, embeddings t = Ok e) ->
  (settle getCacheKey embeddings arrival c).1 = Ok tt.
Proof.
  induction arrival as [|text arrival IH]; intros c Hok; [done|].
  cbn [settle]. unfold fetchEmbedding. destruct (Hok text) as [e ->]; [by left|].
  apply IH. intros t Ht. apply Hok. by right.
Qed.


Lemma vectorsOf_started (cache : list (string * Embedding)) texts :
  (forall t, t ∈ texts -> mapGet (getCacheKey t) cache = None ->
     exists e, embeddings t = Ok e) ->
  Forall2 (fun t v => mapGet (getCacheKey t) cache = Some v
                      \/ (mapGet (getCacheKey t) cache = None /\ embeddings t = Ok v))
    texts
    (vectorsOf embeddings (map (fun text => (text, mapGet (getCacheKey text) cache)) texts)).
Proof.
  induction texts as [|t texts IH]; intros Hok; [constructor|].
  assert (IH' := IH (fun u Hu => Hok u (list_elem_of_further _ _ _ Hu))).
  unfold vectorsOf in *. cbn [map]. cbn [omap list_omap].
  destruct (mapGet (getCacheKey t) cache) as [cached|] eqn:Hget.
  - constructor; [by left|exact IH'].
  - destruct (Hok t) as [e He]; [by left|done|]. rewrite He.
    constructor; [by right|exact IH'].
Qed.

(** X: batch *)
Theorem batch_counts_each_occurrence arrival texts c text e :
  let batch := generateEmbeddings getCacheKey embeddings arrival texts c in
  let missed := filter (fun t => mapGet (getCacheKey t) (embeddingCache c) = None) texts in
  totalEmbeddings (stats batch.2) = (totalEmbeddings (stats c) + length texts)%nat
  /\ cacheMisses (stats batch.2) = (cacheMisses (stats c) + length missed)%nat
  /\ (cacheHits (stats batch.2) + length missed
      = cacheHits (stats c) + length texts)%nat
  /\ pendingOf (startAll getCacheKey texts c).1 = missed
  /\ (arrival ≡ₚ missed ->
      (forall t, t ∈ missed -> exists v, embeddings t = Ok v) ->
      exists vectors,
        batch.1 = Ok vectors
        /\ Forall2 (fun t v =>
                      mapGet (getCacheKey t) (embeddingCache c) = Some v
                      \/ (mapGet (getCacheKey t) (embeddingCache c) = None
                          /\ embeddings t = Ok v)) texts vectors)
  /\ (mapGet (getCacheKey text) (embeddingCache c) = None ->
      embeddings text = Ok e ->
      cacheMisses (stats (generateEmbeddings getCacheKey embeddings [text; text]
                            [text; text] c).2)
        = (cacheMisses (stats c) + 2)%nat
      /\ cacheMisses (stats (embedAll getCacheKey embeddings [text; text] c))
         = (cacheMisses (stats c) + 1)%nat).
Proof.
  cbn zeta.
  assert (Hcounts : forall arrival texts,
    let batch := generateEmbeddings getCacheKey embeddings arrival texts c in
    stats batch.2
    = mkStats
        (cacheHits (stats c)
         + length (filter (fun t => is_Some (mapGet (getCacheKey t) (embeddingCache c)))
                     texts))
        (cacheMisses (stats c)
         + length (filter (fun t => mapGet (getCacheKey t) (embeddingCache c) = None)
                     texts))
        (totalEmbeddings (stats c) + length texts)
        (totalChats (stats c))).
  { intros arrival' texts'. cbn zeta. unfold generateEmbeddings, startAll.
    destruct (startAll_spec texts' [] c) as (_ & _ & Hstats). cbn zeta in Hstats.
    destruct (foldl _ _ texts') as [started c1]. cbn [snd] in Hstats.
    pose proof (settle_stats arrival' c1) as Hsettle.
    destruct (settle _ _ _ _) as [[[]|msg] c2]; cbn [snd] in *; congruence. }
  assert (Hsplit : forall texts' : list string,
    (length (filter (fun t => is_Some (mapGet (getCacheKey t) (embeddingCache c))) texts')
     + length (filter (fun t => mapGet (getCacheKey t) (embeddingCache c) = None) texts')
     = length texts')%nat).
  { induction texts' as [|t texts' IH]; [done|].
    destruct (mapGet (getCacheKey t) (embeddingCache c)) as [cached|] eqn:Hget.
    - rewrite filter_cons_True by (by rewrite Hget).
      rewrite (filter_cons_False (fun t => _ = None)) by (by rewrite Hget).
      cbn [length]. lia.
    - rewrite filter_cons_False by (rewrite Hget; by intros [? ?]).
      rewrite (filter_cons_True (fun t => _ = None)) by (by rewrite Hget).
      cbn [length]. lia. }
  split; [by rewrite Hcounts|]. split; [by rewrite Hcounts|].
  split; [rewrite Hcounts; cbn [cacheHits]; specialize (Hsplit texts); lia|].
  split; [|split].
  - unfold startAll. destruct (startAll_spec texts [] c) as (Hstarted & _). cbn zeta in *.
    rewrite Hstarted. cbn [app]. unfold pendingOf. clear.
    induction texts as [|t texts IH]; [done|]. cbn [map].
    destruct (mapGet (getCacheKey t) (embeddingCache c)) as [cached|] eqn:Hget.
    + rewrite filter_cons_False by done.
      by rewrite (filter_cons_False (fun t => _ = None)) by (by rewrite Hget).
    + rewrite filter_cons_True by done.
      rewrite (filter_cons_True (fun t => _ = None)) by (by rewrite Hget).
      rewrite fmap_cons. cbn [fst]. by rewrite IH.
  - intros Harrival Hok. unfold generateEmbeddings, startAll.
    destruct (startAll_spec texts [] c) as (Hstarted & _). cbn zeta in *.
    destruct (foldl _ _ texts) as [started c1]. cbn [fst app] in Hstarted. subst started.
    assert (Hsettled := settle_ok arrival c1).
    destruct (settle _ _ _ _) as [[[]|msg] c2].
    + eexists. split; [done|]. apply vectorsOf_started.
      intros t Ht Hget. apply Hok. by apply list_elem_of_filter.
    + exfalso. cbn [fst] in Hsettled. discriminate Hsettled.
      intros t Ht. apply Hok. by rewrite <- Harrival.
  - intros Hget He. split.
    + rewrite Hcounts. cbn [cacheMisses].
      do 2 (rewrite filter_cons_True by done). done.
    + unfold embedAll. cbn [foldl].
      assert (Hfirst : generateEmbedding getCacheKey embeddings text true c
                = (Ok e, cacheEmbedding getCacheKey text e (countMiss (countEmbedding c)))).
      { unfold generateEmbedding. cbn [countEmbedding embeddingCache]. rewrite Hget.
        unfold fetchEmbedding. by rewrite He. }
      rewrite Hfirst. cbn [snd].
      unfold generateEmbedding. cbn [countEmbedding embeddingCache cacheEmbedding].
      rewrite mapGet_mapSet_same. cbn. lia.
Qed.

End CacheFacts.

(** ** Fact extraction *)

Section ExtractionFacts.
Import MemoryManager.



Lemma oneOf_elem list x fallback :
  fallback ∈ list -> oneOf list x fallback ∈ list.
Proof.
  intros Hf. destruct x as [s|]; [|done]. cbn [oneOf].
  by destruct (bool_decide_reflect (s ∈ list)).
Qed.

Lemma clamped_range parseFloatText v fallback :
  (0 <= clamped parseFloatText v fallback <= 1)%Q.
Proof.
  unfold clamped. split.
  - apply Q.min_glb; [apply Q.le_max_r|done].
  - apply Q.le_min_r.
Qed.

(** What [validateExtractedFact] guarantees of a fact it lets through. *)
Lemma validateExtractedFact_accepted parseFloatText fact f :
  validateExtractedFact parseFloatText fact = Ok (Some f) ->
  factContent f <> EmptyString
  /\ factType f ∈ validTypes /\ factCategory f ∈ validCategories
  /\ (0 <= factImportance f <= 1)%Q
  /\ exists c, confidence f = Some c /\ (0.5 <= c <= 1)%Q.
Proof.
  unfold validateExtractedFact. destruct fact as [| | | | |fields]; try done.
  destruct (property "content" fields) as [[| | |text| |]|]; try done.
  destruct (bool_decide_reflect (String.length (Js.trim text) = 0%nat)) as [|Hlen];
    [done|].
  destruct (500 <? String.length text)%nat; [done|].
  destruct (lowerCased "type" _) as [type_|]; [|done].
  destruct (lowerCased "category" _) as [category_|]; [|done].
  destruct (Qlt_le_dec _ _) as [|Hconf]; [done|].
  intros [= <-]. cbn.
  split; [intros Heq; by rewrite Heq in Hlen|].
  split; [apply oneOf_elem; unfold validTypes; set_solver|].
  split; [apply oneOf_elem; unfold validCategories; set_solver|].
  split; [apply clamped_range|].
  eexists. split; [done|]. split; [exact Hconf|apply clamped_range].
Qed.

(** C6 at its failing inputs. The chat model answers with two facts, the first
    with a number in the place of the type, the second well formed. The first
    makes [validateExtractedFact] throw instead of falling back to
    [extracted_fact]; the exception ends the whole batch, the valid fact that
    follows is lost, and [extractKeyFacts] answers with the keyword
    extractor's list for the message. A fact whose confidence is exactly 0 is
    accepted with confidence 0.7, and its importance 0 becomes 0.5. *)
Theorem validation_loses_batch_on_type_error (parseFloatText : json -> option Q) :
  chatCompletion Sample.answering (extractionMessages Sample.tellsAlice)
    = Ok Sample.reply
  /\ JSON_parse Sample.answering (jsonTextOf Sample.reply)
     = Some (JArr [Sample.numberAsType; Sample.likesTea])
  /\ validateExtractedFact parseFloatText Sample.likesTea
     = Ok (Some (mkExtractedFact "User likes tea" 0.6%Q "preference" "general" (Some 0.9%Q)))
  /\ validateExtractedFact parseFloatText Sample.numberAsType
     = Throw "fact.type?.toLowerCase is not a function"
  /\ validateAll parseFloatText [Sample.numberAsType; Sample.likesTea]
     = Throw "fact.type?.toLowerCase is not a function"
  /\ (extractKeyFacts Sample.answering Sample.tellsAlice (Sample.ready tt)).1
     = Ok (extractKeyFactsKeywordBased Sample.tellsAlice)
  /\ extractKeyFactsKeywordBased Sample.tellsAlice
     = [mkExtractedFact "Customer's name is Alice" 0.95%Q "preference" "general" None]
  /\ validateExtractedFact parseFloatText Sample.zeroConfidence
     = Ok (Some (mkExtractedFact "User may own a boat" 0.5%Q "extracted_fact" "general"
                   (Some 0.7%Q))).
Proof. repeat split; by vm_compute. Qed.

Lemma toLowerCase_app s t :
  Js.toLowerCase (s +:+ t) = Js.toLowerCase s +:+ Js.toLowerCase t.
Proof.
  induction s as [|c s IH]; [done|].
  change (String c s +:+ t) with (String c (s +:+ t)). cbn [Js.toLowerCase].
  by rewrite IH.
Qed.

Lemma detectFactType_name_is t :
  detectFactType ("Customer's name is " +:+ t) = Some "name".
Proof.
  unfold detectFactType. cbv zeta. rewrite toLowerCase_app.
  assert (Hname : Pattern.nameIs None
            (Js.toLowerCase "Customer's name is " +:+ Js.toLowerCase t) = true).
  { generalize (Js.toLowerCase t). intros u. by vm_compute. }
  rewrite Hname. by rewrite !orb_true_r.
Qed.

Lemma detectFactType_called t :
  detectFactType ("Customer prefers to be called " +:+ t) = Some "name".
Proof.
  unfold detectFactType. cbv zeta. rewrite toLowerCase_app.
  assert (Hname : Js.includes "prefers to be called"
            (Js.toLowerCase "Customer prefers to be called " +:+ Js.toLowerCase t) = true).
  { apply includes_append_l. by vm_compute. }
  rewrite Hname. by rewrite !orb_true_r.
Qed.

(** X: keyword names conflict *)
Theorem keyword_names_take_part_in_conflicts interaction name :
  let lowered := Js.toLowerCase (userMessage interaction) in
  (Js.includes "my name is" lowered = true
   /\ Pattern.capture "my name is " (userMessage interaction) = Some name)
  \/ (Js.includes "my name is" lowered = false
      /\ Js.includes "call me" lowered = true
      /\ Pattern.capture "call me " (userMessage interaction) = Some name) ->
  exists fact others,
    extractKeyFactsKeywordBased interaction = fact :: others
    /\ (factContent fact = "Customer's name is " +:+ name
        \/ factContent fact = "Customer prefers to be called " +:+ name)
    /\ factImportance fact = 0.95%Q
    /\ factType fact ∈ conflictableTypes
    /\ detectFactType (factContent fact) = Some "name".
Proof.
  intros lowered Hcase.
  assert (Hany : anyOf ["remember"; "my name is"; "call me"; "i am "] lowered = true).
  { unfold anyOf. cbn [existsb].
    destruct Hcase as [(-> & _)|(_ & -> & _)]; by rewrite ?orb_true_r. }
  unfold extractKeyFactsKeywordBased. fold lowered. rewrite Hany. cbn [app].
  eexists _, _. split; [reflexivity|]. cbn [factContent factType factImportance].
  unfold rememberWhat. fold lowered.
  destruct Hcase as [(-> & ->)|(-> & -> & ->)].
  - split; [by left|]. split; [done|]. split; [by left|]. apply detectFactType_name_is.
  - split; [by right|]. split; [done|]. split; [by left|]. apply detectFactType_called.
Qed.

End ExtractionFacts.

(** ** Retrieval *)

Section RetrievalFacts.
Import MemoryManager.
Context {C : Type} `{VectorIndex C} (E : Externals).

(** Unfolds the plumbing of the [async] methods. *)
Ltac run :=
  unfold mbind, M_bind, mret, M_ret, tryCatch, throw, dateNow, readCollection,
    writeCollection, liftClient in *.

Lemma searchMemories_relevance query userId_ n w rs :
  (VectorStore.searchMemories E query userId_ n w).1 = Ok rs ->
  forall r, r ∈ rs -> relevance (memory r) = Some (resultRelevance r).
Proof.
  unfold VectorStore.searchMemories, VectorStore.ensureInitialized,
    generateEmbedding. run.
  destruct (storeInitialized w); [|done].
  destruct (Ollama.generateEmbedding _ _ _ _ _) as [[emb|msg] c]; [|done].
  cbn [collection]. destruct (collectionQuery _ _ _ _) as [hits|msg]; [|done].
  cbn. intros [= <-] r Hr. unfold VectorStore.formatSearchResults in Hr.
  apply list_elem_of_In, in_map_iff in Hr as (h & <- & _). done.
Qed.

Lemma reRankResults_elem now results options s :
  s ∈ reRankResults now results options -> scored s ∈ results.
Proof.
  unfold reRankResults. rewrite sortDesc_perm.
  intros (r & <- & Hr)%list_elem_of_In%in_map_iff. by apply list_elem_of_In.
Qed.

(** Whatever makes [searchMemories] throw, the manager answers with the
    empty list. *)
Lemma searchRelevantMemories_swallows userId_ query options w msg :
  managerInitialized w = true ->
  (VectorStore.searchMemories E query userId_
     (Js.nat_or (limit options) 5 * 2) w).1 = Throw msg ->
  (searchRelevantMemories E userId_ query options w).1 = Ok [].
Proof.
  intros Hinit Hthrow. unfold searchRelevantMemories, ensureInitialized. run.
  rewrite Hinit.
  destruct (VectorStore.searchMemories _ _ _ _ _) as [[rs|msg'] w'];
    cbn in Hthrow; [done|]. done.
Qed.

(** C8, as the code has it. The adapter propagates a failure of the
    embedding provider or of the index: [searchMemories] rethrows it as
    [Search failed: ...]. The manager does not: when either fails during
    [searchRelevantMemories], the caller receives the empty list and no
    error. *)
Theorem retrieval_failure_yields_empty_list userId_ query options w :
  managerInitialized w = true ->
  storeInitialized w = true ->
  (exists msg, (Ollama.generateEmbedding (getCacheKey E) (embeddings E) query true
                  (ollamaClient w)).1 = Throw msg)
  \/ (exists emb msg,
        (Ollama.generateEmbedding (getCacheKey E) (embeddings E) query true
           (ollamaClient w)).1 = Ok emb
        /\ collectionQuery emb (Js.nat_or (limit options) 5 * 2)
             (Some {[ "userId" := VStr userId_ ]}) (collection w) = Throw msg) ->
  (exists msg,
     (VectorStore.searchMemories E query userId_
        (Js.nat_or (limit options) 5 * 2) w).1 = Throw ("Search failed: " +:+ msg))
  /\ (searchRelevantMemories E userId_ query options w).1 = Ok [].
Proof.
  intros Hm Hs Hfail.
  assert (Hthrow : exists msg,
    (VectorStore.searchMemories E query userId_
       (Js.nat_or (limit options) 5 * 2) w).1 = Throw ("Search failed: " +:+ msg)).
  { unfold VectorStore.searchMemories, VectorStore.ensureInitialized,
      generateEmbedding. run. rewrite Hs.
    destruct Hfail as [[msg He]|(emb & msg & He & Hq)];
      destruct (Ollama.generateEmbedding _ _ _ _ _) as [[emb'|msg'] c];
      cbn in He; simplify_eq; [by exists msg|].
    cbn [collection]. rewrite Hq. by exists msg. }
  split; [exact Hthrow|].
  destruct Hthrow as [msg Hthrow].
  by eapply searchRelevantMemories_swallows.
Qed.

(** C10. The options of [searchRelevantMemories] are read with [||]: a limit
    of 0 is replaced by 5 and a threshold of 0 by 0.7, exactly as if the
    option were missing. [getMemoriesByCategory] passes the threshold 0, so
    it runs the search with the threshold 0.7 and every memory it returns
    has relevance at least 0.7. *)
Theorem search_replaces_zero_options userId_ query category_ w l t c r :
  searchRelevantMemories E userId_ query (mkSearchOptions (Some 0%nat) t c r) w
    = searchRelevantMemories E userId_ query (mkSearchOptions (Some 5%nat) t c r) w
  /\ searchRelevantMemories E userId_ query (mkSearchOptions l (Some 0%Q) c r) w
    = searchRelevantMemories E userId_ query (mkSearchOptions l (Some 0.7%Q) c r) w
  /\ searchRelevantMemories E userId_ query (mkSearchOptions None None c r) w
    = searchRelevantMemories E userId_ query (mkSearchOptions (Some 5%nat) (Some 0.7%Q) c r) w
  /\ getMemoriesByCategory E userId_ category_ w
    = (ensureInitialized;;
       searchRelevantMemories E userId_ EmptyString
         (mkSearchOptions (Some 20%nat) (Some 0.7%Q) (Some category_) false)) w
  /\ (forall memories, (getMemoriesByCategory E userId_ category_ w).1 = Ok memories ->
        forall m, m ∈ memories ->
          exists rel, relevance m = Some rel /\ (0.7 <= rel)%Q).
Proof.
  split; [done|]. split; [done|]. split; [done|]. split; [done|].
  intros memories Hok m Hm.
  unfold getMemoriesByCategory, searchRelevantMemories, ensureInitialized in Hok. run.
  destruct (managerInitialized w) eqn:Hinit; [|done].
  cbv beta iota zeta in Hok. rewrite Hinit in Hok.
  cbv beta iota zeta in Hok. revert Hok.
  destruct (VectorStore.searchMemories E EmptyString userId_ _ w) as [[rs|msg] w'] eqn:Hs;
    intros Hok.
  - cbn in Hok. injection Hok as <-.
    apply list_elem_of_In, in_map_iff in Hm as (s & <- & Hs').
    apply list_elem_of_In, elem_of_take in Hs' as (i & Hi & _).
    apply list_elem_of_lookup_2, reRankResults_elem in Hi.
    apply list_elem_of_In, filter_In in Hi as [Hi Hrel].
    assert (Hin : scored s ∈ rs).
    { destruct category_.
      - by apply list_elem_of_In.
      - apply filter_In in Hi as [Hi _]. by apply list_elem_of_In. }
    exists (resultRelevance (scored s)). split.
    + eapply searchMemories_relevance; [|exact Hin]. by rewrite Hs.
    + by apply Qle_bool_iff.
  - cbn in Hok. injection Hok as <-. by apply elem_of_nil in Hm.
Qed.

End RetrievalFacts.

(** ** Initialisation, listings, statistics and failures of the index *)

Section AdministrationFacts.
Import MemoryManager.
Context {C : Type} `{VectorIndex C} `{VectorIndexAdmin C}.

Ltac run :=
  unfold mbind, M_bind, mret, M_ret, tryCatch, throw, dateNow, readCollection,
    writeCollection, liftClient in *.

Lemma getRecentMemories_returns userId_ limit_ w :
  managerInitialized w = true ->
  exists memories,
    getRecentMemories userId_ limit_ w = (Ok memories, w)
    /\ (length memories <= default 10 limit_)%nat.
Proof.
  intros Hm. unfold getRecentMemories, ensureInitialized, VectorStore.getUserMemories,
    VectorStore.ensureInitialized. run. rewrite Hm.
  destruct (storeInitialized w); [|exists []; split; [done|cbn; lia]].
  destruct (collectionGet _ _) as [results|msg].
  - eexists. split; [reflexivity|]. rewrite length_take. lia.
  - exists []. split; [cbn [sortDesc foldr]; by rewrite take_nil|cbn; lia].
Qed.

Lemma statsOf_oldest now memories :
  (foldl (fun oldest m => Qmin oldest (timestamp m)) now memories <= now)%Q.
Proof.
  assert (Hgen : forall start,
    (foldl (fun oldest m => Qmin oldest (timestamp m)) start memories <= start)%Q).
  { induction memories as [|m ms IH]; intros start; cbn [foldl]; [apply Qle_refl|].
    eapply Qle_trans; [apply IH|apply Q.le_min_l]. }
  apply Hgen.
Qed.

Lemma statsOf_newest memories :
  (0 <= foldl (fun newest m => Qmax newest (timestamp m)) 0 memories)%Q.
Proof.
  assert (Hgen : forall start,
    (start <= foldl (fun newest m => Qmax newest (timestamp m)) start memories)%Q).
  { induction memories as [|m ms IH]; intros start; cbn [foldl]; [apply Qle_refl|].
    eapply Qle_trans; [apply Q.le_max_l|apply IH]. }
  apply Hgen.
Qed.

(** X: stats never throw *)
Theorem getMemoryStats_always_answers userId_ w :
  managerInitialized w = true ->
  exists s,
    getMemoryStats userId_ w = (Ok s, w)
    /\ (totalMemories s <= 1000)%nat
    /\ (oldestMemory s <= clock w)%Q
    /\ (0 <= newestMemory s)%Q
    /\ (totalMemories s = 0%nat ->
        avgImportance s = 0%Q /\ oldestMemory s = clock w /\ newestMemory s = 0%Q)
    /\ ((storeInitialized w = false
         \/ exists msg, collectionGet {[ "userId" := VStr userId_ ]} (collection w)
                        = Throw msg) ->
        s = statsOf (clock w) []).
Proof.
  intros Hm.
  destruct (getRecentMemories_returns userId_ (Some 1000%nat) w Hm)
    as (memories & Hrecent & Hlen).
  exists (statsOf (clock w) memories). split; [|split; [|split; [|split; [|split]]]].
  - unfold getMemoryStats, ensureInitialized. run. rewrite Hm. by rewrite Hrecent.
  - exact Hlen.
  - apply statsOf_oldest.
  - apply statsOf_newest.
  - cbn [totalMemories statsOf]. intros Hzero. by destruct memories.
  - intros Hdown. f_equal.
    revert Hrecent. unfold getRecentMemories, ensureInitialized,
      VectorStore.getUserMemories, VectorStore.ensureInitialized. run. rewrite Hm.
    destruct Hdown as [Hs|[msg Hg]].
    + rewrite Hs. by intros [= <-].
    + destruct (storeInitialized w); [|by intros [= <-]].
      rewrite Hg. cbn [sortDesc foldr]. rewrite take_nil. by intros [= <-].
Qed.


Lemma increment_other key t counts :
  t <> key -> increment key counts !! t = counts !! t.
Proof.
  intros Hne. unfold increment. destruct (decide (key = "__proto__")); [done|].
  destruct (counts !! key) as [[k|]|]; by rewrite lookup_insert_ne.
Qed.

Lemma tally_cons (tag : Memory -> string) t m ms :
  tally tag t (m :: ms) = ((if decide (tag m = t) then 1 else 0) + tally tag t ms)%nat.
Proof.
  unfold tally. destruct (decide (tag m = t)).
  - by rewrite filter_cons_True.
  - by rewrite filter_cons_False.
Qed.

Lemma tallied (tag : Memory -> string) t memories : forall counts n,
  t <> "__proto__" ->
  counts !! t = Some (Some n) ->
  foldl (fun counts m => increment (tag m) counts) counts memories !! t
  = Some (Some (n + tally tag t memories)%nat).
Proof.
  induction memories as [|m ms IH]; intros counts n Hp Hn; cbn [foldl].
  - by rewrite Nat.add_0_r.
  - rewrite tally_cons. destruct (decide (tag m = t)) as [->|Hne].
    + rewrite (IH _ (S n)); [f_equal; f_equal; lia|done|].
      unfold increment. rewrite decide_False by done. rewrite Hn.
      by rewrite lookup_insert_eq.
    + rewrite (IH _ n); [done|done|]. by rewrite increment_other.
Qed.

Lemma not_tallied (tag : Memory -> string) t memories : forall counts,
  t <> "__proto__" ->
  (counts !! t = None /\ (0 < tally tag t memories)%nat) \/ counts !! t = Some None ->
  foldl (fun counts m => increment (tag m) counts) counts memories !! t = Some None.
Proof.
  induction memories as [|m ms IH]; intros counts Hp Hn; cbn [foldl].
  - destruct Hn as [[_ Hpos]|Hn]; [cbn in Hpos; lia|done].
  - apply IH; [done|]. rewrite tally_cons in Hn.
    destruct (decide (tag m = t)) as [->|Hne].
    + right. unfold increment. rewrite decide_False by done.
      destruct Hn as [[-> _]| ->]; by rewrite lookup_insert_eq.
    + rewrite increment_other by done. destruct Hn as [[Hn Hpos]|Hn]; [left|by right].
      split; [done|]. cbn [Nat.add] in Hpos. done.
Qed.

(** X: tallies *)
Theorem statsOf_tallies now memories :
  let s := statsOf now memories in
  (forall t, t ∈ validTypes ->
     memoryByType s !! t = Some (Some (tally type t memories)))
  /\ (forall c, c ∈ validCategories ->
        memoryByCategory s !! c = Some (Some (tally category c memories)))
  /\ (forall t, t ∉ validTypes -> t <> "__proto__" -> (0 < tally type t memories)%nat ->
        memoryByType s !! t = Some None)
  /\ ((forall m, m ∈ memories -> type m ∈ validTypes) ->
      foldr (fun t n => (tally type t memories + n)%nat) 0%nat validTypes
      = totalMemories s).
Proof.
  cbn zeta. cbn [memoryByType memoryByCategory totalMemories statsOf].
  split; [|split; [|split]].
  - intros t Ht. rewrite (tallied type t memories noTypes 0); [done| |].
    + intros ->. by vm_compute in Ht; repeat (apply elem_of_cons in Ht as [Ht|Ht]; [done|]);
        apply elem_of_nil in Ht.
    + unfold validTypes in Ht.
      repeat (apply elem_of_cons in Ht as [->|Ht]; [by vm_compute|]).
      by apply elem_of_nil in Ht.
  - intros c Hc. rewrite (tallied category c memories noCategories 0); [done| |].
    + intros ->. unfold validCategories in Hc.
      repeat (apply elem_of_cons in Hc as [Hc|Hc]; [done|]). by apply elem_of_nil in Hc.
    + unfold validCategories in Hc.
      repeat (apply elem_of_cons in Hc as [->|Hc]; [by vm_compute|]).
      by apply elem_of_nil in Hc.
  - intros t Ht Hp Hpos. apply not_tallied; [done|]. left. split; [|done].
    unfold noTypes. apply not_elem_of_list_to_map_1. exact Ht.
  - intros Hvalid. induction memories as [|m ms IH]; [done|].
    cbn [length]. rewrite <- IH by (intros m' Hm'; apply Hvalid; by right).
    unfold validTypes. cbn [foldr]. rewrite !tally_cons.
    assert (Hm : type m ∈ validTypes) by (apply Hvalid; by left).
    unfold validTypes in Hm.
    repeat (apply elem_of_cons in Hm as [->|Hm];
            [repeat (destruct (decide _) as [?|?]; try done); lia|]).
    by apply elem_of_nil in Hm.
Qed.

Lemma storeInitialize_once w :
  storeInitialized w = true -> VectorStore.initialize w = (Ok tt, w).
Proof. intros Hs. unfold VectorStore.initialize. by rewrite Hs. Qed.

(** X: initialize idempotent *)
Theorem initialize_is_idempotent w :
  (initialize w).1 = Ok tt ->
  let w' := (initialize w).2 in
  managerInitialized w' = true
  /\ (managerInitialized w = false -> storeInitialized w' = true)
  /\ initialize w' = (Ok tt, w')
  /\ clock w' = clock w /\ drawn w' = drawn w /\ ollamaClient w' = ollamaClient w.
Proof.
  unfold initialize. destruct (managerInitialized w) eqn:Hm.
  - intros _. cbn. by rewrite Hm.
  - unfold VectorStore.initialize. destruct (storeInitialized w) eqn:Hs.
    + intros _. cbn. by rewrite Hs.
    + destruct (getOrCreateCollection (collection w)) as [c|msg]; [|done].
      destruct (collectionCount c) as [n|msg]; [|done]. intros _. by cbn.
Qed.

(** X: half-initialized *)
Theorem initialize_recovers_after_count_failure w c msg :
  managerInitialized w = false ->
  storeInitialized w = false ->
  getOrCreateCollection (collection w) = Ok c ->
  collectionCount c = Throw msg ->
  let w1 := (initialize w).2 in
  (initialize w).1 = Throw ("Failed to initialize vector store: " +:+ msg)
  /\ storeInitialized w1 = true /\ managerInitialized w1 = false
  /\ collection w1 = c
  /\ (initialize w1).1 = Ok tt
  /\ managerInitialized (initialize w1).2 = true
  /\ collection (initialize w1).2 = c.
Proof.
  intros Hm Hs Hopen Hcount. cbn zeta.
  assert (Hfirst : initialize w
    = (Throw ("Failed to initialize vector store: " +:+ msg),
       mkWorld (ollamaClient w) c true (managerInitialized w) (clock w) (drawn w))).
  { unfold initialize, VectorStore.initialize. by rewrite Hm, Hs, Hopen, Hcount. }
  rewrite Hfirst. cbn [fst snd storeInitialized managerInitialized collection].
  rewrite Hm. unfold initialize, VectorStore.initialize. by cbn.
Qed.

(** X: before initialize *)
Theorem manager_refuses_before_initialize (E : Externals) w interaction input
    userId_ query options category_ limit_ :
  managerInitialized w = false ->
  let refused {A : Type} (m : M C A) :=
    m w = (Throw "MemoryManager not initialized. Call initialize() first.", w) in
  refused (addInteraction E interaction)
  /\ refused (addMemory E input)
  /\ refused (searchRelevantMemories E userId_ query options)
  /\ refused (getRecentMemories userId_ limit_)
  /\ refused (getMemoriesByCategory E userId_ category_)
  /\ refused (deleteUserData userId_)
  /\ refused (getMemoryStats userId_).
Proof.
  intros Hm. cbn zeta.
  unfold addInteraction, addMemory, searchRelevantMemories, getRecentMemories,
    getMemoriesByCategory, deleteUserData, getMemoryStats, ensureInitialized. run.
  by rewrite !Hm.
Qed.

(** X: reads swallow, writes throw *)
Theorem reads_swallow_writes_throw msg w userId_ memoryId vm vms limit_ count_ :
  storeInitialized w = true ->
  managerInitialized w = true ->
  (forall where_ c, collectionGet where_ c = Throw msg) ->
  (forall ids c, collectionGetIds ids c = Throw msg) ->
  (forall c, collectionCount c = Throw msg) ->
  (forall e c, collectionAdd e c = Throw msg) ->
  (forall es c, collectionAddMany es c = Throw msg) ->
  (forall ids c, collectionDelete ids c = Throw msg) ->
  (forall where_ c, collectionDeleteWhere where_ c = Throw msg) ->
  vms <> [] ->
  VectorStore.getUserMemories userId_ w = (Ok [], w)
  /\ VectorStore.getMemoryById memoryId w = (Ok None, w)
  /\ VectorStore.getMemoryCount count_ w = (Ok 0%nat, w)
  /\ getRecentMemories userId_ limit_ w = (Ok [], w)
  /\ VectorStore.addMemory vm w = (Throw ("Failed to add memory: " +:+ msg), w)
  /\ VectorStore.addMemories vms w
     = (Throw ("Failed to add memories in batch: " +:+ msg), w)
  /\ VectorStore.addMemories [] w = (Ok tt, w)
  /\ VectorStore.deleteMemory memoryId w
     = (Throw ("Failed to delete memory: " +:+ msg), w)
  /\ VectorStore.deleteUserMemories userId_ w
     = (Throw ("Failed to delete user memories: " +:+ msg), w)
  /\ deleteUserData userId_ w
     = (Throw ("Failed to delete user memories: " +:+ msg), w).
Proof.
  intros Hs Hm Hget Hids Hcount Hadd Hmany Hdel Hwhere Hne.
  unfold VectorStore.getUserMemories, VectorStore.getMemoryById,
    VectorStore.getMemoryCount, getRecentMemories, VectorStore.addMemory,
    VectorStore.addMemories, VectorStore.deleteMemory, VectorStore.deleteUserMemories,
    deleteUserData, VectorStore.getUserMemories, VectorStore.deleteUserMemories,
    ensureInitialized, VectorStore.ensureInitialized. run.
  destruct vms as [|vm' vms]; [done|].
  repeat (rewrite ?Hs, ?Hm, ?Hget, ?Hids, ?Hcount, ?Hadd, ?Hmany, ?Hdel, ?Hwhere;
          cbn [collection fst snd]; cbv beta iota).
  repeat split; try done.
  - destruct (VectorStore.nonEmpty count_); cbv beta iota; by rewrite ?Hget, ?Hcount.
  - cbn [sortDesc foldr]. by rewrite take_nil.
Qed.


Lemma sorted_map_on {A B : Type} (f : A -> B) (h : A -> Q) (g : B -> Q) (l : list A) :
  (forall x, x ∈ l -> g (f x) = h x) ->
  StronglySorted (descends h) l -> StronglySorted (descends g) (map f l).
Proof.
  induction l as [|x l IH]; intros Heq; [constructor|].
  intros [Hx Hl]%StronglySorted_cons. cbn [map]. apply StronglySorted_cons. split.
  - apply Forall_forall. intros y (z & <- & Hz)%list_elem_of_In%in_map_iff.
    apply list_elem_of_In in Hz. unfold descends.
    rewrite !Heq by (by constructor). by apply (proj1 (Forall_forall _ _) Hx).
  - apply IH; [|done]. intros y Hy. apply Heq. by right.
Qed.

Lemma searchRelevantMemories_post (E : Externals) userId_ query options w memories :
  (searchRelevantMemories E userId_ query options w).1 = Ok memories ->
  (length memories <= Js.nat_or (limit options) 5)%nat
  /\ (forall m, m ∈ memories ->
        (exists rel, relevance m = Some rel
                     /\ (Js.num_or (threshold options) 0.7 <= rel)%Q)
        /\ (forall c, VectorStore.nonEmpty (optCategory options) = Some c ->
              category m = c))
  /\ StronglySorted (descends (rankOf (clock w))) memories.
Proof.
  unfold searchRelevantMemories, ensureInitialized. run.
  destruct (managerInitialized w); [|done].
  destruct (VectorStore.searchMemories E query userId_ _ w) as [[rs|msg] w'] eqn:Hs.
  2:{ cbn. intros [= <-]. split; [cbn; lia|]. split; [by intros m ?%elem_of_nil|constructor]. }
  assert (Hclock : clock w' = clock w).
  { revert Hs. unfold VectorStore.searchMemories, VectorStore.ensureInitialized,
      generateEmbedding. run.
    destruct (storeInitialized w); [|by intros [= _ <-]].
    destruct (Ollama.generateEmbedding _ _ _ _ _) as [[emb|msg] c]; [|by intros [= _ <-]].
    cbn [collection]. destruct (collectionQuery _ _ _ _); by intros [= _ <-]. }
  assert (Hrel := searchMemories_relevance E query userId_
                    (Js.nat_or (limit options) 5 * 2) w rs).
  rewrite Hs in Hrel. specialize (Hrel eq_refl).
  cbn. rewrite Hclock. intros [= <-].
  set (kept := List.filter _ (match VectorStore.nonEmpty (optCategory options) with
                              | Some c => _ | None => rs end)).
  assert (Hkept : forall r, r ∈ kept ->
            r ∈ rs /\ (Js.num_or (threshold options) 0.7 <= resultRelevance r)%Q
            /\ forall c, VectorStore.nonEmpty (optCategory options) = Some c ->
                 category (memory r) = c).
  { intros r [Hr Hth]%list_elem_of_In%filter_In. apply Qle_bool_iff in Hth.
    destruct (VectorStore.nonEmpty (optCategory options)) as [c|].
    - apply filter_In in Hr as [Hr Hc]. apply bool_decide_eq_true in Hc.
      split; [by apply list_elem_of_In|]. split; [done|]. by intros c' [= <-].
    - split; [by apply list_elem_of_In|]. split; [done|]. done. }
  split; [rewrite length_map, length_take; lia|]. split.
  - intros m (s & <- & Hs')%list_elem_of_In%in_map_iff.
    apply list_elem_of_In, elem_of_take in Hs' as (i & Hi & _).
    apply list_elem_of_lookup_2, reRankResults_elem, Hkept in Hi as (Hin & Hth & Hcat).
    split; [|done]. exists (resultRelevance (scored s)). split; [by apply Hrel|done].
  - apply (sorted_map_on _ compositeScore).
    + intros s Hs'. apply elem_of_take in Hs' as (i & Hi & _).
      apply list_elem_of_lookup_2 in Hi.
      pose proof (reRankResults_elem _ _ _ _ Hi) as Hin. apply Hkept in Hin as (Hin & _).
      unfold reRankResults in Hi. rewrite sortDesc_perm in Hi.
      apply list_elem_of_In, in_map_iff in Hi as (r & <- & _).
      cbn [scored score compositeScore] in *. unfold rankOf.
      by rewrite (Hrel _ Hin).
    + apply sorted_take, sortDesc_sorted.
Qed.

(** X: search postconditions *)
Theorem search_results_within_options (E : Externals) userId_ query options w memories :
  (searchRelevantMemories E userId_ query options w).1 = Ok memories ->
  (length memories <= Js.nat_or (limit options) 5)%nat
  /\ (forall m, m ∈ memories ->
        (exists rel, relevance m = Some rel
                     /\ (Js.num_or (threshold options) 0.7 <= rel)%Q)
        /\ (forall c, VectorStore.nonEmpty (optCategory options) = Some c ->
              category m = c))
  /\ StronglySorted (descends (rankOf (clock w))) memories.
Proof. apply searchRelevantMemories_post. Qed.

End AdministrationFacts.

(** ** Deduplication and conflict resolution over the reference index *)

Section StoreFacts.
Import MemoryManager.
Variable distanceOf : Embedding -> Embedding -> Q.
Variable E : Externals.

#[local] Instance index : VectorIndex (list Entry) := ListIndex.index distanceOf.

Ltac run :=
  unfold mbind, M_bind, mret, M_ret, tryCatch, throw, dateNow, readCollection,
    writeCollection, liftClient in *.

Lemma whereOf_user user
    (empty : Decision
       (VectorStore.whereOf (mkFilters (Some user) None None None None) = ∅)) :
  (if empty then None
   else Some (VectorStore.whereOf (mkFilters (Some user) None None None None)))
  = dedupScope user.
Proof.
  destruct user as [|c user]; cbn in *.
  - by destruct empty.
  - destruct empty as [Heq|]; [|done].
    apply (f_equal (fun m : gmap string value => m !! "userId")) in Heq.
    by vm_compute in Heq.
Qed.

(** What [addMemory] does over the reference index, once the embedding of
    the content is there. *)
Lemma addMemory_spec input w e :
  ready w ->
  (Ollama.generateEmbedding (getCacheKey E) (embeddings E) (inContent input) true
     (ollamaClient w)).1 = Ok e ->
  let newId := uuidv4 E (drawn w) in
  let w' := (addMemory E input w).2 in
  (addMemory E input w).1
    = Ok (match duplicateOf distanceOf (inUserId input) e (collection w) with
          | Some top => entryId top
          | None => newId
          end)
  /\ collection w'
      = match duplicateOf distanceOf (inUserId input) e (collection w) with
        | Some _ => collection w
        | None =>
            if bool_decide (newId ∈ map entryId (collection w)) then collection w
            else collection w
                   ++ [VectorStore.entryOf (vectorMemoryOf input newId (clock w) e)]
        end
  /\ ollamaClient w'
      = (Ollama.generateEmbedding (getCacheKey E) (embeddings E) (inContent input) true
           (ollamaClient w)).2
  /\ ready w' /\ drawn w' = S (drawn w) /\ clock w' = clock w.
Proof.
  intros [Hm Hs] He. cbn zeta.
  unfold addMemory, ensureInitialized, newId, findSimilarMemories,
    VectorStore.searchByEmbedding, VectorStore.addMemory,
    VectorStore.ensureInitialized, generateEmbedding. run.
  rewrite Hm. cbn [ollamaClient collection storeInitialized managerInitialized clock drawn].
  destruct (Ollama.generateEmbedding _ _ _ _ _) as [[e'|msg] c'] eqn:Hgen;
    cbn in He; [|done]. injection He as ->.
  cbn [ollamaClient collection storeInitialized managerInitialized clock drawn
       memoryOf embedding userId].
  rewrite Hs.
  cbn [ollamaClient collection storeInitialized managerInitialized clock drawn
       fst snd].
  rewrite whereOf_user.
  cbn [collectionQuery index ListIndex.index ListIndex.query].
  cbn [ollamaClient collection storeInitialized managerInitialized clock drawn
       fst snd].
  unfold duplicateOf.
  destruct (ListIndex.nearest distanceOf e
              (ListIndex.scope (dedupScope (inUserId input)) (collection w)))
    as [|top rest] eqn:Hnear.
  - cbn. unfold ListIndex.add.
    destruct (bool_decide _); cbn; unfold ready; cbn; tauto.
  - cbn. destruct (Qlt_le_dec 0.95 (1 - distanceOf e (entryEmbedding top))).
    + cbn. unfold ready; cbn; tauto.
    + cbn. unfold ListIndex.add.
      destruct (bool_decide _); cbn; unfold ready; cbn; tauto.
Qed.

Lemma mapGet_mapSet k v m : Ollama.mapGet k (Ollama.mapSet k v m) = Some v.
Proof.
  induction m as [|[k' v'] m IH]; cbn.
  - by destruct (decide (k = k)).
  - destruct (decide (k = k')) as [->|Hne]; cbn.
    + by destruct (decide (k' = k')).
    + by destruct (decide (k = k')).
Qed.

(** A text that has just been embedded is answered from the cache, with the
    same vector. *)
Lemma generateEmbedding_again text c e :
  (Ollama.generateEmbedding (getCacheKey E) (embeddings E) text true c).1 = Ok e ->
  (Ollama.generateEmbedding (getCacheKey E) (embeddings E) text true
     (Ollama.generateEmbedding (getCacheKey E) (embeddings E) text true c).2).1 = Ok e.
Proof.
  unfold Ollama.generateEmbedding at 1 3.
  cbn [Ollama.countEmbedding Ollama.embeddingCache].
  destruct (Ollama.mapGet (getCacheKey E text) (Ollama.embeddingCache c)) as [cached|]
    eqn:Hget.
  - cbn. intros [= ->]. unfold Ollama.generateEmbedding. cbn. by rewrite Hget.
  - unfold Ollama.fetchEmbedding. destruct (embeddings E text) as [e'|msg]; [|done].
    cbn. intros [= ->]. unfold Ollama.generateEmbedding. cbn.
    by rewrite mapGet_mapSet.
Qed.

Lemma satisfies_user user e :
  ListIndex.satisfies {[ "userId" := VStr user ]} e
  <-> entryMetadata e !! "userId" = Some (VStr user).
Proof. unfold ListIndex.satisfies. by rewrite map_Forall_singleton. Qed.

Lemma scope_snoc user entries entry :
  entryMetadata entry !! "userId" = Some (VStr user) ->
  ListIndex.scope (dedupScope user) (entries ++ [entry])
  = ListIndex.scope (dedupScope user) entries ++ [entry].
Proof.
  intros Hu. destruct user; [done|]. cbn [dedupScope ListIndex.scope].
  rewrite filter_app. f_equal.
  rewrite filter_cons_True by (by apply satisfies_user). done.
Qed.

Lemma entryOf_userId input id_ now e :
  inMetadata input !! "userId" = None ->
  entryMetadata (VectorStore.entryOf (vectorMemoryOf input id_ now e)) !! "userId"
  = Some (VStr (inUserId input)).
Proof.
  intros Hmd. cbn. unfold VectorStore.flatMetadata. cbn.
  rewrite lookup_union_r by done. by vm_compute.
Qed.

(** A record at distance zero displaces a nearest record that is not a
    duplicate. *)
Lemma duplicateOf_snoc user e entries entry :
  (forall v, distanceOf v v == 0)%Q ->
  duplicateOf distanceOf user e entries = None ->
  entryMetadata entry !! "userId" = Some (VStr user) ->
  entryEmbedding entry = e ->
  duplicateOf distanceOf user e (entries ++ [entry]) = Some entry.
Proof.
  intros Hzero Hnone Hu He. unfold duplicateOf in *.
  rewrite scope_snoc by done.
  set (l := ListIndex.scope (dedupScope user) entries) in *.
  unfold ListIndex.nearest in *.
  rewrite sortDesc_app_top.
  - rewrite He. destruct (Qlt_le_dec _ _) as [|Hle]; [done|].
    pose proof (Hzero e). lra.
  - intros x Hx. rewrite He. pose proof (Hzero e) as Hee.
    destruct (sortDesc _ l) as [|top rest] eqn:Hsort.
    + pose proof (sortDesc_perm (fun e0 => - distanceOf e (entryEmbedding e0))%Q l)
        as Hperm. rewrite Hsort in Hperm. rewrite <- Hperm in Hx.
      by apply elem_of_nil in Hx.
    + destruct (Qlt_le_dec _ _) as [|Hle]; [done|].
      pose proof (sortDesc_head _ _ _ _ Hsort x Hx) as Hmax. cbn beta in Hmax. lra.
Qed.

(** C3, as the code has it. Before a memory is persisted its content is
    embedded and the index is searched with a filter on the user id alone:
    the type is not part of the filter, so a near-duplicate of any type
    counts. If the nearest record has relevance above 0.95 the insertion is
    skipped and its id is returned; otherwise the memory is inserted under a
    new id. As a consequence, adding the same content twice in sequence for
    the same user returns the same id both times, and the second call leaves
    the collection as the first call left it. *)
Theorem duplicate_content_stored_once input1 input2 w e :
  (forall v, distanceOf v v == 0)%Q ->
  ready w ->
  inUserId input2 = inUserId input1 ->
  inContent input2 = inContent input1 ->
  inMetadata input1 !! "userId" = None ->
  uuidv4 E (drawn w) ∉ map entryId (collection w) ->
  (Ollama.generateEmbedding (getCacheKey E) (embeddings E) (inContent input1) true
     (ollamaClient w)).1 = Ok e ->
  let first := addMemory E input1 w in
  let second := addMemory E input2 first.2 in
  first.1 = Ok (match duplicateOf distanceOf (inUserId input1) e (collection w) with
                | Some top => entryId top
                | None => uuidv4 E (drawn w)
                end)
  /\ collection first.2
      = match duplicateOf distanceOf (inUserId input1) e (collection w) with
        | Some _ => collection w
        | None =>
            collection w
              ++ [VectorStore.entryOf
                    (vectorMemoryOf input1 (uuidv4 E (drawn w)) (clock w) e)]
        end
  /\ second.1 = first.1
  /\ collection second.2 = collection first.2.
Proof.
  intros Hzero Hready Huser Hcontent Hmd Hfresh He first second.
  destruct (addMemory_spec input1 w e Hready He)
    as (Hid1 & Hcoll1 & Hclient1 & Hready1 & _ & _).
  fold first in Hid1, Hcoll1, Hclient1, Hready1.
  rewrite bool_decide_eq_false_2 in Hcoll1 by done.
  assert (He2 : (Ollama.generateEmbedding (getCacheKey E) (embeddings E)
                   (inContent input2) true (ollamaClient first.2)).1 = Ok e).
  { rewrite Hclient1, Hcontent. by apply generateEmbedding_again. }
  destruct (addMemory_spec input2 first.2 e Hready1 He2) as (Hid2 & Hcoll2 & _).
  fold second in Hid2, Hcoll2.
  split; [exact Hid1|]. split; [exact Hcoll1|].
  rewrite Hid1, Hid2, Hcoll2, Huser, Hcoll1.
  destruct (duplicateOf distanceOf (inUserId input1) e (collection w)) as [top|] eqn:Hdup.
  - by rewrite Hdup.
  - rewrite (duplicateOf_snoc _ _ _ _ Hzero Hdup); [done| |done].
    by apply entryOf_userId.
Qed.

Lemma find_first {A : Type} (f : A -> bool) l x :
  List.find f l = Some x ->
  exists l1 l2, l = l1 ++ x :: l2 /\ f x = true /\ forall y, y ∈ l1 -> f y = false.
Proof.
  induction l as [|a l IH]; [done|]. cbn [List.find].
  destruct (f a) eqn:Ha.
  - intros [= ->]. exists [], l. split; [done|]. split; [done|].
    intros y Hy. by apply elem_of_nil in Hy.
  - intros (l1 & l2 & -> & Hx & Hl1)%IH. exists (a :: l1), l2.
    split; [done|]. split; [done|].
    intros y [->|Hy]%elem_of_cons; auto.
Qed.

Lemma getUserMemories_spec user w :
  storeInitialized w = true ->
  VectorStore.getUserMemories user w
  = (Ok (userMemories (clock w) user (collection w)), w).
Proof.
  intros Hs. unfold VectorStore.getUserMemories, VectorStore.ensureInitialized. run.
  by rewrite Hs.
Qed.

Lemma findConflictingMemory_spec user fact w :
  storeInitialized w = true ->
  findConflictingMemory user fact w
  = (Ok (conflictOf (clock w) user fact (collection w)), w).
Proof.
  intros Hs. unfold findConflictingMemory, conflictOf.
  destruct (bool_decide _); [|done].
  destruct (detectFactType _); [|done].
  unfold mbind, M_bind. by rewrite getUserMemories_spec.
Qed.

(** One turn of the loop of [extractAndStoreKeyFacts]: delete the superseded
    memory, then add the new one. *)
Lemma storeFact_spec interaction fact w :
  ready w ->
  let conflict :=
    conflictOf (clock w) (interactionUserId interaction) fact (collection w) in
  let added :=
    addMemory E
      (factInput interaction fact (storedMetadata interaction fact conflict (clock w)))
      (withCollection (afterDelete conflict (collection w)) w) in
  storeFact E interaction fact w
  = (match added.1 with Ok _ => Ok tt | Throw msg => Throw msg end, added.2).
Proof.
  intros [Hm Hs]. cbn zeta. unfold storeFact, mbind, M_bind.
  rewrite findConflictingMemory_spec by done.
  destruct (conflictOf _ _ _ _) as [old|]; cbn [afterDelete storedMetadata].
  - unfold VectorStore.deleteMemory, VectorStore.ensureInitialized. run.
    rewrite Hs. cbn [collection collectionDelete index ListIndex.index ListIndex.delete].
    cbn [withCollection clock].
    destruct (addMemory _ _ _) as [[x|msg] w']; done.
  - assert (Hw : withCollection (collection w) w = w) by (by destruct w).
    rewrite Hw. destruct (addMemory _ _ _) as [[x|msg] w']; done.
Qed.

Lemma delete_fresh (entries : list Entry) (x : Entry) :
  entryId x ∉ map entryId entries ->
  filter (fun y => entryId y ∉ [entryId x]) (entries ++ [x]) = entries.
Proof.
  intros Hfresh. rewrite filter_app.
  rewrite (filter_cons_False _ x) by (intros Hn; apply Hn; by left).
  rewrite filter_nil, app_nil_r.
  induction entries as [|y entries IH]; [done|].
  cbn [map] in Hfresh. apply not_elem_of_cons in Hfresh as [Hne Hfresh].
  rewrite filter_cons_True.
  - by rewrite IH.
  - rewrite list_elem_of_singleton. congruence.
Qed.

Lemma factMetadata_reserved interaction fact :
  factMetadata interaction fact !! "userId" = None
  /\ factMetadata interaction fact !! "type" = None.
Proof. unfold factMetadata. destruct (confidence fact); by vm_compute. Qed.

Lemma storedMetadata_reserved interaction fact conflict now :
  storedMetadata interaction fact conflict now !! "userId" = None
  /\ storedMetadata interaction fact conflict now !! "type" = None.
Proof.
  destruct conflict as [old|]; cbn [storedMetadata];
    [|apply factMetadata_reserved].
  destruct (factMetadata_reserved interaction fact) as [Hu Ht].
  rewrite !lookup_insert_ne by done. done.
Qed.

(** The stored form of a fact, read back by [getUserMemories]. *)
Lemma stored_fact_read_back interaction fact md id_ now e later :
  md !! "userId" = None -> md !! "type" = None ->
  factType fact ∈ conflictableTypes ->
  let m := VectorStore.memoryOfEntry later
             (VectorStore.entryOf
                (vectorMemoryOf (factInput interaction fact md) id_ now e)) in
  id m = id_ /\ content m = factContent fact /\ type m = factType fact
  /\ type m <> "conversation".
Proof.
  intros Hu Ht Htype. cbn zeta. split; [done|]. split; [done|].
  assert (Hread : type (VectorStore.memoryOfEntry later
                    (VectorStore.entryOf
                       (vectorMemoryOf (factInput interaction fact md) id_ now e)))
                  = factType fact).
  { cbn. unfold VectorStore.strField, VectorStore.flatMetadata. cbn.
    rewrite lookup_union_r by done.
    replace (_ !! "type") with (Some (VStr (factType fact))) by (by vm_compute).
    unfold conflictableTypes in Htype.
    apply elem_of_cons in Htype as [->|Htype]; [done|].
    apply list_elem_of_singleton in Htype as ->. done. }
  split; [exact Hread|]. rewrite Hread.
  unfold conflictableTypes in Htype.
  apply elem_of_cons in Htype as [->|Htype]; [done|].
  apply list_elem_of_singleton in Htype as ->. done.
Qed.

(** [addMemory] removes nothing, whether it succeeds or throws. *)
Lemma addMemory_keeps input w x :
  x ∈ collection w -> x ∈ collection (addMemory E input w).2.
Proof.
  intros Hx.
  unfold addMemory, ensureInitialized, newId, findSimilarMemories,
    VectorStore.searchByEmbedding, VectorStore.addMemory,
    VectorStore.ensureInitialized, generateEmbedding. run.
  destruct (managerInitialized w); [|done].
  cbn [ollamaClient collection storeInitialized managerInitialized clock drawn].
  destruct (Ollama.generateEmbedding _ _ _ _ _) as [[e|msg] c']; [|done].
  cbn [ollamaClient collection storeInitialized managerInitialized clock drawn
       memoryOf embedding userId fst snd].
  rewrite whereOf_user.
  destruct (storeInitialized w); [|done].
  cbn [collectionQuery index ListIndex.index ListIndex.query].
  destruct (ListIndex.nearest distanceOf e _) as [|top rest]; cbn.
  - unfold ListIndex.add. destruct (bool_decide _); cbn; [done|].
    apply elem_of_app. by left.
  - destruct (Qlt_le_dec _ _); cbn; [done|].
    unfold ListIndex.add. destruct (bool_decide _); cbn; [done|].
    apply elem_of_app. by left.
Qed.

(** Storing a fact that has no near-duplicate: the superseded memory goes, the
    new record is appended. *)
Lemma storeFact_appends interaction fact w e :
  ready w ->
  let user := interactionUserId interaction in
  let conflict := conflictOf (clock w) user fact (collection w) in
  let rest := afterDelete conflict (collection w) in
  (Ollama.generateEmbedding (getCacheKey E) (embeddings E) (factContent fact) true
     (ollamaClient w)).1 = Ok e ->
  duplicateOf distanceOf user e rest = None ->
  uuidv4 E (drawn w) ∉ map entryId rest ->
  let w' := (storeFact E interaction fact w).2 in
  (storeFact E interaction fact w).1 = Ok tt
  /\ ready w' /\ drawn w' = S (drawn w) /\ clock w' = clock w
  /\ ollamaClient w'
     = (Ollama.generateEmbedding (getCacheKey E) (embeddings E) (factContent fact) true
          (ollamaClient w)).2
  /\ collection w'
     = rest ++ [VectorStore.entryOf
                  (vectorMemoryOf
                     (factInput interaction fact
                        (storedMetadata interaction fact conflict (clock w)))
                     (uuidv4 E (drawn w)) (clock w) e)].
Proof.
  intros Hready user conflict rest He Hnone Hfresh w'. subst w'.
  rewrite storeFact_spec by done. fold user conflict rest.
  set (w0 := withCollection rest w).
  set (input := factInput interaction fact
                  (storedMetadata interaction fact conflict (clock w))).
  assert (Hready0 : ready w0) by (by destruct Hready).
  destruct (addMemory_spec input w0 e Hready0 He)
    as (Hid & Hcoll & Hclient & Hready' & Hdrawn & Hclock).
  cbn [fst snd]. rewrite Hid.
  split; [done|]. split; [done|]. split; [done|]. split; [done|].
  split; [done|]. rewrite Hcoll.
  subst input w0. cbn [inUserId factInput collection withCollection drawn clock].
  fold user. rewrite Hnone.
  by rewrite bool_decide_eq_false_2 by done.
Qed.

Lemma conflicts_tagged fact tag m :
  conflicts fact tag m
  = tagged tag m
    && negb (bool_decide (Js.toLowerCase (content m)
                          = Js.toLowerCase (factContent fact))).
Proof. reflexivity. Qed.

Lemma find_skips {A : Type} (f : A -> bool) l1 l2 :
  (forall x, x ∈ l1 -> f x = false) -> List.find f (l1 ++ l2) = List.find f l2.
Proof.
  intros Hnone. induction l1 as [|a l1 IH]; [done|].
  cbn [app List.find]. rewrite Hnone by (by left).
  apply IH. intros x Hx. apply Hnone. by right.
Qed.

Lemma filter_rejects {A : Type} (f : A -> bool) l :
  (forall x, x ∈ l -> f x = false) -> List.filter f l = [].
Proof.
  intros Hnone. induction l as [|a l IH]; [done|].
  cbn [List.filter]. rewrite Hnone by (by left).
  apply IH. intros x Hx. apply Hnone. by right.
Qed.

Lemma userMemories_snoc now user entries x :
  entryMetadata x !! "userId" = Some (VStr user) ->
  userMemories now user (entries ++ [x])
  = userMemories now user entries ++ [VectorStore.memoryOfEntry now x].
Proof.
  intros Hx. unfold userMemories. rewrite filter_app, map_app.
  rewrite (filter_cons_True _ x) by (by apply satisfies_user). done.
Qed.

(** C2. Let the user have no stored fact tagged as a name, and let neither
    new fact be a near-duplicate of a stored memory. Storing the fact
    "Customer's name is Alice" and later the fact "Customer's name is Bob"
    (both of a type open to conflicts) then leaves exactly one name-tagged
    memory for the user, Bob's: the second call finds the Alice memory as the
    conflicting one, deletes it, and inserts the new memory with
    [replacedMemoryId] equal to the id of the deleted memory and [replacedAt]
    set to the time of the call. In general the conflicting memory is the
    first one, in the order in which the store returns the user's memories,
    that is not a conversation, has the tag of the new fact and a content that
    differs case-insensitively; only that one memory is deleted. *)
Theorem name_conflict_replaces_old i1 i2 w aliceFact bobFact later eA eB :
  let user := interactionUserId i1 in
  let aliceId := uuidv4 E (drawn w) in
  let bobId := uuidv4 E (S (drawn w)) in
  let first := storeFact E i1 aliceFact w in
  let second := storeFact E i2 bobFact (atTime later first.2) in
  ready w ->
  factContent aliceFact = "Customer's name is Alice" ->
  factContent bobFact = "Customer's name is Bob" ->
  factType aliceFact ∈ conflictableTypes ->
  factType bobFact ∈ conflictableTypes ->
  interactionUserId i2 = user ->
  (forall now m, m ∈ userMemories now user (collection w) -> tagged "name" m = false) ->
  (Ollama.generateEmbedding (getCacheKey E) (embeddings E) "Customer's name is Alice"
     true (ollamaClient w)).1 = Ok eA ->
  (Ollama.generateEmbedding (getCacheKey E) (embeddings E) "Customer's name is Bob"
     true
     (Ollama.generateEmbedding (getCacheKey E) (embeddings E)
        "Customer's name is Alice" true (ollamaClient w)).2).1 = Ok eB ->
  duplicateOf distanceOf user eA (collection w) = None ->
  duplicateOf distanceOf user eB (collection w) = None ->
  aliceId ∉ map entryId (collection w) ->
  bobId ∉ map entryId (collection w) ->
  first.1 = Ok tt /\ second.1 = Ok tt
  /\ id <$> conflictOf later user bobFact (collection first.2) = Some aliceId
  /\ (exists bobEntry,
        collection second.2 = collection w ++ [bobEntry]
        /\ List.filter (tagged "name") (userMemories later user (collection second.2))
           = [VectorStore.memoryOfEntry later bobEntry]
        /\ entryId bobEntry = bobId
        /\ entryDocument bobEntry = "Customer's name is Bob"
        /\ entryMetadata bobEntry !! "replacedMemoryId" = Some (VStr aliceId)
        /\ entryMetadata bobEntry !! "replacedAt" = Some (VNum later))
  /\ (forall user' fact w' m,
        storeInitialized w' = true ->
        (findConflictingMemory user' fact w').1 = Ok (Some m) ->
        exists tag l1 l2,
          detectFactType (factContent fact) = Some tag
          /\ (VectorStore.getUserMemories user' w').1 = Ok (l1 ++ m :: l2)
          /\ conflicts fact tag m = true
          /\ forall y, y ∈ l1 -> conflicts fact tag y = false)
  /\ (forall interaction fact w' x,
        ready w' -> x ∈ collection w' ->
        (exists old,
           (findConflictingMemory (interactionUserId interaction) fact w').1
             = Ok (Some old) /\ entryId x = id old)
        \/ x ∈ collection (storeFact E interaction fact w').2).
Proof.
  intros user aliceId bobId first second
    Hready HcA HcB HtA HtB Hsame Htag HeA HeB HdA HdB HfA HfB.
  subst aliceId bobId.
  assert (HnameA : detectFactType "Customer's name is Alice" = Some "name")
    by (by vm_compute).
  assert (HnameB : detectFactType "Customer's name is Bob" = Some "name")
    by (by vm_compute).
  (* the first fact: no conflict, appended *)
  assert (Hc1 : conflictOf (clock w) user aliceFact (collection w) = None).
  { unfold conflictOf. destruct (bool_decide _); [|done].
    rewrite HcA, HnameA.
    rewrite <- (app_nil_r (userMemories _ _ _)), find_skips; [done|].
    intros m Hm. rewrite conflicts_tagged, (Htag _ _ Hm). done. }
  destruct (storeFact_appends i1 aliceFact w eA Hready) as
    (Hok1 & Hready1 & Hdrawn1 & Hclock1 & Hclient1 & Hcoll1).
  { by rewrite HcA. }
  { fold user. by rewrite Hc1. }
  { fold user. by rewrite Hc1. }
  fold first user in Hok1, Hready1, Hdrawn1, Hclock1, Hclient1, Hcoll1.
  rewrite Hc1 in Hcoll1. cbn [afterDelete storedMetadata] in Hcoll1.
  rewrite HcA in Hclient1.
  set (aliceEntry := VectorStore.entryOf
         (vectorMemoryOf (factInput i1 aliceFact (factMetadata i1 aliceFact))
            (uuidv4 E (drawn w)) (clock w) eA)) in *.
  destruct (factMetadata_reserved i1 aliceFact) as [HmdU HmdT].
  destruct (stored_fact_read_back i1 aliceFact _ (uuidv4 E (drawn w)) (clock w) eA
              later HmdU HmdT HtA) as (Hid & Hcontent & Htype & Hconv).
  fold aliceEntry in Hid, Hcontent, Htype, Hconv.
  assert (HuserA : entryMetadata aliceEntry !! "userId" = Some (VStr user)).
  { by apply entryOf_userId. }
  assert (Hmem1 : userMemories later user (collection first.2)
                  = userMemories later user (collection w)
                    ++ [VectorStore.memoryOfEntry later aliceEntry]).
  { rewrite Hcoll1. by apply userMemories_snoc. }
  assert (Hc2 : conflictOf later user bobFact (collection first.2)
                = Some (VectorStore.memoryOfEntry later aliceEntry)).
  { unfold conflictOf. rewrite Hmem1.
    rewrite bool_decide_eq_true_2 by done. rewrite HcB, HnameB.
    rewrite find_skips.
    2:{ intros m Hm. rewrite conflicts_tagged, (Htag _ _ Hm). done. }
    cbn [List.find]. unfold conflicts. rewrite Hcontent, HcA, HcB.
    rewrite (bool_decide_eq_false_2 _ Hconv).
    rewrite (bool_decide_eq_true_2 _ HnameA).
    replace (bool_decide (Js.toLowerCase "Customer's name is Alice"
                          = Js.toLowerCase "Customer's name is Bob"))
      with false by (by vm_compute).
    done. }
  (* the second fact: the first one is deleted, the new one appended *)
  set (w1 := atTime later first.2).
  assert (Hready1' : ready w1) by (by destruct Hready1).
  assert (Hrest : afterDelete (Some (VectorStore.memoryOfEntry later aliceEntry))
                    (collection first.2) = collection w).
  { cbn [afterDelete]. rewrite Hcoll1.
    exact (delete_fresh (collection w) aliceEntry HfA). }
  destruct (storeFact_appends i2 bobFact w1 eB Hready1') as
    (Hok2 & _ & _ & _ & _ & Hcoll2).
  { rewrite HcB. cbn [ollamaClient w1 atTime]. by rewrite Hclient1. }
  { rewrite Hsame. cbn [clock collection w1 atTime]. fold user.
    by rewrite Hc2, Hrest. }
  { rewrite Hsame. cbn [clock collection drawn w1 atTime]. fold user.
    by rewrite Hc2, Hrest, Hdrawn1. }
  change (storeFact E i2 bobFact w1) with second in Hok2, Hcoll2.
  rewrite Hsame in Hcoll2. cbn [clock collection drawn w1 atTime] in Hcoll2.
  fold user in Hcoll2. rewrite Hc2, Hrest, Hdrawn1 in Hcoll2.
  split; [exact Hok1|]. split; [exact Hok2|].
  split; [rewrite Hc2; reflexivity|].
  split; [|split].
  - eexists. split; [exact Hcoll2|].
    split.
    { rewrite Hcoll2, userMemories_snoc.
      2:{ rewrite <- Hsame. apply entryOf_userId.
          apply storedMetadata_reserved. }
      rewrite List.filter_app, filter_rejects by (intros m Hm; by eapply Htag).
      cbn [app List.filter].
      destruct (storedMetadata_reserved i2 bobFact
                  (Some (VectorStore.memoryOfEntry later aliceEntry)) later)
        as [HmdU2 HmdT2].
      destruct (stored_fact_read_back i2 bobFact _ (uuidv4 E (S (drawn w))) later eB
                  later HmdU2 HmdT2 HtB) as (_ & Hcontent2 & _ & Hconv2).
      unfold tagged. rewrite Hcontent2, HcB.
      rewrite (bool_decide_eq_false_2 _ Hconv2).
      rewrite (bool_decide_eq_true_2 _ HnameB). done. }
    split; [reflexivity|]. split; [by rewrite <- HcB|].
    cbn [entryMetadata VectorStore.entryOf vectorMemoryOf memoryOf].
    unfold VectorStore.flatMetadata.
    cbn [metadata factInput inMetadata storedMetadata].
    change (id (VectorStore.memoryOfEntry later aliceEntry))
      with (uuidv4 E (drawn w)).
    split.
    + rewrite lookup_union_l'; [by rewrite lookup_insert_eq|].
      by rewrite lookup_insert_eq.
    + rewrite lookup_union_l'.
      * rewrite lookup_insert_ne by done. by rewrite lookup_insert_eq.
      * rewrite lookup_insert_ne by done. by rewrite lookup_insert_eq.
  - intros user' fact w' m Hs Hfound.
    rewrite findConflictingMemory_spec in Hfound by done.
    rewrite getUserMemories_spec by done. cbn [fst] in *.
    injection Hfound as Hfound. unfold conflictOf in Hfound.
    destruct (bool_decide _); [|done].
    destruct (detectFactType (factContent fact)) as [tag|]; [|done].
    apply find_first in Hfound as (l1 & l2 & Heq & Hm & Hl1).
    exists tag, l1, l2. by rewrite Heq.
  - intros interaction fact w' x Hready' Hx.
    rewrite findConflictingMemory_spec by apply Hready'.
    rewrite storeFact_spec by done. cbn [fst snd].
    destruct (conflictOf (clock w') (interactionUserId interaction) fact
                (collection w')) as [old|].
    + destruct (decide (entryId x = id old)) as [Heq|Hne].
      * left. by exists old.
      * right. apply addMemory_keeps. cbn [afterDelete collection withCollection].
        apply list_elem_of_filter. split; [|done].
        by rewrite list_elem_of_singleton.
    + right. by apply addMemory_keeps.
Qed.

#[local] Existing Instance ListIndex.admin.

Lemma flatMetadata_fields m :
  (forall k, k ∈ reservedKeys -> metadata m !! k = None) ->
  VectorStore.flatMetadata m !! "userId" = Some (VStr (userId m))
  /\ VectorStore.flatMetadata m !! "type" = Some (VStr (type m))
  /\ VectorStore.flatMetadata m !! "category" = Some (VStr (category m))
  /\ VectorStore.flatMetadata m !! "timestamp" = Some (VNum (timestamp m))
  /\ VectorStore.flatMetadata m !! "sessionId"
     = Some (VStr (Js.str_or (sessionId m) EmptyString))
  /\ VectorStore.flatMetadata m !! "importance" = Some (VNum (importance m)).
Proof.
  intros Hfree. unfold VectorStore.flatMetadata.
  repeat split; (rewrite lookup_union_r by (apply Hfree; unfold reservedKeys; set_solver));
    by repeat (rewrite lookup_insert_eq || rewrite lookup_insert_ne by done).
Qed.

Lemma memoryOfEntry_entryOf vm now :
  let m := memoryOf vm in
  (forall k, k ∈ reservedKeys -> metadata m !! k = None) ->
  type m <> EmptyString -> category m <> EmptyString ->
  Qeq_bool (timestamp m) 0 = false -> Qeq_bool (importance m) 0 = false ->
  VectorStore.memoryOfEntry now (VectorStore.entryOf vm) = readBack m.
Proof.
  intros m Hfree Ht Hc Hts Hi.
  destruct (flatMetadata_fields m Hfree) as (Hu & Hty & Hca & Htm & Hse & Him).
  unfold VectorStore.memoryOfEntry, VectorStore.entryOf, readBack.
  cbn [entryMetadata entryId entryDocument]. fold m.
  unfold VectorStore.strField, VectorStore.numField.
  rewrite Hu, Hty, Hca, Htm, Hse, Him. cbn [Js.num_or]. rewrite Hts, Hi.
  f_equal.
  - by destruct (userId m).
  - by destruct (type m).
  - by destruct (category m).
Qed.

Lemma storeAdd_spec vm w :
  storeInitialized w = true ->
  id (memoryOf vm) ∉ map entryId (collection w) ->
  VectorStore.addMemory vm w
  = (Ok tt, withCollection (collection w ++ [VectorStore.entryOf vm]) w).
Proof.
  intros Hs Hfresh. unfold VectorStore.addMemory, VectorStore.ensureInitialized. run.
  rewrite Hs. cbn [collectionAdd index ListIndex.index]. unfold ListIndex.add.
  by rewrite bool_decide_eq_false_2 by done.
Qed.

(** X: round trip *)
Theorem stored_memory_read_back vm w :
  let m := memoryOf vm in
  let w' := (VectorStore.addMemory vm w).2 in
  storeInitialized w = true ->
  id m ∉ map entryId (collection w) ->
  (forall k, k ∈ reservedKeys -> metadata m !! k = None) ->
  type m <> EmptyString -> category m <> EmptyString ->
  Qeq_bool (timestamp m) 0 = false -> Qeq_bool (importance m) 0 = false ->
  (VectorStore.addMemory vm w).1 = Ok tt
  /\ (VectorStore.getUserMemories (userId m) w').1
     = Ok (userMemories (clock w) (userId m) (collection w) ++ [readBack m]).
Proof.
  intros m w' Hs Hfresh Hfree Ht Hc Hts Hi. subst w'.
  rewrite storeAdd_spec by done. split; [done|]. cbn [snd].
  rewrite getUserMemories_spec by done. cbn [fst clock collection withCollection].
  rewrite userMemories_snoc.
  - by rewrite memoryOfEntry_entryOf.
  - by apply flatMetadata_fields.
Qed.


(** X: falsy importance *)
Theorem zero_importance_read_as_default vm now q :
  metadata (memoryOf vm) !! "importance" = None ->
  (importance (memoryOf vm) == 0)%Q ->
  importance (VectorStore.memoryOfEntry now (VectorStore.entryOf vm)) = 0.5%Q
  /\ importance (memory (VectorStore.formatHit now
                           (ListIndex.hitOf distanceOf q (VectorStore.entryOf vm))))
     = 0.5%Q.
Proof.
  intros Hfree Hzero%Qeq_bool_iff.
  assert (Hi : VectorStore.flatMetadata (memoryOf vm) !! "importance"
               = Some (VNum (importance (memoryOf vm)))).
  { unfold VectorStore.flatMetadata. rewrite lookup_union_r by done.
    by repeat (rewrite lookup_insert_eq || rewrite lookup_insert_ne by done). }
  split; cbn; unfold VectorStore.numField; rewrite Hi; cbn; by rewrite Hzero.
Qed.

Lemma withCollection_same (w : World (list Entry)) : withCollection (collection w) w = w.
Proof. by destruct w. Qed.

Lemma storeDelete_spec memoryId (w : World (list Entry)) :
  storeInitialized w = true ->
  VectorStore.deleteMemory memoryId w
  = (Ok tt, withCollection (filter (fun e => entryId e ∉ [memoryId]) (collection w)) w).
Proof.
  intros Hs. unfold VectorStore.deleteMemory, VectorStore.ensureInitialized. run.
  by rewrite Hs.
Qed.

Lemma delete_absent (entries : list Entry) memoryId :
  memoryId ∉ map entryId entries ->
  filter (fun e => entryId e ∉ [memoryId]) entries = entries.
Proof.
  induction entries as [|y entries IH]; [done|].
  cbn [map]. intros [Hne Hrest]%not_elem_of_cons.
  rewrite filter_cons_True by (rewrite list_elem_of_singleton; congruence).
  by rewrite IH.
Qed.

(** X: delete *)
Theorem deleteMemory_undoes_addMemory vm (w : World (list Entry)) :
  storeInitialized w = true ->
  id (memoryOf vm) ∉ map entryId (collection w) ->
  VectorStore.deleteMemory (id (memoryOf vm)) w = (Ok tt, w)
  /\ (VectorStore.addMemory vm;; VectorStore.deleteMemory (id (memoryOf vm))) w
     = (Ok tt, w).
Proof.
  intros Hs Hfresh. split.
  - rewrite storeDelete_spec by done. by rewrite delete_absent, withCollection_same.
  - unfold mbind, M_bind. rewrite storeAdd_spec by done.
    rewrite storeDelete_spec by done. cbn [collection withCollection].
    pose proof (delete_fresh (collection w) (VectorStore.entryOf vm) Hfresh) as Hd.
    cbn [entryId VectorStore.entryOf] in Hd. rewrite Hd. by destruct w.
Qed.

(** X: metadata override *)
Theorem metadata_userId_overrides vm (w : World (list Entry)) other :
  let m := memoryOf vm in
  let w' := (VectorStore.addMemory vm w).2 in
  storeInitialized w = true ->
  id m ∉ map entryId (collection w) ->
  metadata m !! "userId" = Some (VStr other) ->
  other <> userId m ->
  (VectorStore.getUserMemories (userId m) w').1
    = (VectorStore.getUserMemories (userId m) w).1
  /\ (VectorStore.getUserMemories other w').1
     = Ok (userMemories (clock w) other (collection w)
           ++ [VectorStore.memoryOfEntry (clock w) (VectorStore.entryOf vm)])
  /\ userId (VectorStore.memoryOfEntry (clock w) (VectorStore.entryOf vm))
     = other.
Proof.
  intros m w' Hs Hfresh Hmd Hne. subst w'.
  rewrite storeAdd_spec by done. cbn [snd].
  rewrite !getUserMemories_spec by done. cbn [fst clock collection withCollection].
  assert (Hu : entryMetadata (VectorStore.entryOf vm) !! "userId" = Some (VStr other)).
  { cbn. unfold VectorStore.flatMetadata. fold m.
    by rewrite (lookup_union_Some_l _ _ _ _ Hmd). }
  split; [|split].
  - unfold userMemories. rewrite filter_app.
    rewrite (filter_cons_False _ (VectorStore.entryOf vm)).
    + by rewrite filter_nil, app_nil_r.
    + rewrite satisfies_user, Hu. congruence.
  - by rewrite userMemories_snoc.
  - cbn [VectorStore.memoryOfEntry userId]. unfold VectorStore.strField. rewrite Hu.
    by destruct other.
Qed.


Lemma getRecentMemories_spec user limit_ (w : World (list Entry)) :
  ready w ->
  getRecentMemories user limit_ w
  = (Ok (take (default 10%nat limit_)
           (sortDesc timestamp (userMemories (clock w) user (collection w)))), w).
Proof.
  intros [Hm Hs]. unfold getRecentMemories, ensureInitialized. run. rewrite Hm.
  by rewrite getUserMemories_spec.
Qed.

(** X: most recent first *)
Theorem getRecentMemories_most_recent_first user limit_ (w : World (list Entry)) :
  ready w ->
  exists recent,
    getRecentMemories user limit_ w = (Ok recent, w)
    /\ (length recent <= default 10 limit_)%nat
    /\ StronglySorted (descends timestamp) recent
    /\ (forall m, m ∈ recent -> m ∈ userMemories (clock w) user (collection w))
    /\ (forall m r, m ∈ userMemories (clock w) user (collection w) -> m ∉ recent ->
          r ∈ recent -> (timestamp m <= timestamp r)%Q)
    /\ ((length (userMemories (clock w) user (collection w)) <= default 10 limit_)%nat ->
        recent ≡ₚ userMemories (clock w) user (collection w)).
Proof.
  intros Hready. rewrite getRecentMemories_spec by done.
  set (all := userMemories (clock w) user (collection w)).
  set (n := default 10%nat limit_).
  pose proof (sortDesc_sorted timestamp all) as Hsorted.
  pose proof (sortDesc_perm timestamp all) as Hperm.
  exists (take n (sortDesc timestamp all)). split; [done|].
  split; [rewrite length_take; lia|]. split; [by apply sorted_take|].
  split; [|split].
  - intros m Hm%elem_of_take. destruct Hm as (i & Hm & _).
    apply list_elem_of_lookup_2 in Hm. by rewrite Hperm in Hm.
  - intros m r Hm Hout Hr.
    rewrite <- Hperm, <- (take_drop n (sortDesc timestamp all)) in Hm.
    apply elem_of_app in Hm as [Hm|Hm]; [done|].
    rewrite <- (take_drop n (sortDesc timestamp all)) in Hsorted.
    exact (StronglySorted_app_1_elem_of _ _ _ _ _ Hsorted Hr Hm).
  - intros Hlen. rewrite take_ge; [done|]. by rewrite Hperm.
Qed.

Lemma deleteUserMemories_spec user (w : World (list Entry)) :
  storeInitialized w = true ->
  VectorStore.deleteUserMemories user w
  = (Ok tt, withCollection
              (filter (fun e => ~ ListIndex.satisfies {[ "userId" := VStr user ]} e)
                 (collection w)) w).
Proof.
  intros Hs. unfold VectorStore.deleteUserMemories, VectorStore.ensureInitialized. run.
  by rewrite Hs.
Qed.

Lemma filter_filter_absorb {A : Type} (P Q : A -> Prop)
    `{forall x, Decision (P x)} `{forall x, Decision (Q x)} (l : list A) :
  (forall x, P x -> Q x) -> filter P (filter Q l) = filter P l.
Proof.
  intros Himp. induction l as [|x l IH]; [done|].
  destruct (decide (Q x)) as [Hq|Hq].
  - rewrite (filter_cons_True Q) by done. destruct (decide (P x)).
    + rewrite !(filter_cons_True P) by done. by rewrite IH.
    + rewrite !(filter_cons_False P) by done. done.
  - rewrite (filter_cons_False Q) by done.
    rewrite (filter_cons_False P) by (intros Hp; by apply Hq, Himp). done.
Qed.

(** X: erasure *)
Theorem deleteUserData_erases user limit_ (w : World (list Entry)) :
  let w' := (deleteUserData user w).2 in
  ready w ->
  (deleteUserData user w).1 = Ok tt
  /\ (getRecentMemories user limit_ w').1 = Ok []
  /\ (VectorStore.getUserMemories user w').1 = Ok []
  /\ (forall other now, other <> user ->
        userMemories now other (collection w') = userMemories now other (collection w))
  /\ (forall x, x ∈ collection w' -> x ∈ collection w).
Proof.
  intros w' [Hm Hs]. subst w'.
  assert (Hrun : deleteUserData user w
    = (Ok tt, withCollection
                (filter (fun e => ~ ListIndex.satisfies {[ "userId" := VStr user ]} e)
                   (collection w)) w)).
  { unfold deleteUserData, ensureInitialized. run. rewrite Hm.
    by rewrite deleteUserMemories_spec. }
  rewrite Hrun. cbn [fst snd].
  set (rest := filter _ (collection w)).
  assert (Hnone : userMemories (clock w) user rest = []).
  { unfold userMemories, rest. rewrite filter_none; [done|].
    by intros x [Hx _]%list_elem_of_filter. }
  split; [done|]. split; [|split; [|split]].
  - rewrite getRecentMemories_spec by done. cbn [fst clock collection withCollection].
    rewrite Hnone. cbn [sortDesc foldr]. by rewrite take_nil.
  - rewrite getUserMemories_spec by done. cbn [fst clock collection withCollection].
    by rewrite Hnone.
  - intros other now Hne. cbn [collection withCollection]. unfold userMemories, rest.
    f_equal. apply filter_filter_absorb. intros x Ho Hu.
    apply satisfies_user in Ho, Hu. congruence.
  - cbn [collection withCollection]. by intros x [_ Hx]%list_elem_of_filter.
Qed.

Lemma get_unique (entries : list Entry) (x : Entry) :
  NoDup (map entryId entries) -> x ∈ entries ->
  filter (fun e => entryId e ∈ [entryId x]) entries = [x].
Proof.
  induction entries as [|y entries IH]; [by intros _ ?%elem_of_nil|].
  cbn [map]. intros [Hy Hnd]%NoDup_cons [->|Hx]%elem_of_cons.
  - rewrite filter_cons_True by (by left). f_equal.
    apply filter_none. intros e He Hid%list_elem_of_singleton. apply Hy.
    rewrite <- Hid. apply list_elem_of_In, in_map. by apply list_elem_of_In.
  - rewrite filter_cons_False; [by apply IH|].
    intros Hid%list_elem_of_singleton. apply Hy. rewrite Hid.
    apply list_elem_of_In, in_map. by apply list_elem_of_In.
Qed.

(** X: lookup by id *)
Theorem getMemoryById_finds_record memoryId (w : World (list Entry)) :
  storeInitialized w = true ->
  NoDup (map entryId (collection w)) ->
  (memoryId ∉ map entryId (collection w) ->
     VectorStore.getMemoryById memoryId w = (Ok None, w))
  /\ (forall x, x ∈ collection w -> entryId x = memoryId ->
        VectorStore.getMemoryById memoryId w
        = (Ok (Some (mkVectorMemory (VectorStore.memoryOfEntry (clock w) x)
                       (entryEmbedding x))), w)).
Proof.
  intros Hs Hnd.
  assert (Hrun : VectorStore.getMemoryById memoryId w
    = (Ok (match filter (fun e => entryId e ∈ [memoryId]) (collection w) with
           | [] => None
           | e :: _ => Some (mkVectorMemory (VectorStore.memoryOfEntry (clock w) e)
                               (entryEmbedding e))
           end), w)).
  { unfold VectorStore.getMemoryById, VectorStore.ensureInitialized. run.
    by rewrite Hs. }
  rewrite Hrun. split.
  - intros Habsent. rewrite filter_none; [done|].
    intros e He Hid%list_elem_of_singleton. apply Habsent. rewrite <- Hid.
    apply list_elem_of_In, in_map. by apply list_elem_of_In.
  - intros x Hx <-. by rewrite get_unique.
Qed.

(** X: counts *)
Theorem getMemoryCount_counts user (w : World (list Entry)) :
  storeInitialized w = true ->
  VectorStore.getMemoryCount None w = (Ok (length (collection w)), w)
  /\ VectorStore.getMemoryCount (Some EmptyString) w = (Ok (length (collection w)), w)
  /\ (user <> EmptyString ->
      VectorStore.getMemoryCount (Some user) w
      = (Ok (length (userMemories (clock w) user (collection w))), w)).
Proof.
  intros Hs. unfold VectorStore.getMemoryCount, VectorStore.ensureInitialized. run.
  rewrite Hs. split; [done|]. split; [done|]. intros Hne.
  destruct user; [done|]. cbn. unfold userMemories. by rewrite length_map.
Qed.


(** X: isolation *)
Theorem search_returns_own_memories userId_ query options (w : World (list Entry))
    memories :
  (searchRelevantMemories E userId_ query options w).1 = Ok memories ->
  forall m, m ∈ memories -> userId m = userId_.
Proof.
  unfold searchRelevantMemories, ensureInitialized. run.
  destruct (managerInitialized w); [|done].
  destruct (VectorStore.searchMemories E query userId_ _ w) as [[rs|msg] w'] eqn:Hs.
  2:{ cbn. intros [= <-]. by intros m ?%elem_of_nil. }
  assert (Hown : forall r, r ∈ rs -> userId (memory r) = userId_).
  { revert Hs. unfold VectorStore.searchMemories, VectorStore.ensureInitialized,
      generateEmbedding. run.
    destruct (storeInitialized w); [|done].
    destruct (Ollama.generateEmbedding _ _ _ _ _) as [[emb|msg] c]; [|done].
    cbn [collection collectionQuery index ListIndex.index]. unfold ListIndex.query.
    cbn -[ListIndex.nearest ListIndex.scope]. intros [= <- _] r Hr. unfold VectorStore.formatSearchResults in Hr.
    apply list_elem_of_In, in_map_iff in Hr as (h & <- & Hh).
    apply in_map_iff in Hh as (x & <- & Hx).
    apply list_elem_of_In, elem_of_take in Hx as (i & Hx & _).
    apply list_elem_of_lookup_2 in Hx. unfold ListIndex.nearest in Hx.
    rewrite sortDesc_perm in Hx. cbn [ListIndex.scope] in Hx.
    apply list_elem_of_filter in Hx as [Hx _]. apply satisfies_user in Hx.
    cbn. unfold VectorStore.strField. rewrite Hx. by destruct userId_. }
  cbn. intros [= <-] m (s & <- & Hs')%list_elem_of_In%in_map_iff.
  apply list_elem_of_In, elem_of_take in Hs' as (i & Hi & _).
  apply list_elem_of_lookup_2, reRankResults_elem in Hi.
  apply list_elem_of_In, filter_In in Hi as [Hi _].
  apply Hown. destruct (VectorStore.nonEmpty (optCategory options)).
  - apply filter_In in Hi as [Hi _]. by apply list_elem_of_In.
  - by apply list_elem_of_In.
Qed.

Lemma addMemory_embedding_fails input (w : World (list Entry)) msg :
  managerInitialized w = true ->
  (Ollama.generateEmbedding (getCacheKey E) (embeddings E) (inContent input) true
     (ollamaClient w)).1 = Throw msg ->
  (addMemory E input w).1 = Throw msg
  /\ collection (addMemory E input w).2 = collection w.
Proof.
  intros Hm. unfold addMemory, ensureInitialized, newId, generateEmbedding. run.
  rewrite Hm. cbn [ollamaClient collection].
  destruct (Ollama.generateEmbedding _ _ _ _ _) as [[e|msg'] c']; [done|].
  cbn. by intros [= ->].
Qed.

(** X: not atomic *)
Theorem replacement_is_not_atomic interaction fact rest (w : World (list Entry)) old msg :
  let w' := (storeFacts E interaction (fact :: rest) w).2 in
  ready w ->
  conflictOf (clock w) (interactionUserId interaction) fact (collection w) = Some old ->
  Ollama.mapGet (getCacheKey E (factContent fact))
    (Ollama.embeddingCache (ollamaClient w)) = None ->
  embeddings E (factContent fact) = Throw msg ->
  (storeFacts E interaction (fact :: rest) w).1
    = Throw ("Embedding generation failed: " +:+ msg)
  /\ collection w' = filter (fun x => entryId x ∉ [id old]) (collection w)
  /\ (exists x, x ∈ collection w /\ entryId x = id old)
  /\ (forall x, x ∈ collection w' -> entryId x <> id old).
Proof.
  intros w' Hready Hconflict Hmiss Hdown. subst w'.
  set (w0 := withCollection (filter (fun x => entryId x ∉ [id old]) (collection w)) w).
  set (input := factInput interaction fact
                  (storedMetadata interaction fact (Some old) (clock w))).
  destruct (addMemory_embedding_fails input w0 ("Embedding generation failed: " +:+ msg))
    as [Hthrow Hsame].
  { by destruct Hready. }
  { unfold Ollama.generateEmbedding. cbn [inContent input factInput].
    cbn [ollamaClient w0 withCollection Ollama.countEmbedding Ollama.embeddingCache].
    rewrite Hmiss. unfold Ollama.fetchEmbedding. by rewrite Hdown. }
  assert (Hrun : storeFacts E interaction (fact :: rest) w
                 = (Throw ("Embedding generation failed: " +:+ msg),
                    (addMemory E input w0).2)).
  { cbn [storeFacts]. unfold mbind, M_bind. rewrite storeFact_spec by done.
    rewrite Hconflict. cbn [afterDelete]. fold w0 input. by rewrite Hthrow. }
  rewrite Hrun. cbn [fst snd]. rewrite Hsame. cbn [collection w0 withCollection].
  split; [done|]. split; [done|]. split.
  - unfold conflictOf in Hconflict. destruct (bool_decide _); [|done].
    destruct (detectFactType _); [|done].
    apply find_some in Hconflict as [Hin _]. unfold userMemories in Hin.
    apply in_map_iff in Hin as (x & <- & Hx).
    exists x. split; [|done]. apply list_elem_of_In in Hx.
    by apply list_elem_of_filter in Hx as [_ Hx].
  - intros x [Hx _]%list_elem_of_filter Hid. apply Hx. rewrite Hid. by left.
Qed.


Lemma addMemory_effect input (w : World (list Entry)) :
  ready w ->
  let w' := (addMemory E input w).2 in
  ready w' /\ clock w' = clock w
  /\ (collection w' = collection w
      \/ exists e, collection w' = collection w ++ [e]
                   /\ entryId e ∉ map entryId (collection w)).
Proof.
  intros [Hm Hs]. cbn zeta.
  unfold addMemory, ensureInitialized, newId, findSimilarMemories,
    VectorStore.searchByEmbedding, VectorStore.addMemory,
    VectorStore.ensureInitialized, generateEmbedding. run.
  rewrite Hm.
  cbn [ollamaClient collection storeInitialized managerInitialized clock drawn].
  destruct (Ollama.generateEmbedding _ _ _ _ _) as [[e|msg] c'];
    [|unfold ready; cbn; tauto].
  cbn [ollamaClient collection storeInitialized managerInitialized clock drawn
       memoryOf embedding userId fst snd].
  rewrite whereOf_user, Hs.
  cbn [collectionQuery index ListIndex.index ListIndex.query].
  destruct (ListIndex.nearest distanceOf e _) as [|top rest]; cbn.
  - unfold ListIndex.add. match goal with |- context [bool_decide ?P] =>
      destruct (bool_decide_reflect P) as [|Hfresh] end; cbn;
      unfold ready; cbn; [tauto|].
    split; [done|]. split; [done|]. right. eexists. split; [done|]. exact Hfresh.
  - destruct (Qlt_le_dec _ _); cbn; [unfold ready; cbn; tauto|].
    unfold ListIndex.add. match goal with |- context [bool_decide ?P] =>
      destruct (bool_decide_reflect P) as [|Hfresh] end; cbn;
      unfold ready; cbn; [tauto|].
    split; [done|]. split; [done|]. right. eexists. split; [done|]. exact Hfresh.
Qed.

Lemma NoDup_ids_filter (P : Entry -> Prop) `{forall x, Decision (P x)} entries :
  NoDup (map entryId entries) -> NoDup (map entryId (filter P entries)).
Proof.
  induction entries as [|x entries IH]; [done|].
  cbn [map]. intros [Hx Hnd]%NoDup_cons. destruct (decide (P x)).
  - rewrite filter_cons_True by done. cbn [map]. apply NoDup_cons. split; [|by apply IH].
    intros (y & Hid & Hy)%list_elem_of_In%in_map_iff. apply Hx. rewrite <- Hid.
    apply list_elem_of_In, in_map.
    by apply list_elem_of_In, list_elem_of_filter in Hy as [_ Hy%list_elem_of_In].
  - rewrite filter_cons_False by done. by apply IH.
Qed.

Lemma same_id_same_entry (entries : list Entry) x y :
  NoDup (map entryId entries) -> x ∈ entries -> y ∈ entries ->
  entryId x = entryId y -> x = y.
Proof.
  induction entries as [|z entries IH]; [by intros _ ?%elem_of_nil|].
  cbn [map]. intros [Hz Hnd]%NoDup_cons [->|Hx]%elem_of_cons [->|Hy]%elem_of_cons Hid.
  - done.
  - exfalso. apply Hz. rewrite Hid. apply list_elem_of_In, in_map. by apply list_elem_of_In.
  - exfalso. apply Hz. rewrite <- Hid. apply list_elem_of_In, in_map.
    by apply list_elem_of_In.
  - by apply IH.
Qed.

Lemma storeFact_keeps interaction fact (w : World (list Entry)) :
  ready w ->
  NoDup (map entryId (collection w)) ->
  let w' := (storeFact E interaction fact w).2 in
  ready w' /\ clock w' = clock w
  /\ NoDup (map entryId (collection w'))
  /\ (forall x, x ∈ collection w -> storedType x = "conversation" -> x ∈ collection w').
Proof.
  intros Hready Hnd. cbn zeta. rewrite storeFact_spec by done. cbn [snd].
  set (conflict := conflictOf _ _ _ _).
  set (rest := afterDelete conflict (collection w)).
  set (w0 := withCollection rest w).
  assert (Hready0 : ready w0) by (by destruct Hready).
  assert (Hnd0 : NoDup (map entryId rest)).
  { subst rest. destruct conflict; [by apply NoDup_ids_filter|done]. }
  assert (Hkeep : forall x, x ∈ collection w -> storedType x = "conversation" -> x ∈ rest).
  { intros x Hx Hconv. subst rest. destruct conflict as [old|] eqn:Hc; [|done].
    cbn [afterDelete]. apply list_elem_of_filter. split; [|done].
    intros Hid%list_elem_of_singleton.
    subst conflict. unfold conflictOf in Hc. destruct (bool_decide _); [|done].
    destruct (detectFactType _) as [tag|]; [|done].
    apply find_some in Hc as [Hin Hconf]. unfold userMemories in Hin.
    apply in_map_iff in Hin as (y & <- & Hy).
    apply list_elem_of_In, list_elem_of_filter in Hy as [_ Hy].
    assert (x = y) as -> by (by apply (same_id_same_entry (collection w))).
    unfold conflicts in Hconf. cbn [type VectorStore.memoryOfEntry] in Hconf.
    unfold storedType in Hconv. rewrite Hconv in Hconf. done. }
  destruct (addMemory_effect (factInput interaction fact
              (storedMetadata interaction fact conflict (clock w))) w0 Hready0)
    as (Hready' & Hclock & Hcoll).
  cbn zeta in *. split; [done|]. split; [done|].
  cbn [collection w0 withCollection] in Hcoll.
  destruct Hcoll as [->|(e & -> & Hfresh)].
  - split; [done|]. exact Hkeep.
  - split.
    + rewrite map_app. apply NoDup_app. split; [done|]. split; [|apply NoDup_singleton].
      cbn. intros id_ Hin ->%list_elem_of_singleton. done.
    + intros x Hx Hconv. apply elem_of_app. left. by apply Hkeep.
Qed.

Lemma storeFacts_keeps interaction facts : forall (w : World (list Entry)),
  ready w ->
  NoDup (map entryId (collection w)) ->
  forall x, x ∈ collection w -> storedType x = "conversation" ->
    x ∈ collection (storeFacts E interaction facts w).2.
Proof.
  induction facts as [|fact facts IH]; intros w Hready Hnd x Hx Hconv; [done|].
  cbn [storeFacts]. unfold mbind, M_bind.
  destruct (storeFact_keeps interaction fact w Hready Hnd) as (Hready' & _ & Hnd' & Hkeep).
  cbn zeta in *. destruct (storeFact E interaction fact w) as [[[]|msg] w']; cbn [snd] in *.
  - apply IH; auto.
  - auto.
Qed.

Lemma extractKeyFacts_effect interaction (w : World (list Entry)) :
  let w' := (extractKeyFacts E interaction w).2 in
  collection w' = collection w /\ clock w' = clock w
  /\ managerInitialized w' = managerInitialized w
  /\ storeInitialized w' = storeInitialized w.
Proof.
  cbn zeta. unfold extractKeyFacts, chat. run.
  destruct (Ollama.chat _ _ _) as [[response|msg] c]; [|done].
  destruct (JSON_parse E _) as [[| | | |rawFacts|]|]; try done.
  by destruct (validateAll _ _).
Qed.

Lemma extractAndStore_keeps interaction (w : World (list Entry)) x :
  ready w ->
  NoDup (map entryId (collection w)) ->
  x ∈ collection w ->
  storedType x = "conversation" ->
  x ∈ collection (extractAndStoreKeyFacts E interaction w).2.
Proof.
  intros Hready Hnd Hx Hconv. unfold extractAndStoreKeyFacts, mbind, M_bind.
  destruct (extractKeyFacts_effect interaction w) as (Hc & _ & Hm & Hs). cbn zeta in *.
  destruct (extractKeyFacts E interaction w) as [[facts|msg] w2]; cbn [snd] in *.
  - apply storeFacts_keeps; [|by rewrite Hc|by rewrite Hc|done].
    destruct Hready as [? ?]. split; congruence.
  - by rewrite Hc.
Qed.

Lemma addInteraction_world interaction (w : World (list Entry)) :
  managerInitialized w = true ->
  (addInteraction E interaction w).2
  = ((addMemory E
        {| inUserId := interactionUserId interaction;
           inContent := "User: " +:+ userMessage interaction +:+ Prompts.nl
                          +:+ "Assistant: " +:+ assistantMessage interaction;
           inType := "conversation";
           inCategory := categorizeMessage (userMessage interaction);
           inSessionId := Some (interactionSessionId interaction);
           inImportance := Some 0.5%Q;
           inMetadata :=
             interactionMetadata interaction ∪
             <["userMessage" := VStr (userMessage interaction)]>
             (<["assistantMessage" := VStr (assistantMessage interaction)]> ∅) |};;
      extractAndStoreKeyFacts E interaction) w).2.
Proof.
  intros Hm. unfold addInteraction, ensureInitialized.
  unfold mbind at 1, M_bind at 1. rewrite Hm. unfold tryCatch, throw.
  match goal with
  | |- context [let '(_, _) := ?t in _] => by destruct t as [[[]|msg] w']
  | |- context [match ?t with (_, _) => _ end] => by destruct t as [[[]|msg] w']
  end.
Qed.

(** X: conversations survive *)
Theorem conversations_survive_addInteraction interaction (w : World (list Entry)) x :
  ready w ->
  NoDup (map entryId (collection w)) ->
  x ∈ collection w ->
  storedType x = "conversation" ->
  x ∈ collection (addInteraction E interaction w).2.
Proof.
  intros Hready Hnd Hx Hconv. rewrite addInteraction_world by apply Hready.
  set (turn := {| inUserId := _ |}). unfold mbind, M_bind.
  destruct (addMemory_effect turn w Hready) as (Hready1 & _ & Hcoll1). cbn zeta in *.
  assert (Hx1 : x ∈ collection (addMemory E turn w).2).
  { destruct Hcoll1 as [->|(e & -> & _)]; [done|]. apply elem_of_app. by left. }
  assert (Hnd1 : NoDup (map entryId (collection (addMemory E turn w).2))).
  { destruct Hcoll1 as [->|(e & -> & Hfresh)]; [done|].
    rewrite map_app. apply NoDup_app. split; [done|]. split; [|apply NoDup_singleton].
    cbn. intros id_ Hin ->%list_elem_of_singleton. done. }
  destruct (addMemory E turn w) as [[id_|msg] w1]; cbn [snd] in *; [|done].
  by apply extractAndStore_keeps.
Qed.

(** X: the turn is stored *)
Theorem addInteraction_stores_turn interaction (w : World (list Entry)) e :
  let content_ := "User: " +:+ userMessage interaction +:+ Prompts.nl
                    +:+ "Assistant: " +:+ assistantMessage interaction in
  let w' := (addInteraction E interaction w).2 in
  ready w ->
  NoDup (map entryId (collection w)) ->
  uuidv4 E (drawn w) ∉ map entryId (collection w) ->
  (forall k, k ∈ reservedKeys -> interactionMetadata interaction !! k = None) ->
  (Ollama.generateEmbedding (getCacheKey E) (embeddings E) content_ true
     (ollamaClient w)).1 = Ok e ->
  duplicateOf distanceOf (interactionUserId interaction) e (collection w) = None ->
  exists turn,
    turn ∈ collection w'
    /\ entryId turn = uuidv4 E (drawn w)
    /\ entryDocument turn = content_
    /\ entryEmbedding turn = e
    /\ entryMetadata turn !! "userId" = Some (VStr (interactionUserId interaction))
    /\ entryMetadata turn !! "type" = Some (VStr "conversation")
    /\ entryMetadata turn !! "category"
       = Some (VStr (categorizeMessage (userMessage interaction)))
    /\ entryMetadata turn !! "importance" = Some (VNum 0.5)
    /\ entryMetadata turn !! "timestamp" = Some (VNum (clock w)).
Proof.
  intros content_ w' Hready Hnd Hfresh Hfree He Hdup. subst w'.
  rewrite addInteraction_world by apply Hready.
  set (turn := {| inUserId := _ |}). unfold mbind, M_bind.
  destruct (addMemory_spec turn w e Hready He)
    as (Hid & Hcoll & _ & Hready1 & _ & _). cbn zeta in *.
  cbn [inUserId turn] in Hcoll, Hid. rewrite Hdup in Hcoll, Hid.
  rewrite bool_decide_eq_false_2 in Hcoll by done.
  set (entry := VectorStore.entryOf (vectorMemoryOf turn (uuidv4 E (drawn w)) (clock w) e))
    in *.
  destruct (flatMetadata_fields
              (memoryOf (vectorMemoryOf turn (uuidv4 E (drawn w)) (clock w) e)))
    as (Hu & Hty & Hca & Hts & _ & Him).
  { intros k Hk. cbn [memoryOf vectorMemoryOf metadata inMetadata turn].
    apply lookup_union_None. split; [by apply Hfree|].
    unfold reservedKeys in Hk.
    repeat (apply elem_of_cons in Hk as [->|Hk]; [by vm_compute|]).
    by apply elem_of_nil in Hk. }
  exists entry. split; [|split; [done|split; [done|split; [done|]]]].
  2:{ split; [exact Hu|]. split; [exact Hty|]. split; [exact Hca|].
      split; [exact Him|exact Hts]. }
  assert (Hin : entry ∈ collection (addMemory E turn w).2).
  { rewrite Hcoll. apply elem_of_app. right. by left. }
  assert (Hnd1 : NoDup (map entryId (collection (addMemory E turn w).2))).
  { rewrite Hcoll, map_app. apply NoDup_app. split; [done|].
    split; [|apply NoDup_singleton].
    cbn. intros id_ Hin' ->%list_elem_of_singleton. done. }
  destruct (addMemory E turn w) as [[id_|msg] w1]; cbn [fst snd] in *; [|done].
  apply extractAndStore_keeps; [done|done|done|].
  unfold storedType, VectorStore.strField.
  change (entryMetadata entry) with
    (VectorStore.flatMetadata
       (memoryOf (vectorMemoryOf turn (uuidv4 E (drawn w)) (clock w) e))).
  by rewrite Hty.
Qed.

End StoreFacts.

(** ** The chat flow of the agent *)

Section AgentFacts.
Import MemoryManager.
Context {C : Type} `{VectorIndex C} `{VectorIndexAdmin C} (E : Externals).

Ltac run :=
  unfold mbind, M_bind, mret, M_ret, tryCatch, throw, dateNow, readCollection,
    writeCollection, liftClient in *.

(** A search changes nothing but the client. *)
Lemma searchRelevantMemories_world userId_ query options w :
  managerInitialized w = true ->
  exists memories,
    (searchRelevantMemories E userId_ query options w).1 = Ok memories
    /\ let w' := (searchRelevantMemories E userId_ query options w).2 in
       collection w' = collection w /\ clock w' = clock w /\ drawn w' = drawn w
       /\ managerInitialized w' = true /\ storeInitialized w' = storeInitialized w
       /\ ollamaClient w'
          = (if storeInitialized w
             then (Ollama.generateEmbedding (getCacheKey E) (embeddings E) query true
                     (ollamaClient w)).2
             else ollamaClient w).
Proof.
  intros Hm. unfold searchRelevantMemories, ensureInitialized,
    VectorStore.searchMemories, VectorStore.ensureInitialized, generateEmbedding. run.
  rewrite Hm. destruct (storeInitialized w) eqn:Hs; [|by eexists].
  destruct (Ollama.generateEmbedding _ _ _ _ _) as [[emb|msg] c]; [|by eexists].
  cbn [collection]. destruct (collectionQuery _ _ _ _); eexists; cbn; by rewrite ?Hm, ?Hs.
Qed.

Lemma getSession_setSession sessionId_ session m :
  SupportAgent.getSession sessionId_ (SupportAgent.setSession sessionId_ session m) = Some session.
Proof.
  induction m as [|[k v] m IH]; cbn.
  - by rewrite decide_True.
  - destruct (decide (sessionId_ = k)) as [->|Hne]; cbn.
    + by rewrite decide_True.
    + by rewrite decide_False.
Qed.

Lemma getSession_setSession_other other sessionId_ session m :
  other <> sessionId_ ->
  SupportAgent.getSession other (SupportAgent.setSession sessionId_ session m) = SupportAgent.getSession other m.
Proof.
  intros Hne. induction m as [|[k v] m IH]; cbn.
  - by rewrite decide_False.
  - destruct (decide (sessionId_ = k)) as [->|Hne']; cbn.
    + by rewrite !decide_False.
    + destruct (decide (other = k)); [done|apply IH].
Qed.

(** X: model down *)
Theorem chat_fails_when_model_is_down t userId_ message sessionId_ a msg :
  let a' := (SupportAgent.chat E t userId_ message sessionId_ a).2 in
  SupportAgent.initialized a = true ->
  managerInitialized (SupportAgent.world a) = true ->
  (forall messages, chatCompletion E messages = Throw msg) ->
  (SupportAgent.chat E t userId_ message sessionId_ a).1 = Throw ("Chat failed: " +:+ msg)
  /\ collection (SupportAgent.world a') = collection (SupportAgent.world a)
  /\ drawn (SupportAgent.world a') = drawn (SupportAgent.world a)
  /\ SupportAgent.stats a' = SupportAgent.stats a
  /\ SupportAgent.sessions a' = SupportAgent.sessions (SupportAgent.sessionOf t userId_ sessionId_ a).2
  /\ (SupportAgent.getSession sessionId_ (SupportAgent.sessions a) = None ->
      SupportAgent.getSession sessionId_ (SupportAgent.sessions a')
      = Some (mkSessionState userId_ 0 (SupportAgent.createdAt t) [])).
Proof.
  intros a' Hinit Hm Hdown. subst a'.
  unfold SupportAgent.chat, SupportAgent.ensureInitialized. rewrite Hinit.
  unfold SupportAgent.executeChatFlow.
  destruct (SupportAgent.sessionOf t userId_ sessionId_ a) as [session a1] eqn:Hsession.
  assert (Ha1 : SupportAgent.world a1 = SupportAgent.world a /\ SupportAgent.stats a1 = SupportAgent.stats a).
  { revert Hsession. unfold SupportAgent.sessionOf. destruct (SupportAgent.getSession _ _); by intros [= _ <-]. }
  destruct Ha1 as [Hw1 Hs1].
  unfold SupportAgent.call. cbn [SupportAgent.world]. rewrite Hw1.
  destruct (searchRelevantMemories_world userId_ message SupportAgent.chatSearch
              (atTime (SupportAgent.searchedAt t) (SupportAgent.world a)) Hm) as (memories & Hok & Hworld).
  cbn zeta in Hworld. destruct Hworld as (Hc & _ & Hd & _).
  destruct (searchRelevantMemories E userId_ message SupportAgent.chatSearch _) as [r w1].
  cbn [fst snd] in *. subst r.
  unfold chat, liftClient, Ollama.chat. cbn [SupportAgent.world ollamaClient atTime].
  rewrite Hdown. cbn [fst snd SupportAgent.world SupportAgent.stats SupportAgent.sessions collection drawn atTime].
  rewrite Hc, Hd. cbn [collection drawn atTime].
  split; [done|]. split; [done|]. split; [done|]. split; [done|]. split; [done|].
  intros Hnew. revert Hsession. unfold SupportAgent.sessionOf. rewrite Hnew. intros [= _ <-].
  cbn [SupportAgent.sessions]. apply getSession_setSession.
Qed.


(** A chat that returns went through the four steps of the flow. *)
Lemma chat_returned t userId_ message sessionId_ a r :
  (SupportAgent.chat E t userId_ message sessionId_ a).1 = Ok r ->
  let session := (SupportAgent.sessionOf t userId_ sessionId_ a).1 in
  let a1 := (SupportAgent.sessionOf t userId_ sessionId_ a).2 in
  exists memories w1 w2 w3,
    searchRelevantMemories E userId_ message SupportAgent.chatSearch
      (atTime (SupportAgent.searchedAt t) (SupportAgent.world a)) = (Ok memories, w1)
    /\ chat E
         [mkChatMessage "user"
            (SupportAgent.buildPrompt
               (Prompts.buildContext (SupportAgent.contextAt t) memories
                  Prompts.defaultMaxTokens
                +:+ Prompts.nl +:+ Prompts.nl
                +:+ SupportAgent.buildSessionContext (SupportAgent.sessionContextAt t)
                      session)
               message)]
         (atTime (clock w1) w1) = (Ok (response r), w2)
    /\ addInteraction E
         (mkInteraction userId_ message (response r) sessionId_
            (SupportAgent.interactionAt t) ∅)
         (atTime (SupportAgent.storedAt t) w2) = (Ok tt, w3)
    /\ r = {| response := response r;
              context := memories;
              memoriesUsed := length memories;
              responseTimestamp := SupportAgent.stampedAt t;
              responseTime := (SupportAgent.finishedAt t - SupportAgent.startTime t)%Q;
              relevanceScore := SupportAgent.avgRelevance memories |}
    /\ (SupportAgent.chat E t userId_ message sessionId_ a).2
       = SupportAgent.mkState w3
           (SupportAgent.setSession sessionId_
              (mkSessionState (sessionUserId session) (S (messageCount session))
                 (SupportAgent.updatedAt t) (take 3 memories))
              (SupportAgent.sessions a1))
           (SupportAgent.initialized a)
           {| SupportAgent.totalInteractions :=
                S (SupportAgent.totalInteractions (SupportAgent.stats a));
              SupportAgent.totalResponseTime :=
                (SupportAgent.totalResponseTime (SupportAgent.stats a)
                 + responseTime r)%Q;
              SupportAgent.totalMemoriesUsed :=
                (SupportAgent.totalMemoriesUsed (SupportAgent.stats a)
                 + memoriesUsed r)%nat |}.
Proof.
  unfold SupportAgent.chat, SupportAgent.ensureInitialized.
  destruct (SupportAgent.initialized a) eqn:Hinit; [|done].
  unfold SupportAgent.executeChatFlow.
  destruct (SupportAgent.sessionOf t userId_ sessionId_ a) as [session a1] eqn:Hsession.
  assert (Ha1 : SupportAgent.world a1 = SupportAgent.world a
                /\ SupportAgent.stats a1 = SupportAgent.stats a
                /\ SupportAgent.initialized a1 = SupportAgent.initialized a).
  { revert Hsession. unfold SupportAgent.sessionOf.
    destruct (SupportAgent.getSession _ _); by intros [= _ <-]. }
  destruct Ha1 as (Hw1 & Hs1 & Hi1).
  unfold SupportAgent.call. cbn [SupportAgent.world fst snd]. rewrite Hw1.
  destruct (searchRelevantMemories E userId_ message SupportAgent.chatSearch _)
    as [[memories|msg] w1] eqn:Hsearch; [|done].
  cbn [SupportAgent.world SupportAgent.sessions SupportAgent.initialized SupportAgent.stats].
  destruct (chat E _ _) as [[response_|msg] w2] eqn:Hchat; [|done].
  cbn [SupportAgent.world SupportAgent.sessions SupportAgent.initialized SupportAgent.stats].
  destruct (addInteraction E _ _) as [[[]|msg] w3] eqn:Hadd; [|done].
  cbn [fst snd SupportAgent.world SupportAgent.sessions SupportAgent.initialized
       SupportAgent.stats].
  intros [= <-]. cbn [response memoriesUsed responseTime].
  exists memories, w1, w2, w3. rewrite Hs1, Hi1, Hinit. by repeat split.
Qed.

Lemma sum_relevance_bound (memories : list Memory) :
  (forall m, m ∈ memories -> exists rel, relevance m = Some rel /\ (0.5 <= rel)%Q) ->
  forall start,
    (start + 0.5 * inject_Z (Z.of_nat (length memories))
     <= foldl (fun sum m => sum + Js.num_or (relevance m) 0)%Q start memories)%Q.
Proof.
  induction memories as [|m ms IH]; intros Hrel start.
  - cbn [foldl length]. change (inject_Z (Z.of_nat 0)) with 0%Q. lra.
  - cbn [foldl length]. destruct (Hrel m) as (rel & Hm & Hle); [by left|].
    eapply Qle_trans; [|apply IH; intros m' Hm'; apply Hrel; by right].
    rewrite Hm. cbn [Js.num_or].
    destruct (Qeq_bool rel 0) eqn:Hz; [apply Qeq_bool_iff in Hz; lra|].
    rewrite Nat2Z.inj_succ. unfold Z.succ. rewrite inject_Z_plus.
    change (inject_Z 1) with 1%Q. lra.
Qed.

(** X: response *)
Theorem chat_response_reports_the_search t userId_ message sessionId_ a r :
  (SupportAgent.chat E t userId_ message sessionId_ a).1 = Ok r ->
  let a' := (SupportAgent.chat E t userId_ message sessionId_ a).2 in
  let session := (SupportAgent.sessionOf t userId_ sessionId_ a).1 in
  memoriesUsed r = length (context r)
  /\ (length (context r) <= 5)%nat
  /\ (forall m, m ∈ context r ->
        exists rel, relevance m = Some rel /\ (0.5 <= rel)%Q)
  /\ (context r = [] -> relevanceScore r = 0%Q)
  /\ (context r <> [] -> (0.5 <= relevanceScore r)%Q)
  /\ responseTime r = (SupportAgent.finishedAt t - SupportAgent.startTime t)%Q
  /\ chatCompletion E
       [mkChatMessage "user"
          (SupportAgent.buildPrompt
             (Prompts.buildContext (SupportAgent.contextAt t) (context r)
                Prompts.defaultMaxTokens
              +:+ Prompts.nl +:+ Prompts.nl
              +:+ SupportAgent.buildSessionContext (SupportAgent.sessionContextAt t)
                    session)
             message)] = Ok (response r)
  /\ SupportAgent.totalInteractions (SupportAgent.stats a')
     = S (SupportAgent.totalInteractions (SupportAgent.stats a))
  /\ SupportAgent.totalMemoriesUsed (SupportAgent.stats a')
     = (SupportAgent.totalMemoriesUsed (SupportAgent.stats a) + length (context r))%nat
  /\ SupportAgent.totalResponseTime (SupportAgent.stats a')
     = (SupportAgent.totalResponseTime (SupportAgent.stats a) + responseTime r)%Q.
Proof.
  intros Hok. cbn zeta.
  destruct (chat_returned t userId_ message sessionId_ a r Hok)
    as (memories & w1 & w2 & w3 & Hsearch & Hchat & _ & Hr & Hstate).
  cbn zeta in *. rewrite Hstate. cbn [SupportAgent.stats SupportAgent.totalInteractions
    SupportAgent.totalMemoriesUsed SupportAgent.totalResponseTime].
  assert (Hctx : context r = memories) by (by rewrite Hr).
  assert (Hused : memoriesUsed r = length memories) by (by rewrite Hr).
  assert (Hscore : relevanceScore r = SupportAgent.avgRelevance memories) by (by rewrite Hr).
  assert (Htime : responseTime r
                  = (SupportAgent.finishedAt t - SupportAgent.startTime t)%Q)
    by (by rewrite Hr).
  rewrite Hctx, Hused, Hscore.
  destruct (searchRelevantMemories_post E userId_ message SupportAgent.chatSearch
              (atTime (SupportAgent.searchedAt t) (SupportAgent.world a)) memories)
    as (Hlen & Hrel & _); [by rewrite Hsearch|].
  cbn [Js.nat_or limit SupportAgent.chatSearch] in Hlen.
  assert (Hrel' : forall m, m ∈ memories ->
            exists rel, relevance m = Some rel /\ (0.5 <= rel)%Q).
  { intros m Hm. destruct (Hrel m Hm) as [(rel & Hm' & Hle) _]. by exists rel. }
  split; [done|]. split; [done|]. split; [done|].
  split; [by intros ->|]. split.
  - intros Hne. unfold SupportAgent.avgRelevance. destruct memories as [|m0 ms]; [done|].
    set (ms' := m0 :: ms) in *.
    pose proof (sum_relevance_bound ms' Hrel' 0) as Hsum.
    apply Qle_shift_div_l.
    + change 0%Q with (inject_Z 0). rewrite <- Zlt_Qlt. subst ms'. cbn [length]. lia.
    + lra.
  - split; [done|]. split; [|done].
    revert Hchat. unfold chat, liftClient, Ollama.chat. cbn [map role msgContent].
    destruct (chatCompletion E _) as [reply|msg] eqn:Hc; [|done]. by intros [= <- _].
Qed.

(** X: sessions *)
Theorem chat_keeps_the_session_books t userId_ message sessionId_ a r :
  (SupportAgent.chat E t userId_ message sessionId_ a).1 = Ok r ->
  let a' := (SupportAgent.chat E t userId_ message sessionId_ a).2 in
  let before := SupportAgent.getSession sessionId_ (SupportAgent.sessions a) in
  SupportAgent.getSession sessionId_ (SupportAgent.sessions a')
    = Some {| sessionUserId :=
                match before with Some s => sessionUserId s | None => userId_ end;
              messageCount :=
                S (match before with Some s => messageCount s | None => 0 end);
              lastInteractionTime := SupportAgent.updatedAt t;
              recentMemories := take 3 (context r) |}
  /\ (forall other, other <> sessionId_ ->
        SupportAgent.getSession other (SupportAgent.sessions a')
        = SupportAgent.getSession other (SupportAgent.sessions a)).
Proof.
  intros Hok. cbn zeta.
  destruct (chat_returned t userId_ message sessionId_ a r Hok)
    as (memories & w1 & w2 & w3 & _ & _ & _ & Hr & Hstate).
  cbn zeta in *. rewrite Hstate. cbn [SupportAgent.sessions].
  assert (Hctx : context r = memories) by (by rewrite Hr). rewrite Hctx.
  split.
  - rewrite getSession_setSession. unfold SupportAgent.sessionOf.
    by destruct (SupportAgent.getSession sessionId_ (SupportAgent.sessions a)).
  - intros other Hne. rewrite getSession_setSession_other by done.
    unfold SupportAgent.sessionOf.
    destruct (SupportAgent.getSession sessionId_ (SupportAgent.sessions a)); [done|].
    cbn [snd SupportAgent.sessions]. by apply getSession_setSession_other.
Qed.

Lemma addMemory_throws input w msg :
  managerInitialized w = true ->
  (Ollama.generateEmbedding (getCacheKey E) (embeddings E) (inContent input) true
     (ollamaClient w)).1 = Throw msg ->
  (addMemory E input w).1 = Throw msg
  /\ collection (addMemory E input w).2 = collection w
  /\ ollamaClient (addMemory E input w).2
     = (Ollama.generateEmbedding (getCacheKey E) (embeddings E) (inContent input) true
          (ollamaClient w)).2.
Proof.
  intros Hm. unfold addMemory, ensureInitialized, newId, generateEmbedding. run.
  rewrite Hm. cbn [ollamaClient collection].
  destruct (Ollama.generateEmbedding _ _ _ _ _) as [[e|msg'] c']; [done|].
  cbn. by intros [= ->].
Qed.

Lemma addInteraction_embeddings_down interaction w msg :
  managerInitialized w = true ->
  Ollama.embeddingCache (ollamaClient w) = [] ->
  (forall text, embeddings E text = Throw msg) ->
  (addInteraction E interaction w).1 = Throw ("Embedding generation failed: " +:+ msg)
  /\ collection (addInteraction E interaction w).2 = collection w
  /\ Ollama.totalChats (Ollama.stats (ollamaClient (addInteraction E interaction w).2))
     = Ollama.totalChats (Ollama.stats (ollamaClient w)).
Proof.
  intros Hm Hcache Hdown.
  set (turn :=
    {| inUserId := interactionUserId interaction;
       inContent := "User: " +:+ userMessage interaction +:+ Prompts.nl
                      +:+ "Assistant: " +:+ assistantMessage interaction;
       inType := "conversation";
       inCategory := categorizeMessage (userMessage interaction);
       inSessionId := Some (interactionSessionId interaction);
       inImportance := Some 0.5%Q;
       inMetadata :=
         interactionMetadata interaction ∪
         <["userMessage" := VStr (userMessage interaction)]>
         (<["assistantMessage" := VStr (assistantMessage interaction)]> ∅) |}).
  assert (Hgen : Ollama.generateEmbedding (getCacheKey E) (embeddings E) (inContent turn)
                   true (ollamaClient w)
                 = (Throw ("Embedding generation failed: " +:+ msg),
                    Ollama.countMiss (Ollama.countEmbedding (ollamaClient w)))).
  { unfold Ollama.generateEmbedding, Ollama.fetchEmbedding.
    cbn [Ollama.countEmbedding Ollama.embeddingCache].
    rewrite Hcache. cbn [Ollama.mapGet]. by rewrite Hdown. }
  destruct (addMemory_throws turn w ("Embedding generation failed: " +:+ msg) Hm)
    as (Hthrow & Hsame & Hclient); [by rewrite Hgen|].
  rewrite Hgen in Hclient.
  assert (Hrun : addInteraction E interaction w
                 = (Throw ("Embedding generation failed: " +:+ msg),
                    (addMemory E turn w).2)).
  { unfold addInteraction, ensureInitialized. run. rewrite Hm. fold turn.
    destruct (addMemory E turn w) as [r w']. cbn [fst snd] in *. by subst r. }
  rewrite Hrun. cbn [fst snd]. by rewrite Hsame, Hclient.
Qed.

(** X: embeddings down *)
Theorem chat_fails_when_embeddings_are_down t userId_ message sessionId_ a msg reply :
  let a' := (SupportAgent.chat E t userId_ message sessionId_ a).2 in
  SupportAgent.initialized a = true ->
  managerInitialized (SupportAgent.world a) = true ->
  Ollama.embeddingCache (ollamaClient (SupportAgent.world a)) = [] ->
  (forall text, embeddings E text = Throw msg) ->
  (forall messages, chatCompletion E messages = Ok reply) ->
  (SupportAgent.chat E t userId_ message sessionId_ a).1
    = Throw ("Embedding generation failed: " +:+ msg)
  /\ collection (SupportAgent.world a') = collection (SupportAgent.world a)
  /\ SupportAgent.stats a' = SupportAgent.stats a
  /\ Ollama.totalChats (Ollama.stats (ollamaClient (SupportAgent.world a')))
     = S (Ollama.totalChats (Ollama.stats (ollamaClient (SupportAgent.world a))))
  /\ SupportAgent.sessions a'
     = SupportAgent.sessions (SupportAgent.sessionOf t userId_ sessionId_ a).2.
Proof.
  intros a' Hinit Hm Hcache Hdown Hreply. subst a'.
  unfold SupportAgent.chat, SupportAgent.ensureInitialized. rewrite Hinit.
  unfold SupportAgent.executeChatFlow.
  destruct (SupportAgent.sessionOf t userId_ sessionId_ a) as [session a1] eqn:Hsession.
  assert (Ha1 : SupportAgent.world a1 = SupportAgent.world a
                /\ SupportAgent.stats a1 = SupportAgent.stats a).
  { revert Hsession. unfold SupportAgent.sessionOf.
    destruct (SupportAgent.getSession _ _); by intros [= _ <-]. }
  destruct Ha1 as [Hw1 Hs1].
  unfold SupportAgent.call. cbn [SupportAgent.world]. rewrite Hw1.
  destruct (searchRelevantMemories_world userId_ message SupportAgent.chatSearch
              (atTime (SupportAgent.searchedAt t) (SupportAgent.world a)) Hm)
    as (memories & Hok & Hworld).
  cbn zeta in Hworld. destruct Hworld as (Hc & _ & _ & Hm1 & _ & Hclient).
  destruct (searchRelevantMemories E userId_ message SupportAgent.chatSearch _) as [r w1].
  cbn [fst snd] in *. subst r.
  assert (Hclient1 : Ollama.embeddingCache (ollamaClient w1) = []
                     /\ Ollama.totalChats (Ollama.stats (ollamaClient w1))
                        = Ollama.totalChats
                            (Ollama.stats (ollamaClient (SupportAgent.world a)))).
  { rewrite Hclient. cbn [storeInitialized ollamaClient atTime].
    destruct (storeInitialized (SupportAgent.world a)); [|done].
    unfold Ollama.generateEmbedding, Ollama.fetchEmbedding.
    cbn [Ollama.countEmbedding Ollama.embeddingCache].
    rewrite Hcache. cbn [Ollama.mapGet]. by rewrite Hdown. }
  destruct Hclient1 as [Hcache1 Hchats1].
  unfold chat, liftClient, Ollama.chat. cbn [SupportAgent.world ollamaClient atTime].
  rewrite Hreply.
  cbn [fst snd SupportAgent.world SupportAgent.stats SupportAgent.sessions].
  set (w2 := atTime (SupportAgent.storedAt t) _).
  set (interaction := mkInteraction _ _ _ _ _ _).
  destruct (addInteraction_embeddings_down interaction w2 msg) as (Hthrow & Hsame & Hchats);
    [done|done|done|].
  destruct (addInteraction E interaction w2) as [r3 w3]. cbn [fst snd] in *. subst r3.
  cbn [fst snd SupportAgent.world SupportAgent.stats SupportAgent.sessions].
  rewrite Hsame, Hchats. subst w2.
  cbn [collection ollamaClient atTime Ollama.stats Ollama.countChat Ollama.totalChats].
  rewrite Hc, Hchats1. done.
Qed.

End AgentFacts.

(** * Concrete runs *)

(** The hypotheses of the theorems above hold on concrete inputs, and the
    statements that the code does not satisfy fail on concrete inputs. *)


Lemma buildContext_budget_witness :
  0 <= 16 /\
  tokensOf (counted (Prompts.contextSections Sample.now
                       [Sample.largeFonts; Sample.loginBug] 16)) <= 16.
Proof.
  assert (H : 0 <= 16) by lia.
  split; [exact H|].
  exact (proj1 (buildContext_budget Sample.now [Sample.largeFonts; Sample.loginBug] 16 H)).
Defined.

(** With a budget of 7 the block holds a header and a marker and is estimated
    at 17 tokens; with a budget of 5 the header does not fit and the block is
    empty, without a marker. In both cases the one formatted line alone
    exceeds the budget. *)
Lemma buildContext_budget_counterexample :
  (7 < Prompts.estimateTokens (Prompts.formatLine Sample.now 150 0 Sample.darkMode)
   /\ Js.includes "truncated due to context limit"
        (Prompts.buildContext Sample.now [Sample.darkMode] 7) = true
   /\ 7 < Prompts.estimateTokens (Prompts.buildContext Sample.now [Sample.darkMode] 7))
  /\ (5 < Prompts.estimateTokens (Prompts.formatLine Sample.now 150 0 Sample.darkMode)
      /\ Js.includes "truncated due to context limit"
           (Prompts.buildContext Sample.now [Sample.darkMode] 5) = false).
Proof. repeat split; by vm_compute. Qed.

(** After the marker of the first section, the header and a line of the
    second section are appended; and two sections can each end in a marker. *)
Lemma addSection_marker_counterexample :
  Prompts.contextSections Sample.now [Sample.largeFonts; Sample.loginBug] 16
  = [ Prompts.nl +:+ "CUSTOMER PROFILE:";
      Prompts.truncationMarker 1;
      Prompts.nl +:+ "KNOWN ISSUES:";
      "1. [today] Bug: login fails" ]
  /\ Prompts.contextSections Sample.now [Sample.darkMode; Sample.loginBug] 12
     = [ Prompts.nl +:+ "CUSTOMER PROFILE:";
         Prompts.truncationMarker 1;
         Prompts.nl +:+ "KNOWN ISSUES:";
         Prompts.truncationMarker 1 ].
Proof. split; by vm_compute. Qed.

Lemma cache_evicts_first_inserted_witness :
  (forall t, t ∈ Sample.calls ++ ["text 1000"] -> exists e, Sample.embed t = Ok e)
  /\ length (Ollama.firsts Sample.calls) = Ollama.MAX_CACHE_SIZE
  /\ ("text 1000" ∉ Sample.calls)
  /\ exists first others,
       Ollama.firsts Sample.calls = first :: others
       /\ Ollama.keysOf (Ollama.embedAll (fun text => text) Sample.embed
                           (Sample.calls ++ ["text 1000"]) Ollama.create)
           = ((fun text => text) <$> others ++ ["text 1000"])
       /\ (first ∉ Ollama.keysOf (Ollama.embedAll (fun text => text) Sample.embed
                                    (Sample.calls ++ ["text 1000"]) Ollama.create))
       /\ length (Ollama.keysOf (Ollama.embedAll (fun text => text) Sample.embed
                                   (Sample.calls ++ ["text 1000"]) Ollama.create))
           = Ollama.MAX_CACHE_SIZE.
Proof.
  assert (H1 : forall t, t ∈ Sample.calls ++ ["text 1000"] ->
                 exists e, Sample.embed t = Ok e)
    by (intros t _; by eexists).
  assert (H2 : forall t u, t ∈ Sample.calls ++ ["text 1000"] ->
                 u ∈ Sample.calls ++ ["text 1000"] ->
                 (fun text : string => text) t = (fun text : string => text) u -> t = u)
    by (intros t u _ _ Heq; exact Heq).
  assert (H3 : length (Ollama.firsts Sample.calls) = Ollama.MAX_CACHE_SIZE)
    by (by vm_compute).
  assert (H4 : "text 1000" ∉ Sample.calls)
    by (apply (bool_decide_unpack _); by vm_compute).
  split; [exact H1|]. split; [exact H3|]. split; [exact H4|].
  exact (cache_evicts_first_inserted (fun text => text) Sample.embed
           Sample.calls "text 1000" H1 H2 H3 H4).
Defined.


Lemma retrieval_failure_yields_empty_list_witness :
  managerInitialized Sample.down = true
  /\ storeInitialized Sample.down = true
  /\ (Ollama.generateEmbedding (getCacheKey Sample.externals)
        (embeddings Sample.externals) "what is my name" true
        (ollamaClient Sample.down)).1 = Ok [15%Q]
  /\ collectionQuery (VectorIndex := DownIndex.index) [15%Q] 10
       (Some {[ "userId" := VStr "u1" ]}) tt = Throw "connection refused"
  /\ (MemoryManager.searchRelevantMemories (H := DownIndex.index) Sample.externals
        "u1" "what is my name" Sample.noOptions Sample.down).1 = Ok [].
Proof.
  assert (H1 : managerInitialized Sample.down = true) by reflexivity.
  assert (H2 : storeInitialized Sample.down = true) by reflexivity.
  assert (H3 : (Ollama.generateEmbedding (getCacheKey Sample.externals)
                  (embeddings Sample.externals) "what is my name" true
                  (ollamaClient Sample.down)).1 = Ok [15%Q]) by reflexivity.
  assert (H4 : collectionQuery (VectorIndex := DownIndex.index) [15%Q] 10
                 (Some {[ "userId" := VStr "u1" ]}) tt = Throw "connection refused")
    by reflexivity.
  split; [exact H1|]. split; [exact H2|]. split; [exact H3|]. split; [exact H4|].
  refine (proj2 (retrieval_failure_yields_empty_list (H := DownIndex.index)
                   Sample.externals "u1" "what is my name" Sample.noOptions
                   Sample.down H1 H2 _)).
  right. exists [15%Q], "connection refused". split; [exact H3|exact H4].
Defined.

(** The index is down, or the embedding provider is unreachable: the adapter
    throws, the manager answers with the empty list. *)
Lemma retrieval_failure_counterexample :
  (VectorStore.searchMemories (H := DownIndex.index) Sample.externals
     "what is my name" "u1" 10 Sample.down).1
  = Throw "Search failed: connection refused"
  /\ (MemoryManager.searchRelevantMemories (H := DownIndex.index) Sample.externals
        "u1" "what is my name" Sample.noOptions Sample.down).1 = Ok []
  /\ (VectorStore.searchMemories (H := ListIndex.index Sample.discrete) Sample.offline
        "what is my name" "u1" 10 Sample.empty).1
     = Throw "Search failed: Embedding generation failed: connection refused"
  /\ (MemoryManager.searchRelevantMemories (H := ListIndex.index Sample.discrete)
        Sample.offline "u1" "what is my name" Sample.noOptions Sample.empty).1
     = Ok [].
Proof. repeat split; by vm_compute. Qed.

Lemma duplicate_content_stored_once_witness :
  (forall v, Sample.discrete v v == 0)%Q
  /\ ready Sample.empty
  /\ (MemoryManager.addMemory (H := ListIndex.index Sample.discrete) Sample.externals
        Sample.asPreference Sample.empty).1 = Ok "id-0"
  /\ (MemoryManager.addMemory (H := ListIndex.index Sample.discrete) Sample.externals
        Sample.asPreference
        (MemoryManager.addMemory (H := ListIndex.index Sample.discrete)
           Sample.externals Sample.asPreference Sample.empty).2).1
     = (MemoryManager.addMemory (H := ListIndex.index Sample.discrete) Sample.externals
          Sample.asPreference Sample.empty).1.
Proof.
  assert (H1 : (forall v, Sample.discrete v v == 0)%Q).
  { intros v. unfold Sample.discrete. by rewrite bool_decide_eq_true_2. }
  assert (H2 : ready Sample.empty) by (by split).
  assert (H3 : inMetadata Sample.asPreference !! "userId" = None) by reflexivity.
  assert (H4 : uuidv4 Sample.externals (drawn Sample.empty)
               ∉ map entryId (collection Sample.empty))
    by apply not_elem_of_nil.
  assert (H5 : (Ollama.generateEmbedding (getCacheKey Sample.externals)
                  (embeddings Sample.externals) (inContent Sample.asPreference) true
                  (ollamaClient Sample.empty)).1 = Ok [16%Q]) by reflexivity.
  pose proof (duplicate_content_stored_once Sample.discrete Sample.externals
                Sample.asPreference Sample.asPreference Sample.empty [16%Q]
                H1 H2 eq_refl eq_refl H3 H4 H5) as (Hfirst & _ & Hsecond & _).
  split; [exact H1|]. split; [exact H2|]. split; [exact Hfirst|exact Hsecond].
Defined.

(** A conversation turn is stored; the same sentence then arrives as a
    preference. No preference of the user is stored, so a lookup scoped to the
    type finds nothing, yet the insertion is skipped and the id of the
    conversation record is returned. *)
Lemma dedup_ignores_type_counterexample :
  (MemoryManager.addMemory (H := ListIndex.index Sample.discrete) Sample.externals
     Sample.asConversation Sample.empty).1 = Ok "id-0"
  /\ ListIndex.scope (Some {[ "userId" := VStr "u1"; "type" := VStr "preference" ]})
       (collection (MemoryManager.addMemory (H := ListIndex.index Sample.discrete)
                      Sample.externals Sample.asConversation Sample.empty).2)
     = []
  /\ (MemoryManager.addMemory (H := ListIndex.index Sample.discrete) Sample.externals
        Sample.asPreference
        (MemoryManager.addMemory (H := ListIndex.index Sample.discrete)
           Sample.externals Sample.asConversation Sample.empty).2).1
     = Ok "id-0"
  /\ map (fun e => entryMetadata e !! "type")
       (collection
          (MemoryManager.addMemory (H := ListIndex.index Sample.discrete)
             Sample.externals Sample.asPreference
             (MemoryManager.addMemory (H := ListIndex.index Sample.discrete)
                Sample.externals Sample.asConversation Sample.empty).2).2)
     = [Some (VStr "conversation")].
Proof. repeat split; by vm_compute. Qed.

(** The user's turn "My name is Alice" is on record as a conversation; the
    fact about Alice is stored, then the fact about Bob a minute later. *)
Lemma name_conflict_replaces_old_witness :
  let store := MemoryManager.storeFact (H := ListIndex.index Sample.discrete)
                 Sample.externals in
  let later := (Sample.now + 60000)%Q in
  let first := store Sample.tellsAlice Sample.aliceFact Sample.history in
  let second := store Sample.tellsBob Sample.bobFact (atTime later first.2) in
  map entryId (collection Sample.history) = ["id-0"]
  /\ first.1 = Ok tt /\ second.1 = Ok tt
  /\ id <$> conflictOf later "u1" Sample.bobFact (collection first.2) = Some "id-1"
  /\ exists bobEntry,
       collection second.2 = collection Sample.history ++ [bobEntry]
       /\ List.filter (tagged "name") (userMemories later "u1" (collection second.2))
          = [VectorStore.memoryOfEntry later bobEntry]
       /\ entryId bobEntry = "id-2"
       /\ entryDocument bobEntry = "Customer's name is Bob"
       /\ entryMetadata bobEntry !! "replacedMemoryId" = Some (VStr "id-1")
       /\ entryMetadata bobEntry !! "replacedAt" = Some (VNum later).
Proof.
  intros store later first second.
  assert (Hready : ready Sample.history) by (by split).
  assert (Hids : map entryId (collection Sample.history) = ["id-0"])
    by (by vm_compute).
  assert (Htag : forall now m,
             m ∈ userMemories now "u1" (collection Sample.history) ->
             tagged "name" m = false).
  { intros now m Hm.
    replace (collection Sample.history)
      with [VectorStore.entryOf
              (vectorMemoryOf Sample.asConversation "id-0" Sample.now [16%Q])]
      in Hm by (by vm_compute).
    unfold userMemories in Hm.
    rewrite filter_cons_True in Hm by (by apply satisfies_user).
    apply list_elem_of_singleton in Hm as ->. by vm_compute. }
  assert (HtA : factType Sample.aliceFact ∈ MemoryManager.conflictableTypes)
    by (by left).
  assert (HtB : factType Sample.bobFact ∈ MemoryManager.conflictableTypes)
    by (by left).
  assert (HfA : uuidv4 Sample.externals (drawn Sample.history)
                ∉ map entryId (collection Sample.history)).
  { rewrite Hids. apply not_elem_of_cons. split; [by vm_compute|].
    apply not_elem_of_nil. }
  assert (HfB : uuidv4 Sample.externals (S (drawn Sample.history))
                ∉ map entryId (collection Sample.history)).
  { rewrite Hids. apply not_elem_of_cons. split; [by vm_compute|].
    apply not_elem_of_nil. }
  assert (HeA : (Ollama.generateEmbedding (getCacheKey Sample.externals)
                   (embeddings Sample.externals) "Customer's name is Alice" true
                   (ollamaClient Sample.history)).1 = Ok [24%Q])
    by (by vm_compute).
  assert (HeB : (Ollama.generateEmbedding (getCacheKey Sample.externals)
                   (embeddings Sample.externals) "Customer's name is Bob" true
                   (Ollama.generateEmbedding (getCacheKey Sample.externals)
                      (embeddings Sample.externals) "Customer's name is Alice" true
                      (ollamaClient Sample.history)).2).1 = Ok [22%Q])
    by (by vm_compute).
  assert (HdA : duplicateOf Sample.discrete "u1" [24%Q] (collection Sample.history)
                = None) by (by vm_compute).
  assert (HdB : duplicateOf Sample.discrete "u1" [22%Q] (collection Sample.history)
                = None) by (by vm_compute).
  pose proof (name_conflict_replaces_old Sample.discrete Sample.externals
                Sample.tellsAlice Sample.tellsBob Sample.history
                Sample.aliceFact Sample.bobFact later [24%Q] [22%Q]
                Hready eq_refl eq_refl HtA HtB eq_refl Htag HeA HeB
                HdA HdB HfA HfB)
    as (Hfirst & Hsecond & Hconflict & Hbob & _).
  split; [exact Hids|]. split; [exact Hfirst|]. split; [exact Hsecond|].
  split; [exact Hconflict|exact Hbob].
Defined.
